(** * Condo Amenity & Service Hub: amenity-booking core

    A shallow embedding of the booking logic of [CCT211.py] (SQLite
    variant) and [CCT211_Project2.py] (JSON variant): the date and time
    validators of [AmenityBooking], [parse_time_to_minutes],
    [DataStore.next_id], and the [AmenityWindow] / [BookingForm] operations
    that create, edit, cancel and delete bookings.

    Layout: the Python built-ins the program calls ([Py]), the code shared
    by both files, the parts on which the two files differ (modules
    [CCT211] and [CCT211_Project2]), and then the theorems.

    Modelling choices.  A [str] is a list of code points, since [\d] and
    [int()] read every Unicode decimal digit and [strip()] every Unicode
    white space.  A [ValueError] is a left injection, by message.  A
    method of the window is a function from the window to its result,
    the window it leaves and the dialogs and store calls it made, in
    order; the answers of the user (list selection, yes or no) are
    arguments. *)

From Stdlib Require Import ZArith NArith List String Ascii Bool Lia.
Import ListNotations.
Local Open Scope Z_scope.

(** * The Python built-ins used by the program *)

Module Py.

(** A Python [str] is a sequence of Unicode code points. *)
Definition str := list N.

(** ASCII literals of the source, written as Rocq strings. *)
Definition lit (s : string) : str :=
  map N_of_ascii (list_ascii_of_string s).

(** [a == b] on strings. *)
Fixpoint str_eqb (a b : str) : bool :=
  match a, b with
  | [], [] => true
  | x :: a', y :: b' => N.eqb x y && str_eqb a' b'
  | _, _ => false
  end.

(** First code point of every run of ten decimal digits (Unicode general
    category Nd, Unicode 14.0 as shipped with CPython 3.11).  Both
    [\d] in a [str] pattern and [int()] read all of them. *)
Definition Nd_starts : list N :=
  [48; 1632; 1776; 1984; 2406; 2534; 2662; 2790; 2918; 3046; 3174; 3302;
   3430; 3558; 3664; 3792; 3872; 4160; 4240; 6112; 6160; 6470; 6608; 6784;
   6800; 6992; 7088; 7232; 7248; 42528; 43216; 43264; 43472; 43504; 43600;
   44016; 65296; 66720; 68912; 69734; 69872; 69942; 70096; 70384; 70736;
   70864; 71248; 71360; 71472; 71904; 72016; 72784; 73040; 73120; 92768;
   92864; 93008; 120782; 120792; 120802; 120812; 120822; 123200; 123632;
   125264; 130032]%N.

(** [unicodedata.decimal]: the value of a decimal digit. *)
Definition decimal (c : N) : option Z :=
  match find (fun s => (s <=? c) && (c <? s + 10))%N Nd_starts with
  | Some s => Some (Z.of_N (c - s))
  | None => None
  end.

Definition isdecimal (c : N) : bool :=
  match decimal c with Some _ => true | None => false end.

(** [str.isspace] on one code point: what [str.strip()] removes. *)
Definition isspace (c : N) : bool :=
  ((9 <=? c) && (c <=? 13) || (28 <=? c) && (c <=? 32)
   || (c =? 133) || (c =? 160) || (c =? 5760)
   || (8192 <=? c) && (c <=? 8202)
   || (c =? 8232) || (c =? 8233) || (c =? 8239) || (c =? 8287)
   || (c =? 12288))%N.

(** The white space [int()] skips around a literal: the same set, less
    the four separators U+001C..U+001F. *)
Definition int_isspace (c : N) : bool :=
  (isspace c && negb ((28 <=? c) && (c <=? 31)))%N.

Fixpoint lstrip_with (sp : N -> bool) (s : str) : str :=
  match s with
  | c :: t => if sp c then lstrip_with sp t else s
  | [] => []
  end.

Definition strip_with (sp : N -> bool) (s : str) : str :=
  rev (lstrip_with sp (rev (lstrip_with sp s))).

(** [s.strip()] *)
Definition strip (s : str) : str := strip_with isspace s.

(** [s.split(sep)] for a one-character separator. *)
Fixpoint split (sep : N) (s : str) : list str :=
  match s with
  | [] => [[]]
  | c :: t =>
      if (c =? sep)%N then [] :: split sep t
      else match split sep t with
           | w :: ws => (c :: w) :: ws
           | [] => [[c]]
           end
  end.

(** [sys.int_info.default_max_str_digits] *)
Definition int_max_str_digits : N := 4300.

(** The digits of an integer literal: a non-empty run of decimal digits
    in which single underscores may separate digits.  Returns the value
    and the number of digits read. *)
Fixpoint int_body (s : str) (acc : Z) (ndig : N) (after_digit : bool)
  : option (Z * N) :=
  match s with
  | [] => if after_digit then Some (acc, ndig) else None
  | c :: t =>
      if (c =? 95)%N then
        if after_digit then int_body t acc ndig false else None
      else
        match decimal c with
        | Some d => int_body t (10 * acc + d) (N.succ ndig) true
        | None => None
        end
  end.

(** [int(s)] for a [str] argument (base 10); [None] is [ValueError]. *)
Definition int (s : str) : option Z :=
  let t := strip_with int_isspace s in
  let '(neg, body) :=
    match t with
    | c :: b =>
        if (c =? 43)%N then (false, b)        (* + *)
        else if (c =? 45)%N then (true, b)    (* - *)
        else (false, t)
    | [] => (false, t)
    end in
  match int_body body 0 0%N false with
  | Some (v, n) =>
      if (int_max_str_digits <? n)%N then None
      else Some (if neg then - v else v)
  | None => None
  end.

(** The regular expressions of the program are sequences of [\d] and
    literal characters; [re.fullmatch] on such a pattern. *)
Inductive atom := Digit | Chr (c : N).

Fixpoint fullmatch (p : list atom) (s : str) : bool :=
  match p, s with
  | [], [] => true
  | Digit :: p', c :: s' => isdecimal c && fullmatch p' s'
  | Chr k :: p', c :: s' => (c =? k)%N && fullmatch p' s'
  | _, _ => false
  end.

(** ** [datetime.date] and [datetime.time] *)

Record date := mk_date { year : Z; month : Z; day : Z }.

Definition is_leap (y : Z) : bool :=
  (y mod 4 =? 0) && (negb (y mod 100 =? 0) || (y mod 400 =? 0)).

Definition days_in_month (y m : Z) : Z :=
  if (m =? 2) && is_leap y then 29
  else nth (Z.to_nat m) [0; 31; 28; 31; 30; 31; 30; 31; 31; 30; 31; 30; 31] 0.

(** [date(y, m, d)]; [None] is [ValueError]. *)
Definition new_date (y m d : Z) : option date :=
  if (1 <=? y) && (y <=? 9999) && (1 <=? m) && (m <=? 12)
     && (1 <=? d) && (d <=? days_in_month y m)
  then Some (mk_date y m d) else None.

(** [a < b] on dates. *)
Definition date_ltb (a b : date) : bool :=
  (year a <? year b)
  || (year a =? year b)
     && ((month a <? month b) || (month a =? month b) && (day a <? day b)).

(** Decimal digits of a non-negative integer, least significant first;
    [decimal_repr] puts them in reading order. *)
Fixpoint digits_rev (fuel : nat) (n : Z) : str :=
  match fuel with
  | O => []
  | S f => Z.to_N (48 + n mod 10) :: (if n <? 10 then [] else digits_rev f (n / 10))
  end.

Definition decimal_repr (n : Z) : str :=
  rev (digits_rev (S (Z.to_nat (Z.log2 n))) n).

(** ["%0wd" % n] for [n >= 0]. *)
Definition zero_padded (w : nat) (n : Z) : str :=
  let ds := decimal_repr n in
  repeat 48%N (w - List.length ds) ++ ds.

(** [d.isoformat()] *)
Definition isoformat (d : date) : str :=
  zero_padded 4 (year d) ++ [45%N] ++ zero_padded 2 (month d)
    ++ [45%N] ++ zero_padded 2 (day d).

Record time := mk_time { hour : Z; minute : Z }.

(** [time(h, m)]; [None] is [ValueError]. *)
Definition new_time (h m : Z) : option time :=
  if (0 <=? h) && (h <=? 23) && (0 <=? m) && (m <=? 59)
  then Some (mk_time h m) else None.

(** [a >= b] on times. *)
Definition time_geb (a b : time) : bool :=
  (hour b <? hour a) || (hour a =? hour b) && (minute b <=? minute a).

End Py.

(** * Code common to the two files *)

Record User := mk_User
  { username : Py.str;
    role : Py.str;        (* "resident" or "admin" *)
    user_unit : Py.str }.

Definition is_admin (u : User) : bool := Py.str_eqb (role u) (Py.lit "admin").

(** The attributes of an [AmenityBooking] object. *)
Record AmenityBooking := mk_AmenityBooking
  { b_id : Z;
    b_unit : Py.str;
    b_facility_type : Py.str;
    b_date : Py.str;
    b_start_time : Py.str;
    b_end_time : Py.str;
    b_status : Py.str;
    b_created_by : Py.str }.

Definition Booked : Py.str := Py.lit "Booked".
Definition Cancelled : Py.str := Py.lit "Cancelled".

Definition set_status (s : Py.str) (b : AmenityBooking) : AmenityBooking :=
  mk_AmenityBooking (b_id b) (b_unit b) (b_facility_type b) (b_date b)
    (b_start_time b) (b_end_time b) s (b_created_by b).

(** [parse_time_to_minutes]: the [ValueError] of the tuple unpacking or
    of either [int()] is caught and turned into [-1]. *)
Definition parse_time_to_minutes (time_str : Py.str) : Z :=
  match Py.split 58 time_str with
  | [h; m] =>
      match Py.int h with
      | Some hv =>
          match Py.int m with
          | Some mv => hv * 60 + mv
          | None => -1
          end
      | None => -1
      end
  | _ => -1
  end.

(** [DataStore]: the rows of the bookings table (SQLite) or the
    ["amenity_bookings"] list (JSON).  [set_amenity_bookings] replaces
    them all. *)
Record DataStore := mk_DataStore { amenity_bookings : list AmenityBooking }.

(** [max(...)] over a non-empty sequence of ids. *)
Definition max_id (first : Z) (rest : list Z) : Z := fold_left Z.max rest first.

(** [DataStore.next_id("amenity_bookings")].  The JSON file returns 1 on
    an empty list and [max(ids) + 1] otherwise; the SQLite file reads
    [SELECT MAX(id)], takes 0 for the NULL of an empty table, and adds 1. *)
Definition next_id (store : DataStore) : Z :=
  match map b_id (amenity_bookings store) with
  | [] => 1
  | i :: ids => max_id i ids + 1
  end.

(** ** The window and its effects *)

(** What an operation of the window does to the outside: dialogs, calls
    on the store, and widget updates, in the order they happen. *)
Inductive Event :=
| showwarning (title : string)
| showerror (title : string)
| showinfo (title : string)
| askyesno (title : string)
| store_set_amenity_bookings (rows : list AmenityBooking)
| store_save
| refresh_listbox
| on_changed_called
| BookingForm_opened (booking : option AmenityBooking)
| BookingForm_destroyed.

Inductive Exn := IndexError.

Record AmenityWindow := mk_AmenityWindow
  { store : DataStore;
    user : User;
    on_changed : bool;     (* whether a callback was given; the JSON file has none *)
    bookings : list AmenityBooking }.

(** A method of the window: it may raise, it may change the window, and
    it leaves a trace of events. *)
Definition GUI (A : Type) : Type :=
  AmenityWindow -> (Exn + A) * AmenityWindow * list Event.

Definition ret {A} (a : A) : GUI A := fun w => (inr a, w, []).

Definition bind {A B} (m : GUI A) (k : A -> GUI B) : GUI B :=
  fun w =>
    match m w with
    | (inl e, w1, ev1) => (inl e, w1, ev1)
    | (inr a, w1, ev1) =>
        let '(r, w2, ev2) := k a w1 in (r, w2, ev1 ++ ev2)
    end.

Definition raise {A} (e : Exn) : GUI A := fun w => (inl e, w, []).
Definition emit (e : Event) : GUI unit := fun w => (inr tt, w, [e]).
Definition self : GUI AmenityWindow := fun w => (inr w, w, []).

Definition set_bookings (bs : list AmenityBooking) : GUI unit :=
  fun w => (inr tt, mk_AmenityWindow (store w) (user w) (on_changed w) bs, []).

Definition set_store (s : DataStore) : GUI unit :=
  fun w => (inr tt, mk_AmenityWindow s (user w) (on_changed w) (bookings w), []).

Declare Scope gui_scope.
Delimit Scope gui_scope with gui.
Notation "x <- m ;; k" := (bind m (fun x => k))
  (at level 61, m at next level, right associativity) : gui_scope.
Notation "m ;; k" := (bind m (fun _ => k))
  (at level 61, right associativity) : gui_scope.
Local Open Scope gui_scope.

(** [AmenityWindow.save_and_refresh] *)
Definition save_and_refresh : GUI unit :=
  w <- self ;;
  set_store (mk_DataStore (bookings w)) ;;
  emit (store_set_amenity_bookings (bookings w)) ;;
  emit store_save ;;
  emit refresh_listbox ;;
  if on_changed w then emit on_changed_called else ret tt.

(** [AmenityWindow.get_selected_booking]; [idx] is what
    [listbox.curselection()] returns.  The index is kept with the booking
    because the callers go on to mutate that very object. *)
Definition get_selected_booking (idx : list nat)
  : GUI (option (nat * AmenityBooking)) :=
  w <- self ;;
  match idx with
  | [] => ret None
  | i :: _ =>
      match nth_error (bookings w) i with
      | Some b => ret (Some (i, b))
      | None => raise IndexError
      end
  end.

(** [AmenityWindow._can_modify] *)
Definition _can_modify (w : AmenityWindow) (booking : option AmenityBooking) : bool :=
  match booking with
  | None => false
  | Some b =>
      if is_admin (user w) then true
      else Py.str_eqb (b_created_by b) (username (user w))
  end.

(** The loop of [has_conflict] over [self.bookings]. *)
Fixpoint conflict_loop (new_booking : AmenityBooking) (new_start new_end : Z)
    (bs : list AmenityBooking) : bool :=
  match bs with
  | [] => false
  | b :: rest =>
      if b_id b =? b_id new_booking then conflict_loop new_booking new_start new_end rest
      else if Py.str_eqb (b_facility_type b) (b_facility_type new_booking)
              && Py.str_eqb (b_date b) (b_date new_booking)
      then
        let start := parse_time_to_minutes (b_start_time b) in
        let end_ := parse_time_to_minutes (b_end_time b) in
        if (start <? new_end) && (new_start <? end_) then true
        else conflict_loop new_booking new_start new_end rest
      else conflict_loop new_booking new_start new_end rest
  end.

(** [AmenityWindow.has_conflict] *)
Definition has_conflict (w : AmenityWindow) (new_booking : AmenityBooking) : bool :=
  let new_start := parse_time_to_minutes (b_start_time new_booking) in
  let new_end := parse_time_to_minutes (b_end_time new_booking) in
  if (new_start <? 0) || (new_end <? 0) then false
  else conflict_loop new_booking new_start new_end (bookings w).

(** The edit branch of [on_booking_saved]: the first booking with the id
    is replaced, then the loop breaks. *)
Fixpoint replace_by_id (booking : AmenityBooking) (bs : list AmenityBooking)
  : list AmenityBooking :=
  match bs with
  | [] => []
  | b :: rest =>
      if b_id b =? b_id booking then booking :: rest
      else b :: replace_by_id booking rest
  end.

(** [AmenityWindow.on_booking_saved] *)
Definition on_booking_saved (booking : AmenityBooking) (is_new : bool) : GUI bool :=
  w <- self ;;
  if has_conflict w booking then
    emit (showerror "Conflict") ;;
    ret false
  else
    (if is_new then set_bookings (bookings w ++ [booking])
     else set_bookings (replace_by_id booking (bookings w))) ;;
    save_and_refresh ;;
    (if is_admin (user w) then emit (showinfo "Resident notified") else ret tt) ;;
    ret true.

(** [b.status = "Cancelled"] on the object at position [i] of the list. *)
Fixpoint update_nth (i : nat) (f : AmenityBooking -> AmenityBooking)
    (bs : list AmenityBooking) : list AmenityBooking :=
  match bs, i with
  | [], _ => []
  | b :: rest, O => f b :: rest
  | b :: rest, S j => b :: update_nth j f rest
  end.

(** [AmenityWindow.edit_booking]: past the permission gate a form is
    opened on the selected booking. *)
Definition edit_booking (idx : list nat) : GUI (option AmenityBooking) :=
  sel <- get_selected_booking idx ;;
  match sel with
  | None => emit (showwarning "Select") ;; ret None
  | Some (_, b) =>
      w <- self ;;
      if negb (_can_modify w (Some b)) then
        emit (showerror "Permission") ;; ret None
      else
        emit (BookingForm_opened (Some b)) ;; ret (Some b)
  end.

(** [AmenityWindow.cancel_booking]; [answer] is the user's reply to the
    confirmation dialog, should it be shown. *)
Definition cancel_booking (idx : list nat) (answer : bool) : GUI unit :=
  sel <- get_selected_booking idx ;;
  match sel with
  | None => emit (showwarning "Select")
  | Some (i, b) =>
      w <- self ;;
      if negb (_can_modify w (Some b)) then emit (showerror "Permission")
      else if Py.str_eqb (b_status b) Cancelled then emit (showinfo "Info")
      else
        emit (askyesno "Confirm") ;;
        if answer then
          set_bookings (update_nth i (set_status Cancelled) (bookings w)) ;;
          save_and_refresh
        else ret tt
  end.

(** [[bk for bk in self.bookings if bk.id != b.id]] *)
Fixpoint without_id (i : Z) (bs : list AmenityBooking) : list AmenityBooking :=
  match bs with
  | [] => []
  | bk :: rest =>
      if negb (b_id bk =? i) then bk :: without_id i rest
      else without_id i rest
  end.

(** [AmenityWindow.delete_booking], after its permission check, which is
    where the two files differ: [allowed] is that check. *)
Definition delete_booking_with (allowed : AmenityWindow -> AmenityBooking -> bool)
    (idx : list nat) (answer : bool) : GUI unit :=
  sel <- get_selected_booking idx ;;
  match sel with
  | None => emit (showwarning "Select")
  | Some (_, b) =>
      w <- self ;;
      if negb (allowed w b) then emit (showerror "Permission")
      else
        emit (askyesno "Confirm") ;;
        if answer then
          set_bookings (without_id (b_id b) (bookings w)) ;;
          save_and_refresh
        else ret tt
  end.

(** The [ValueError]s of [AmenityBooking], by message. *)
Inductive ValueError :=
| DateFormat          (* "Date must be in 'YYYY-MM-DD' format, ..." *)
| InvalidDateValue    (* "Invalid date value" *)
| DateTooEarly        (* "Booking date must be on or after 2025-09-02" *)
| TimeFormat (field_name : string)   (* "... must be in 'HH:MM' format, ..." *)
| HourRange (field_name : string)    (* "... hour must be between 00 and 23" *)
| MinuteRange (field_name : string)  (* "... minutes must be between 00 and 59" *)
| StartNotEarlier     (* "start_time must be earlier than end_time" *)
| BuiltinError.       (* raised by [int], an unpacking or [time] *)

Definition Raises (A : Type) : Type := (ValueError + A)%type.

Definition int_or_raise (s : Py.str) : Raises Z :=
  match Py.int s with Some v => inr v | None => inl BuiltinError end.

Declare Scope raises_scope.
Delimit Scope raises_scope with raises.
Notation "'let?' x := m 'in' k" :=
  (match m with inl e => inl e | inr x => k end)
  (at level 10, x pattern, m at level 100, k at level 200) : raises_scope.
Local Open Scope raises_scope.

(** * [CCT211.py]: the SQLite variant *)

Module CCT211.

(** [AmenityBooking._MIN_BOOKING_DATE] *)
Definition _MIN_BOOKING_DATE : Py.date := Py.mk_date 2025 9 2.

(** [r"\d{4}-\d{2}-\d{2}"] and [r"\d{2}:\d{2}"] *)
Definition date_pattern : list Py.atom :=
  repeat Py.Digit 4 ++ [Py.Chr 45] ++ repeat Py.Digit 2
    ++ [Py.Chr 45] ++ repeat Py.Digit 2.

Definition time_pattern : list Py.atom :=
  repeat Py.Digit 2 ++ [Py.Chr 58] ++ repeat Py.Digit 2.

(** [AmenityBooking._validate_and_normalize_date] *)
Definition _validate_and_normalize_date (date_str : Py.str) : Raises Py.str :=
  if negb (Py.fullmatch date_pattern date_str) then inl DateFormat
  else
    match Py.split 45 date_str with
    | [year_str; month_str; day_str] =>
        let? year := int_or_raise year_str in
        let? month := int_or_raise month_str in
        let? day := int_or_raise day_str in
        match Py.new_date year month day with
        | None => inl InvalidDateValue
        | Some candidate =>
            if Py.date_ltb candidate _MIN_BOOKING_DATE then inl DateTooEarly
            else inr (Py.isoformat candidate)
        end
    | _ => inl BuiltinError
    end.

(** [AmenityBooking._validate_time] *)
Definition _validate_time (time_str : Py.str) (field_name : string) : Raises Py.str :=
  if negb (Py.fullmatch time_pattern time_str) then inl (TimeFormat field_name)
  else
    match Py.split 58 time_str with
    | [hh_str; mm_str] =>
        let? hour := int_or_raise hh_str in
        let? minute := int_or_raise mm_str in
        if negb ((0 <=? hour) && (hour <=? 23)) then inl (HourRange field_name)
        else if negb ((0 <=? minute) && (minute <=? 59)) then inl (MinuteRange field_name)
        else
          match Py.new_time hour minute with
          | None => inl BuiltinError
          | Some _ => inr time_str
          end
    | _ => inl BuiltinError
    end.

(** [h, m = map(int, s.split(":"))] *)
Definition hour_minute (s : Py.str) : Raises (Z * Z) :=
  match Py.split 58 s with
  | [h; m] =>
      let? hv := int_or_raise h in
      let? mv := int_or_raise m in
      inr (hv, mv)
  | _ => inl BuiltinError
  end.

(** [dtime(h, m)] *)
Definition dtime (h m : Z) : Raises Py.time :=
  match Py.new_time h m with
  | Some t => inr t
  | None => inl BuiltinError
  end.

(** [AmenityBooking.__init__]: an exception leaves no object behind. *)
Definition AmenityBooking_init (booking_id : Z) (unit_ facility_type
    date_str start_time end_time status created_by : Py.str)
  : Raises AmenityBooking :=
  let? date := _validate_and_normalize_date date_str in
  let? start_time' := _validate_time start_time "start_time" in
  let? end_time' := _validate_time end_time "end_time" in
  let? (st_h, st_m) := hour_minute start_time' in
  let? (et_h, et_m) := hour_minute end_time' in
  let? st := dtime st_h st_m in
  let? et := dtime et_h et_m in
  if Py.time_geb st et then inl StartNotEarlier
  else inr (mk_AmenityBooking booking_id unit_ facility_type date
              start_time' end_time' status created_by).

(** The permission check of [delete_booking]: an admin may delete
    anything, a resident only the bookings of the own unit. *)
Definition may_delete (w : AmenityWindow) (b : AmenityBooking) : bool :=
  if negb (is_admin (user w)) then
    if negb (Py.str_eqb (b_unit b) (user_unit (user w))) then false else true
  else true.

Definition delete_booking := delete_booking_with may_delete.

(** The state of a [BookingForm]: the booking under edit, if any, and
    the contents of its entry fields. *)
Record BookingForm := mk_BookingForm
  { booking : option AmenityBooking;
    unit_entry : Py.str;
    fac_var : Py.str;
    date_entry : Py.str;
    start_entry : Py.str;
    end_entry : Py.str;
    status_var : Py.str }.

Definition is_empty (s : Py.str) : bool :=
  match s with [] => true | _ => false end.

(** [BookingForm.save], run on the form's master window.  Returns
    whether the form was closed. *)
Definition BookingForm_save (f : BookingForm) : GUI bool :=
  (let unit_ := Py.strip (unit_entry f) in
   let facility := Py.strip (fac_var f) in
   let date_str := Py.strip (date_entry f) in
   let start := Py.strip (start_entry f) in
   let end_ := Py.strip (end_entry f) in
   let status := Py.strip (status_var f) in
   if is_empty unit_ || is_empty facility || is_empty date_str
      || is_empty start || is_empty end_ then
     emit (showerror "Error") ;; ret false
   else
     let start_m := parse_time_to_minutes start in
     let end_m := parse_time_to_minutes end_ in
     if (start_m <? 0) || (end_m <? 0) || (end_m <=? start_m) then
       emit (showerror "Invalid Time") ;; ret false
     else
       w <- self ;;
       let booking_id :=
         match booking f with
         | Some b => b_id b
         | None => next_id (store w)
         end in
       let creator :=
         match booking f with
         | Some b => b_created_by b
         | None => username (user w)
         end in
       match AmenityBooking_init booking_id unit_ facility date_str
               start end_ status creator with
       | inl _ => emit (showerror "Invalid Booking") ;; ret false
       | inr b =>
           let is_new := match booking f with None => true | Some _ => false end in
           ok <- on_booking_saved b is_new ;;
           if ok then emit BookingForm_destroyed ;; ret true
           else ret false
       end)%gui.

End CCT211.

(** * [CCT211_Project2.py]: the JSON variant *)

Module CCT211_Project2.

(** [AmenityBooking.__init__] stores its arguments as they come. *)
Definition AmenityBooking_init (booking_id : Z) (unit_ facility_type
    date_str start_time end_time status created_by : Py.str)
  : AmenityBooking :=
  mk_AmenityBooking booking_id unit_ facility_type date_str
    start_time end_time status created_by.

(** The permission check of [delete_booking]: admins only. *)
Definition may_delete (w : AmenityWindow) (b : AmenityBooking) : bool :=
  if negb (is_admin (user w)) then false else true.

Definition delete_booking := delete_booking_with may_delete.

End CCT211_Project2.

(** * Sample data *)

Module Samples.

Definition amy : User := mk_User (Py.lit "amy") (Py.lit "resident") (Py.lit "101").
Definition root : User := mk_User (Py.lit "root") (Py.lit "admin") [].

(** A meeting-room booking on 2025-09-10. *)
Definition meeting (i : Z) (start end_ : string) (status : Py.str) : AmenityBooking :=
  mk_AmenityBooking i (Py.lit "101") (Py.lit "Meeting Room") (Py.lit "2025-09-10")
    (Py.lit start) (Py.lit end_) status (Py.lit "amy").

(** A window of [amy] over the given bookings, already persisted. *)
Definition window (bs : list AmenityBooking) : AmenityWindow :=
  mk_AmenityWindow (mk_DataStore bs) amy true bs.

(** The form a resident fills in for a new meeting-room booking. *)
Definition new_form (unit_ date_ start end_ : string) : CCT211.BookingForm :=
  CCT211.mk_BookingForm None (Py.lit unit_) (Py.lit "Meeting Room")
    (Py.lit date_) (Py.lit start) (Py.lit end_) Booked.

(** "2025-09-02" written with Arabic-Indic digits. *)
Definition arabic_indic_date : Py.str :=
  [1634; 1632; 1634; 1637; 45; 1632; 1641; 45; 1632; 1634]%N.

End Samples.

(** * Vocabulary of the statements *)

(** The window an operation leaves behind, its result and its trace. *)
Definition window_after {A} (r : (Exn + A) * AmenityWindow * list Event) : AmenityWindow :=
  snd (fst r).
Definition result_of {A} (r : (Exn + A) * AmenityWindow * list Event) : Exn + A :=
  fst (fst r).
Definition trace_of {A} (r : (Exn + A) * AmenityWindow * list Event) : list Event :=
  snd r.

Definition ids (bs : list AmenityBooking) : list Z := map b_id bs.

(** Two bookings overlap when each starts before the other ends. *)
Definition overlaps (existing candidate : AmenityBooking) : Prop :=
  parse_time_to_minutes (b_start_time existing) < parse_time_to_minutes (b_end_time candidate)
  /\ parse_time_to_minutes (b_start_time candidate) < parse_time_to_minutes (b_end_time existing).

(** One stored booking [b] makes the loop of [has_conflict] return [True]
    for the candidate [c] with the given start and end minutes. *)
Definition clashes_with (c : AmenityBooking) (new_start new_end : Z)
    (b : AmenityBooking) : Prop :=
  b_id b <> b_id c
  /\ b_facility_type b = b_facility_type c
  /\ b_date b = b_date c
  /\ parse_time_to_minutes (b_start_time b) < new_end
  /\ new_start < parse_time_to_minutes (b_end_time b).

(** The window after a write of [bs]: list and store both hold [bs]. *)
Definition written (bs : list AmenityBooking) (w : AmenityWindow) : AmenityWindow :=
  mk_AmenityWindow (mk_DataStore bs) (user w) (on_changed w) bs.

(** The trace of [save_and_refresh] when the list is [bs]. *)
Definition persisted (bs : list AmenityBooking) (w : AmenityWindow) : list Event :=
  [store_set_amenity_bookings bs; store_save; refresh_listbox]
    ++ (if on_changed w then [on_changed_called] else []).

(** Events that touch the store. *)
Definition is_store_call (e : Event) : bool :=
  match e with
  | store_set_amenity_bookings _ | store_save => true
  | _ => false
  end.

(** The ids of the window are pairwise distinct and all known to the
    store, which is so when the window opens and after each write. *)
Definition unique_ids (w : AmenityWindow) : Prop := NoDup (ids (bookings w)).
Definition store_covers (w : AmenityWindow) : Prop :=
  incl (ids (bookings w)) (ids (amenity_bookings (store w))).

(** The window with the status of every booking rewritten by [f]. *)
Definition restatus (f : AmenityBooking -> Py.str) (w : AmenityWindow) : AmenityWindow :=
  mk_AmenityWindow (store w) (user w) (on_changed w)
    (map (fun b => set_status (f b) b) (bookings w)).

(** The value of two, and of four, decimal digits. *)
Definition two_digits (a b : N) : option Z :=
  match Py.decimal a, Py.decimal b with
  | Some x, Some y => Some (10 * x + y)
  | _, _ => None
  end.

Definition four_digits (a b c d : N) : option Z :=
  match Py.decimal a, Py.decimal b, Py.decimal c, Py.decimal d with
  | Some x, Some y, Some z, Some t => Some (1000 * x + 100 * y + 10 * z + t)
  | _, _, _, _ => None
  end.

Definition offsets : list N := [0; 1; 2; 3; 4; 5; 6; 7; 8; 9]%N.
Definition ascii_digits : list N := [48; 49; 50; 51; 52; 53; 54; 55; 56; 57]%N.

(** What the parsers rely on for a digit: it is no white space, sign,
    underscore, colon or hyphen, and [decimal] gives its offset in its run. *)
Definition digit_ok (s k : N) : bool :=
  let c := (s + k)%N in
  negb (Py.int_isspace c) && negb (c =? 43)%N && negb (c =? 45)%N
  && negb (c =? 95)%N && negb (c =? 58)%N
  && match Py.decimal c with Some v => v =? Z.of_N k | None => false end.

Record is_digit (c : N) (v : Z) : Prop :=
  { digit_value : 0 <= v <= 9;
    digit_not_space : Py.int_isspace c = false;
    digit_not_plus : (c =? 43)%N = false;
    digit_not_minus : (c =? 45)%N = false;
    digit_not_underscore : (c =? 95)%N = false;
    digit_not_colon : (c =? 58)%N = false }.

(** What an accepted time looks like. *)
Definition valid_time (s : Py.str) (h m : Z) : Prop :=
  exists a b c d,
    s = [a; b; 58%N; c; d]
    /\ two_digits a b = Some h /\ two_digits c d = Some m
    /\ 0 <= h <= 23 /\ 0 <= m <= 59.

(** The shape the date pattern accepts, with the numbers it denotes. *)
Definition date_text (s : Py.str) (y m d : Z) : Prop :=
  exists a b c e f g h i,
    s = [a; b; c; e; 45%N; f; g; 45%N; h; i]
    /\ four_digits a b c e = Some y
    /\ two_digits f g = Some m
    /\ two_digits h i = Some d.

Definition is_ascii (c : N) : bool := (c <? 128)%N.

(** ["%04d"] and ["%02d"] print ASCII digits that read back as the number. *)
Definition reads_back_4 (y : Z) : bool :=
  match Py.zero_padded 4 y with
  | [a; b; c; d] =>
      forallb is_ascii [a; b; c; d]
      && match four_digits a b c d with Some v => v =? y | None => false end
  | _ => false
  end.

Definition reads_back_2 (n : Z) : bool :=
  match Py.zero_padded 2 n with
  | [a; b] =>
      forallb is_ascii [a; b]
      && match two_digits a b with Some v => v =? n | None => false end
  | _ => false
  end.

(** ASCII digits print back as themselves. *)
Definition prints_back_4 (a b c d : N) : bool :=
  match four_digits a b c d with
  | Some y => Py.str_eqb (Py.zero_padded 4 y) [a; b; c; d]
  | None => false
  end.

Definition prints_back_2 (a b : N) : bool :=
  match two_digits a b with
  | Some n => Py.str_eqb (Py.zero_padded 2 n) [a; b]
  | None => false
  end.

Definition upto (n : Z) : list Z := map Z.of_nat (seq 0 (Z.to_nat n)).

(** * Serialization of bookings *)

(** The values the dictionaries of the program hold. *)
Inductive PyValue :=
| VInt (z : Z)
| VStr (s : Py.str)
| VBool (b : bool).

(** A [dict] with string keys, in insertion order. *)
Definition PyDict := list (string * PyValue).

(** [data.get(key, default)] *)
Fixpoint dict_get (data : PyDict) (key : string) (default : PyValue) : PyValue :=
  match data with
  | [] => default
  | (k, v) :: rest => if String.eqb k key then v else dict_get rest key default
  end.

(** [AmenityBooking.to_dict], the same in both files. *)
Definition to_dict (b : AmenityBooking) : PyDict :=
  [("id", VInt (b_id b));
   ("unit", VStr (b_unit b));
   ("facility_type", VStr (b_facility_type b));
   ("date", VStr (b_date b));
   ("start_time", VStr (b_start_time b));
   ("end_time", VStr (b_end_time b));
   ("status", VStr (b_status b));
   ("created_by", VStr (b_created_by b))]%string.

(** The arguments [from_dict] hands to the constructor.  The attributes
    of a booking are typed here (an integer id, seven strings), so a
    dictionary holding a value of another type under one of the keys is
    outside the model: [None]. *)
Definition from_dict_args (data : PyDict)
  : option (Z * Py.str * Py.str * Py.str * Py.str * Py.str * Py.str * Py.str) :=
  match dict_get data "id" (VInt 0),
        dict_get data "unit" (VStr []),
        dict_get data "facility_type" (VStr []),
        dict_get data "date" (VStr []),
        dict_get data "start_time" (VStr []),
        dict_get data "end_time" (VStr []),
        dict_get data "status" (VStr Booked),
        dict_get data "created_by" (VStr []) with
  | VInt i, VStr u, VStr f, VStr d, VStr s, VStr e, VStr st, VStr cb =>
      Some (i, u, f, d, s, e, st, cb)
  | _, _, _, _, _, _, _, _ => None
  end.

(** [AmenityBooking.from_dict] of [CCT211.py]: the validating constructor. *)
Definition CCT211_from_dict (data : PyDict) : option (Raises AmenityBooking) :=
  match from_dict_args data with
  | Some (i, u, f, d, s, e, st, cb) =>
      Some (CCT211.AmenityBooking_init i u f d s e st cb)
  | None => None
  end.

(** [AmenityBooking.from_dict] of [CCT211_Project2.py]. *)
Definition Project2_from_dict (data : PyDict) : option AmenityBooking :=
  match from_dict_args data with
  | Some (i, u, f, d, s, e, st, cb) =>
      Some (CCT211_Project2.AmenityBooking_init i u f d s e st cb)
  | None => None
  end.

(** * More vocabulary *)

(** Two different bookings of one facility and day that overlap. *)
Definition collide (a b : AmenityBooking) : Prop :=
  b_id a <> b_id b
  /\ b_facility_type a = b_facility_type b
  /\ b_date a = b_date b
  /\ overlaps a b.

(** No two bookings of the list collide. *)
Definition conflict_free (bs : list AmenityBooking) : Prop :=
  forall a b, In a bs -> In b bs -> ~ collide a b.


(** The calls on the store in a trace, in order. *)
Definition store_calls (ev : list Event) : list Event := filter is_store_call ev.


(** The arguments [BookingForm.save] gives to the constructor. *)
Definition form_booking_id (f : CCT211.BookingForm) (w : AmenityWindow) : Z :=
  match CCT211.booking f with
  | Some b0 => b_id b0
  | None => next_id (store w)
  end.

Definition form_creator (f : CCT211.BookingForm) (w : AmenityWindow) : Py.str :=
  match CCT211.booking f with
  | Some b0 => b_created_by b0
  | None => username (user w)
  end.

Definition form_is_new (f : CCT211.BookingForm) : bool :=
  match CCT211.booking f with None => true | Some _ => false end.

Definition form_constructs (f : CCT211.BookingForm) (w : AmenityWindow)
  : Raises AmenityBooking :=
  CCT211.AmenityBooking_init (form_booking_id f w)
    (Py.strip (CCT211.unit_entry f)) (Py.strip (CCT211.fac_var f))
    (Py.strip (CCT211.date_entry f)) (Py.strip (CCT211.start_entry f))
    (Py.strip (CCT211.end_entry f)) (Py.strip (CCT211.status_var f))
    (form_creator f w).

(** A booking that the validating constructor rebuilds from its own
    dictionary, as [get_amenity_bookings] of [CCT211.py] does with every
    row when a window opens. *)
Definition reloadable (b : AmenityBooking) : Prop :=
  CCT211_from_dict (to_dict b) = Some (inr b).

(** * Login and the package window *)

(** Truth value of a [str]: non-empty. *)
Definition truthy (s : Py.str) : bool :=
  match s with [] => false | _ :: _ => true end.

(** [s.startswith(prefix)] *)
Fixpoint startswith (s prefix : Py.str) : bool :=
  match prefix, s with
  | [], _ => true
  | p :: prefix', c :: s' => (c =? p)%N && startswith s' prefix'
  | _ :: _, [] => false
  end.

(** [LoginFrame.do_login], the same in both files: the message of the
    error dialog, or the user handed to [show_dashboard]. *)
Definition do_login (username_entry unit_entry role_var : Py.str) : string + User :=
  let username := Py.strip username_entry in
  let unit_ := Py.strip unit_entry in
  if negb (truthy username) then inl "Please enter a username."%string
  else if negb (truthy unit_) && Py.str_eqb role_var (Py.lit "resident")
  then inl "Please enter your unit."%string
  else inr (mk_User username role_var unit_).

(** [l[i] = f(l[i])] *)
Fixpoint list_update {A} (i : nat) (f : A -> A) (l : list A) : list A :=
  match l, i with
  | [], _ => []
  | x :: rest, O => f x :: rest
  | x :: rest, S j => x :: list_update j f rest
  end.

(** [enumerate(l)] *)
Definition enumerate {A} (l : list A) : list (nat * A) :=
  combine (seq 0 (List.length l)) l.

Module Packages.

Record PackageRecord := mk_PackageRecord
  { p_id : Z;
    p_unit : Py.str;
    p_carrier : Py.str;
    p_arrival_date : Py.str;
    p_picked_up : bool }.

Definition set_picked_up (v : bool) (p : PackageRecord) : PackageRecord :=
  mk_PackageRecord (p_id p) (p_unit p) (p_carrier p) (p_arrival_date p) v.

(** The state of a [PackageWindow].  [current_view] is a list of
    references to objects of [packages]; a reference is written as the
    position of the object in [packages].  [pw_store] holds the rows of
    the packages table (SQLite, which sorts them when they are read) or
    the "packages" list (JSON). *)
Record PackageWindow := mk_PackageWindow
  { pw_store : list PackageRecord;
    pw_user : User;
    pw_on_changed : bool;              (* the JSON file has no callback *)
    packages : list PackageRecord;
    current_view : list nat;
    search_var : Py.str }.

Inductive Event :=
| showwarning (title : string)
| showerror (title : string)
| showinfo (title : string)
| askyesno (title : string)
| store_set_packages (rows : list PackageRecord)
| store_save
| tree_refreshed
| on_changed_called
| PackageForm_opened (record : option PackageRecord).

Definition with_packages (ps : list PackageRecord) (w : PackageWindow) : PackageWindow :=
  mk_PackageWindow (pw_store w) (pw_user w) (pw_on_changed w) ps
    (current_view w) (search_var w).

Definition with_search (s : Py.str) (w : PackageWindow) : PackageWindow :=
  mk_PackageWindow (pw_store w) (pw_user w) (pw_on_changed w) (packages w)
    (current_view w) s.

(** [PackageWindow.filtered_packages], each package with its position. *)
Definition filtered_packages (w : PackageWindow) : list (nat * PackageRecord) :=
  let pkgs := enumerate (packages w) in
  let pkgs :=
    if negb (is_admin (pw_user w)) && truthy (user_unit (pw_user w))
    then filter (fun ip => Py.str_eqb (p_unit (snd ip)) (user_unit (pw_user w))) pkgs
    else pkgs in
  let prefix := Py.strip (search_var w) in
  if truthy prefix
  then filter (fun ip => startswith (p_unit (snd ip)) prefix) pkgs
  else pkgs.

(** [PackageWindow.refresh_tree]; what the tree displays is left out. *)
Definition refresh_tree (w : PackageWindow) : PackageWindow :=
  mk_PackageWindow (pw_store w) (pw_user w) (pw_on_changed w) (packages w)
    (map fst (filtered_packages w)) (search_var w).

(** [PackageWindow.__init__]; [rows] is what [store.get_packages()]
    returns. *)
Definition open_window (rows : list PackageRecord) (u : User) (on_changed : bool)
  : PackageWindow :=
  refresh_tree (mk_PackageWindow rows u on_changed rows [] []).

(** [PackageWindow.get_selected]; [sel] holds the positions in the tree
    of the selected rows.  The object comes with its position in
    [packages]. *)
Definition get_selected (sel : list nat) (w : PackageWindow)
  : option (nat * PackageRecord) :=
  match sel with
  | [] => None
  | idx :: _ =>
      if (idx <? List.length (current_view w))%nat then
        match nth_error (current_view w) idx with
        | Some pos =>
            match nth_error (packages w) pos with
            | Some p => Some (pos, p)
            | None => None
            end
        | None => None
        end
      else None
  end.

(** [PackageWindow.save_and_refresh] *)
Definition save_and_refresh (w : PackageWindow) : PackageWindow * list Event :=
  let w1 := mk_PackageWindow (packages w) (pw_user w) (pw_on_changed w)
              (packages w) (current_view w) (search_var w) in
  (refresh_tree w1,
   [store_set_packages (packages w); store_save; tree_refreshed]
     ++ (if pw_on_changed w then [on_changed_called] else [])).

(** [PackageWindow.mark_picked] *)
Definition mark_picked (sel : list nat) (w : PackageWindow)
  : PackageWindow * list Event :=
  match get_selected sel w with
  | None => (w, [showwarning "Select"])
  | Some (pos, p) =>
      if negb (is_admin (pw_user w)) && truthy (user_unit (pw_user w))
         && negb (Py.str_eqb (p_unit p) (user_unit (pw_user w)))
      then (w, [showerror "Permission"])
      else save_and_refresh
             (with_packages (list_update pos (set_picked_up true) (packages w)) w)
  end.

(** [[pk for pk in self.packages if pk.id != p.id]] *)
Definition without_id (i : Z) (ps : list PackageRecord) : list PackageRecord :=
  filter (fun pk => negb (p_id pk =? i)) ps.

(** [PackageWindow.delete_package] *)
Definition delete_package (sel : list nat) (answer : bool) (w : PackageWindow)
  : PackageWindow * list Event :=
  if negb (is_admin (pw_user w)) then (w, [showerror "Permission"])
  else
    match get_selected sel w with
    | None => (w, [showwarning "Select"])
    | Some (_, p) =>
        if answer then
          let '(w', ev) :=
            save_and_refresh (with_packages (without_id (p_id p) (packages w)) w) in
          (w', askyesno "Confirm" :: ev)
        else (w, [askyesno "Confirm"])
    end.

(** [PackageWindow.add_package] and [PackageWindow.edit_package] *)
Definition add_package (w : PackageWindow) : PackageWindow * list Event :=
  if negb (is_admin (pw_user w)) then (w, [showerror "Permission"])
  else (w, [PackageForm_opened None]).

Definition edit_package (sel : list nat) (w : PackageWindow)
  : PackageWindow * list Event :=
  if negb (is_admin (pw_user w)) then (w, [showerror "Permission"])
  else
    match get_selected sel w with
    | None => (w, [showwarning "Select"])
    | Some (_, p) => (w, [PackageForm_opened (Some p)])
    end.

(** The edit branch of [on_saved]. *)
Fixpoint replace_by_id (record : PackageRecord) (ps : list PackageRecord)
  : list PackageRecord :=
  match ps with
  | [] => []
  | p :: rest =>
      if p_id p =? p_id record then record :: rest
      else p :: replace_by_id record rest
  end.

(** [PackageWindow.on_saved]; it returns [True]. *)
Definition on_saved (record : PackageRecord) (is_new : bool) (w : PackageWindow)
  : PackageWindow * list Event :=
  let ps := if is_new then packages w ++ [record]
            else replace_by_id record (packages w) in
  let '(w', ev) := save_and_refresh (with_packages ps w) in
  (w', ev ++ (if is_admin (pw_user w) then [showinfo "Resident notified"] else [])).

(** The number [refresh_admin_summary] shows for packages: those of the
    store not yet picked up. *)
Definition active_pkgs (rows : list PackageRecord) : nat :=
  List.length (filter (fun p => negb (p_picked_up p)) rows).

(** The packages the window shows. *)
Definition shown (w : PackageWindow) : list PackageRecord :=
  flat_map (fun pos => match nth_error (packages w) pos with
                       | Some p => [p]
                       | None => []
                       end) (current_view w).

(** Whether the window is restricted to the unit of its user. *)
Definition own_unit_only (w : PackageWindow) : bool :=
  negb (is_admin (pw_user w)) && truthy (user_unit (pw_user w)).

(** What [filtered_packages] lets through: the unit of the user in a
    restricted window, and the prefix typed in the filter when there is
    one. *)
Definition visible (w : PackageWindow) (p : PackageRecord) : bool :=
  (if own_unit_only w then Py.str_eqb (p_unit p) (user_unit (pw_user w)) else true)
  && (if truthy (Py.strip (search_var w))
      then startswith (p_unit p) (Py.strip (search_var w)) else true).

(** Every reference of the view points into [packages], and in a
    restricted window only at packages of the unit of the user. *)
Definition view_ok (w : PackageWindow) : Prop :=
  forall pos, In pos (current_view w) ->
    exists p, nth_error (packages w) pos = Some p
              /\ (own_unit_only w = true -> p_unit p = user_unit (pw_user w)).

(** The ids of the list are pairwise distinct.  The packages table of
    [CCT211.py] has the id as primary key: it hands out no other list and
    takes no other list. *)
Definition unique_ids (w : PackageWindow) : Prop := NoDup (map p_id (packages w)).

(** What every operation of the window keeps. *)
Definition sound (w : PackageWindow) : Prop := unique_ids w /\ view_ok w.

End Packages.

(** * The service-request window *)

Module Requests.

Record ServiceRequest := mk_ServiceRequest
  { r_id : Z;
    r_unit : Py.str;
    r_req_type : Py.str;
    r_description : Py.str;
    r_status : Py.str;
    r_created_by : Py.str }.

Definition Submitted : Py.str := Py.lit "Submitted".

(** [r.status = s] *)
Definition set_status (s : Py.str) (r : ServiceRequest) : ServiceRequest :=
  mk_ServiceRequest (r_id r) (r_unit r) (r_req_type r) (r_description r) s
    (r_created_by r).

(** The request objects live in [objects], in the order they were made;
    a reference to an object is its position there.  The list of the
    window, its view and the forms hold references, so that an
    assignment to an attribute is seen through all of them. *)
Definition ref := nat.

Record ServiceRequestWindow := mk_ServiceRequestWindow
  { rw_store : list ServiceRequest;   (* rows of the table / the JSON list *)
    rw_user : User;
    rw_on_changed : bool;             (* the JSON file has no callback *)
    objects : list ServiceRequest;
    requests : list ref;
    current_view : list ref }.

(** Where no object was made yet.  The program has no reference to such
    a place. *)
Definition unallocated : ServiceRequest := mk_ServiceRequest 0 [] [] [] [] [].

(** The object behind a reference. *)
Definition obj (w : ServiceRequestWindow) (a : ref) : ServiceRequest :=
  nth a (objects w) unallocated.

Inductive Event :=
| showwarning (title : string)
| showerror (title : string)
| showinfo (title : string)
| askyesno (title : string)
| store_set_service_requests (rows : list ServiceRequest)
| store_save
| listbox_refreshed
| on_changed_called
| ServiceRequestForm_opened (request : option ref)
| StatusForm_opened (request : ref)
| form_destroyed.

(** A method: the exception it raised or its value, the window it
    leaves, and what it did to the outside. *)
Definition Result (A : Type) : Type := (Exn + A) * ServiceRequestWindow * list Event.

Definition after {A} (r : Result A) : ServiceRequestWindow := snd (fst r).
Definition value {A} (r : Result A) : Exn + A := fst (fst r).
Definition trace {A} (r : Result A) : list Event := snd r.

Definition with_objects (os : list ServiceRequest) (w : ServiceRequestWindow)
  : ServiceRequestWindow :=
  mk_ServiceRequestWindow (rw_store w) (rw_user w) (rw_on_changed w) os
    (requests w) (current_view w).

Definition with_requests (rs : list ref) (w : ServiceRequestWindow)
  : ServiceRequestWindow :=
  mk_ServiceRequestWindow (rw_store w) (rw_user w) (rw_on_changed w) (objects w)
    rs (current_view w).

(** The values the list of the window holds, in order. *)
Definition rows (w : ServiceRequestWindow) : list ServiceRequest :=
  map (obj w) (requests w).

(** The values the listbox shows, in order. *)
Definition view (w : ServiceRequestWindow) : list ServiceRequest :=
  map (obj w) (current_view w).

(** [r.created_by == self.user.username] *)
Definition is_own (w : ServiceRequestWindow) (a : ref) : bool :=
  Py.str_eqb (r_created_by (obj w a)) (username (rw_user w)).

(** [ServiceRequestWindow.refresh_listbox]; the lines of the listbox and
    the details pane are left out. *)
Definition refresh_listbox (w : ServiceRequestWindow) : ServiceRequestWindow :=
  mk_ServiceRequestWindow (rw_store w) (rw_user w) (rw_on_changed w) (objects w)
    (requests w)
    (if is_admin (rw_user w) then requests w else filter (is_own w) (requests w)).

(** [ServiceRequestWindow.__init__]; [loaded] is what
    [store.get_service_requests()] returns, one new object per row. *)
Definition open_window (loaded : list ServiceRequest) (u : User) (on_changed : bool)
  : ServiceRequestWindow :=
  refresh_listbox
    (mk_ServiceRequestWindow loaded u on_changed loaded
       (seq 0 (List.length loaded)) []).

(** [ServiceRequestWindow.get_selected] of [CCT211.py]:
    [self.current_view[idx[0]]], unchecked.  [idx] is what
    [listbox.curselection()] returns. *)
Definition get_selected (idx : list nat) (w : ServiceRequestWindow)
  : Exn + option ref :=
  match idx with
  | [] => inr None
  | i :: _ =>
      match nth_error (current_view w) i with
      | Some a => inr (Some a)
      | None => inl IndexError
      end
  end.

(** [ServiceRequestWindow.get_selected] of [CCT211_Project2.py], which
    checks the index. *)
Definition Project2_get_selected (idx : list nat) (w : ServiceRequestWindow)
  : option ref :=
  match idx with
  | [] => None
  | i :: _ =>
      if (i <? List.length (current_view w))%nat
      then nth_error (current_view w) i
      else None
  end.

(** [ServiceRequestWindow.save_and_refresh] *)
Definition save_and_refresh (w : ServiceRequestWindow)
  : ServiceRequestWindow * list Event :=
  (refresh_listbox
     (mk_ServiceRequestWindow (rows w) (rw_user w) (rw_on_changed w) (objects w)
        (requests w) (current_view w)),
   [store_set_service_requests (rows w); store_save; listbox_refreshed]
     ++ (if rw_on_changed w then [on_changed_called] else [])).

(** [ServiceRequestWindow.new_request] *)
Definition new_request (w : ServiceRequestWindow) : Result unit :=
  (inr tt, w, [ServiceRequestForm_opened None]).

(** [ServiceRequestWindow.edit_request], the same in both files but for
    [get_selected]. *)
Definition edit_request (idx : list nat) (w : ServiceRequestWindow) : Result unit :=
  match get_selected idx w with
  | inl e => (inl e, w, [])
  | inr None => (inr tt, w, [showwarning "Select"])
  | inr (Some a) =>
      if negb (is_admin (rw_user w)) && negb (is_own w a)
      then (inr tt, w, [showerror "Permission"])
      else (inr tt, w, [ServiceRequestForm_opened (Some a)])
  end.

(** [[req for req in self.requests if req.id != r.id]] *)
Definition without_id (w : ServiceRequestWindow) (i : Z) : list ref :=
  filter (fun a => negb (r_id (obj w a) =? i)) (requests w).

(** [ServiceRequestWindow.delete_request] of [CCT211.py]; [answer] is
    the answer to the confirmation dialog. *)
Definition delete_request (idx : list nat) (answer : bool) (w : ServiceRequestWindow)
  : Result unit :=
  match get_selected idx w with
  | inl e => (inl e, w, [])
  | inr None => (inr tt, w, [showwarning "Select"])
  | inr (Some a) =>
      if negb (is_admin (rw_user w)) && negb (is_own w a)
      then (inr tt, w, [showerror "Permission"])
      else if answer then
        let '(w', ev) :=
          save_and_refresh (with_requests (without_id w (r_id (obj w a))) w) in
        (inr tt, w', askyesno "Confirm" :: ev)
      else (inr tt, w, [askyesno "Confirm"])
  end.

(** [ServiceRequestWindow.delete_request] of [CCT211_Project2.py]:
    admins only. *)
Definition Project2_delete_request (idx : list nat) (answer : bool)
    (w : ServiceRequestWindow) : Result unit :=
  match Project2_get_selected idx w with
  | None => (inr tt, w, [showwarning "Select"])
  | Some a =>
      if negb (is_admin (rw_user w))
      then (inr tt, w, [showerror "Permission"])
      else if answer then
        let '(w', ev) :=
          save_and_refresh (with_requests (without_id w (r_id (obj w a))) w) in
        (inr tt, w', askyesno "Confirm" :: ev)
      else (inr tt, w, [askyesno "Confirm"])
  end.

(** [ServiceRequestWindow.change_status] *)
Definition change_status (idx : list nat) (w : ServiceRequestWindow) : Result unit :=
  match get_selected idx w with
  | inl e => (inl e, w, [])
  | inr None => (inr tt, w, [showwarning "Select"])
  | inr (Some a) =>
      if negb (is_admin (rw_user w))
      then (inr tt, w, [showerror "Permission"])
      else (inr tt, w, [StatusForm_opened a])
  end.

(** The loop of [on_status_changed] and [on_saved]: the first reference
    to an object with the id is replaced by [a]. *)
Fixpoint replace_by_id (w : ServiceRequestWindow) (i : Z) (a : ref) (rs : list ref)
  : list ref :=
  match rs with
  | [] => []
  | x :: rest =>
      if r_id (obj w x) =? i then a :: rest
      else x :: replace_by_id w i a rest
  end.

(** [ServiceRequestWindow.on_status_changed] of [CCT211.py] *)
Definition on_status_changed (a : ref) (w : ServiceRequestWindow)
  : ServiceRequestWindow * list Event :=
  save_and_refresh
    (with_requests (replace_by_id w (r_id (obj w a)) a (requests w)) w).

(** [StatusForm.save]: the status is assigned to the object the form
    was opened on, then the window is told. *)
Definition StatusForm_save (request : ref) (status_var : Py.str)
    (w : ServiceRequestWindow) : Result unit :=
  let w1 := with_objects (list_update request (set_status status_var) (objects w)) w in
  let '(w2, ev) := on_status_changed request w1 in
  (inr tt, w2, ev ++ [form_destroyed]).

(** [ServiceRequest(...)]: a new object. *)
Definition ServiceRequest_init (r : ServiceRequest) (w : ServiceRequestWindow)
  : ref * ServiceRequestWindow :=
  (List.length (objects w), with_objects (objects w ++ [r]) w).

(** [ServiceRequestWindow.on_saved]; it returns [True]. *)
Definition on_saved (req : ref) (is_new : bool) (w : ServiceRequestWindow)
  : ServiceRequestWindow * list Event :=
  save_and_refresh
    (with_requests
       (if is_new then requests w ++ [req]
        else replace_by_id w (r_id (obj w req)) req (requests w)) w).

(** [DataStore.next_id("service_requests")]: 1 on an empty table, else
    the largest id plus 1. *)
Definition next_id (stored : list ServiceRequest) : Z :=
  match map r_id stored with
  | [] => 1
  | i :: rest => max_id i rest + 1
  end.

(** A [ServiceRequestForm]: the request it was opened on, and what its
    widgets hold when Save is pressed ([desc_text] is what
    [desc_text.get("1.0", "end")] returns). *)
Record ServiceRequestForm := mk_ServiceRequestForm
  { request : option ref;
    unit_entry : Py.str;
    type_var : Py.str;
    desc_text : Py.str }.

(** The object [ServiceRequestForm.save] builds. *)
Definition form_request (f : ServiceRequestForm) (w : ServiceRequestWindow)
  : ServiceRequest :=
  let unit_ := Py.strip (unit_entry f) in
  let req_type := Py.strip (type_var f) in
  let desc := Py.strip (desc_text f) in
  match request f with
  | Some a =>
      mk_ServiceRequest (r_id (obj w a)) unit_ req_type desc
        (r_status (obj w a)) (r_created_by (obj w a))
  | None =>
      mk_ServiceRequest (next_id (rw_store w)) unit_ req_type desc Submitted
        (username (rw_user w))
  end.

(** [ServiceRequestForm.save] *)
Definition ServiceRequestForm_save (f : ServiceRequestForm) (w : ServiceRequestWindow)
  : Result unit :=
  if negb (truthy (Py.strip (unit_entry f)))
     || negb (truthy (Py.strip (type_var f)))
     || negb (truthy (Py.strip (desc_text f)))
  then (inr tt, w, [showerror "Error"])
  else
    let '(req, w1) := ServiceRequest_init (form_request f w) w in
    let is_new := match request f with None => true | Some _ => false end in
    let '(w2, ev) := on_saved req is_new w1 in
    (inr tt, w2, ev ++ [form_destroyed]).

(** ** Vocabulary *)

(** No field of the form is blank. *)
Definition filled (f : ServiceRequestForm) : bool :=
  truthy (Py.strip (unit_entry f))
  && truthy (Py.strip (type_var f))
  && truthy (Py.strip (desc_text f)).

(** Every reference of the window points at an object. *)
Definition refs_ok (w : ServiceRequestWindow) : Prop :=
  (forall a, In a (requests w) -> (a < List.length (objects w))%nat)
  /\ (forall a, In a (current_view w) -> (a < List.length (objects w))%nat).

(** The ids of the list are pairwise distinct, as the primary key of the
    table of [CCT211.py] requires of every list it hands out or takes. *)
Definition unique_ids (w : ServiceRequestWindow) : Prop :=
  NoDup (map r_id (rows w)).

(** The listbox shows requests of the list, and to a resident only
    requests the resident created. *)
Definition view_ok (w : ServiceRequestWindow) : Prop :=
  forall a, In a (current_view w) ->
    In a (requests w) /\ (is_admin (rw_user w) = false -> is_own w a = true).

(** The store knows every id of the list, which is so when the window
    opens and after each of its writes. *)
Definition store_covers (w : ServiceRequestWindow) : Prop :=
  incl (map r_id (rows w)) (map r_id (rw_store w)).

(** What every operation of the window keeps. *)
Definition sound (w : ServiceRequestWindow) : Prop :=
  refs_ok w /\ unique_ids w /\ store_covers w /\ view_ok w.

End Requests.

(** * Strings *)

Lemma str_eqb_eq : forall a b, Py.str_eqb a b = true <-> a = b.
Proof.
  induction a as [|x a IH]; destruct b as [|y b]; simpl; split; intro H;
    try reflexivity; try discriminate.
  - apply andb_true_iff in H as [Hx Hab]. apply N.eqb_eq in Hx.
    apply IH in Hab. congruence.
  - injection H as -> ->. rewrite N.eqb_refl. simpl. now apply IH.
Qed.

Lemma str_eqb_refl : forall a, Py.str_eqb a a = true.
Proof. intro a. now apply str_eqb_eq. Qed.

Lemma str_eqb_sym : forall a b, Py.str_eqb a b = Py.str_eqb b a.
Proof.
  intros a b. destruct (Py.str_eqb a b) eqn:E; symmetry.
  - apply str_eqb_eq in E. subst. apply str_eqb_refl.
  - destruct (Py.str_eqb b a) eqn:E'; [|reflexivity].
    apply str_eqb_eq in E'. subst. now rewrite str_eqb_refl in E.
Qed.

(** * The conflict checker *)

Section ConflictLoop.

Variable c : AmenityBooking.
Variables new_start new_end : Z.

Lemma conflict_loop_step : forall b rest,
  conflict_loop c new_start new_end (b :: rest) = true
  <-> clashes_with c new_start new_end b
      \/ conflict_loop c new_start new_end rest = true.
Proof.
  intros b rest. unfold clashes_with. cbn [conflict_loop].
  destruct (Z.eqb_spec (b_id b) (b_id c)) as [Hid|Hid].
  { split; [now right|]. intros [(Hne & _)|H]; [contradiction|exact H]. }
  destruct (Py.str_eqb (b_facility_type b) (b_facility_type c)) eqn:Hf;
    destruct (Py.str_eqb (b_date b) (b_date c)) eqn:Hd; cbn [andb].
  - apply str_eqb_eq in Hf. apply str_eqb_eq in Hd.
    destruct (Z.ltb_spec (parse_time_to_minutes (b_start_time b)) new_end);
      destruct (Z.ltb_spec new_start (parse_time_to_minutes (b_end_time b)));
      cbn [andb]; split; intro H';
      try reflexivity; try (left; tauto); try (right; exact H');
      destruct H' as [(_ & _ & _ & ? & ?)|H']; solve [lia | exact H'].
  - split; [now right|]. intros [(_ & _ & Hd' & _)|H]; [|exact H].
    apply str_eqb_eq in Hd'. congruence.
  - split; [now right|]. intros [(_ & Hf' & _)|H]; [|exact H].
    apply str_eqb_eq in Hf'. congruence.
  - split; [now right|]. intros [(_ & Hf' & _)|H]; [|exact H].
    apply str_eqb_eq in Hf'. congruence.
Qed.

Lemma conflict_loop_true_iff : forall bs,
  conflict_loop c new_start new_end bs = true
  <-> exists b, In b bs /\ clashes_with c new_start new_end b.
Proof.
  induction bs as [|b rest IH].
  - simpl. split; [discriminate|]. now intros (b & [] & _).
  - rewrite conflict_loop_step, IH. split.
    + intros [H|(b' & Hin & H)]; [exists b|exists b']; simpl; auto.
    + intros (b' & [->|Hin] & H); [now left|right; now exists b'].
Qed.

End ConflictLoop.

Lemma has_conflict_negative : forall w c,
  parse_time_to_minutes (b_start_time c) < 0
  \/ parse_time_to_minutes (b_end_time c) < 0 ->
  has_conflict w c = false.
Proof.
  intros w c H. unfold has_conflict.
  destruct (Z.ltb_spec (parse_time_to_minutes (b_start_time c)) 0);
    destruct (Z.ltb_spec (parse_time_to_minutes (b_end_time c)) 0);
    cbn [orb]; try reflexivity; lia.
Qed.

Lemma has_conflict_loop : forall w c,
  0 <= parse_time_to_minutes (b_start_time c) ->
  0 <= parse_time_to_minutes (b_end_time c) ->
  has_conflict w c
  = conflict_loop c (parse_time_to_minutes (b_start_time c))
      (parse_time_to_minutes (b_end_time c)) (bookings w).
Proof.
  intros w c Hs He. unfold has_conflict.
  destruct (Z.ltb_spec (parse_time_to_minutes (b_start_time c)) 0);
    destruct (Z.ltb_spec (parse_time_to_minutes (b_end_time c)) 0);
    cbn [orb]; try reflexivity; lia.
Qed.

Lemma has_conflict_true_iff : forall w c,
  0 <= parse_time_to_minutes (b_start_time c) ->
  0 <= parse_time_to_minutes (b_end_time c) ->
  (has_conflict w c = true
   <-> exists b, In b (bookings w) /\ b_id b <> b_id c
                 /\ b_facility_type b = b_facility_type c
                 /\ b_date b = b_date c
                 /\ overlaps b c).
Proof.
  intros w c Hs He. rewrite has_conflict_loop by assumption.
  rewrite conflict_loop_true_iff. unfold clashes_with, overlaps.
  split; intros (b & Hin & H1 & H2 & H3 & H4); exists b; tauto.
Qed.

(** C1.  For a candidate whose start and end times convert to
    non-negative minutes, [has_conflict] answers [True] exactly when some
    stored booking with another id has the candidate's facility and date
    and overlaps it, where overlap is
    [existing_start < candidate_end and candidate_start < existing_end].
    Intervals that only touch do not conflict: 09:00-10:00 against
    10:00-11:00 is free, 09:00-10:30 against 10:00-11:00 is a conflict. *)
Theorem has_conflict_half_open_overlap :
  (forall w c,
     0 <= parse_time_to_minutes (b_start_time c) ->
     0 <= parse_time_to_minutes (b_end_time c) ->
     (has_conflict w c = true
      <-> exists b, In b (bookings w) /\ b_id b <> b_id c
                    /\ b_facility_type b = b_facility_type c
                    /\ b_date b = b_date c
                    /\ parse_time_to_minutes (b_start_time b)
                       < parse_time_to_minutes (b_end_time c)
                    /\ parse_time_to_minutes (b_start_time c)
                       < parse_time_to_minutes (b_end_time b)))
  /\ has_conflict (Samples.window [Samples.meeting 1 "09:00" "10:00" Booked])
       (Samples.meeting 2 "10:00" "11:00" Booked) = false
  /\ has_conflict (Samples.window [Samples.meeting 1 "10:00" "11:00" Booked])
       (Samples.meeting 2 "09:00" "10:00" Booked) = false
  /\ has_conflict (Samples.window [Samples.meeting 1 "09:00" "10:30" Booked])
       (Samples.meeting 2 "10:00" "11:00" Booked) = true
  /\ has_conflict (Samples.window [Samples.meeting 1 "10:00" "11:00" Booked])
       (Samples.meeting 2 "09:00" "10:30" Booked) = true.
Proof.
  split; [|repeat split; vm_compute; reflexivity].
  intros w c Hs He. apply (has_conflict_true_iff w c Hs He).
Qed.

Lemma has_conflict_half_open_overlap_witness :
  let w := Samples.window [Samples.meeting 1 "09:00" "10:30" Booked] in
  let c := Samples.meeting 2 "10:00" "11:00" Booked in
  0 <= parse_time_to_minutes (b_start_time c)
  /\ 0 <= parse_time_to_minutes (b_end_time c)
  /\ has_conflict w c = true.
Proof.
  intros w c.
  assert (Hs : 0 <= parse_time_to_minutes (b_start_time c)) by (vm_compute; discriminate).
  assert (He : 0 <= parse_time_to_minutes (b_end_time c)) by (vm_compute; discriminate).
  split; [exact Hs|]. split; [exact He|].
  apply (proj1 has_conflict_half_open_overlap w c Hs He).
  exists (Samples.meeting 1 "09:00" "10:30" Booked).
  split; [left; reflexivity|].
  split; [discriminate|].
  repeat split; vm_compute; reflexivity.
Defined.

(** C10.  On bookings with distinct ids whose four times convert to
    non-negative minutes, conflict is symmetric: testing [a] against a
    window holding just [b] gives the answer of testing [b] against a
    window holding just [a]. *)
Theorem has_conflict_symmetric : forall w1 w2 a b,
  bookings w1 = [b] ->
  bookings w2 = [a] ->
  b_id a <> b_id b ->
  0 <= parse_time_to_minutes (b_start_time a) ->
  0 <= parse_time_to_minutes (b_end_time a) ->
  0 <= parse_time_to_minutes (b_start_time b) ->
  0 <= parse_time_to_minutes (b_end_time b) ->
  has_conflict w1 a = has_conflict w2 b.
Proof.
  intros w1 w2 a b H1 H2 Hid Hsa Hea Hsb Heb.
  rewrite !has_conflict_loop by assumption. rewrite H1, H2.
  cbn [conflict_loop].
  rewrite (Z.eqb_sym (b_id a) (b_id b)).
  rewrite (str_eqb_sym (b_facility_type a)), (str_eqb_sym (b_date a)).
  rewrite (andb_comm (parse_time_to_minutes (b_start_time a) <? _)).
  reflexivity.
Qed.

Lemma has_conflict_symmetric_witness :
  let a := Samples.meeting 1 "09:00" "10:30" Booked in
  let b := Samples.meeting 2 "10:00" "11:00" Booked in
  has_conflict (Samples.window [b]) a = has_conflict (Samples.window [a]) b.
Proof.
  intros a b.
  apply (has_conflict_symmetric (Samples.window [b]) (Samples.window [a]) a b);
    solve [reflexivity | discriminate | vm_compute; discriminate].
Defined.

(** * The operations of the window *)

Ltac run :=
  cbv [bind self ret emit raise set_bookings set_store save_and_refresh
       get_selected_booking window_after result_of trace_of];
  cbn [fst snd app bookings store user on_changed].

Lemma on_booking_saved_eq : forall booking is_new w,
  on_booking_saved booking is_new w
  = if has_conflict w booking then (inr false, w, [showerror "Conflict"])
    else
      let bs := if is_new then bookings w ++ [booking]
                else replace_by_id booking (bookings w) in
      (inr true, written bs w,
       persisted bs w
         ++ (if is_admin (user w) then [showinfo "Resident notified"] else [])).
Proof.
  intros booking is_new w. unfold on_booking_saved, written, persisted. run.
  destruct (has_conflict w booking); [reflexivity|].
  destruct is_new, (on_changed w), (is_admin (user w)); reflexivity.
Qed.

Lemma cancel_booking_eq : forall idx answer w,
  cancel_booking idx answer w
  = match idx with
    | [] => (inr tt, w, [showwarning "Select"])
    | i :: _ =>
        match nth_error (bookings w) i with
        | None => (inl IndexError, w, [])
        | Some b =>
            if negb (_can_modify w (Some b)) then (inr tt, w, [showerror "Permission"])
            else if Py.str_eqb (b_status b) Cancelled then (inr tt, w, [showinfo "Info"])
            else if answer then
              let bs := update_nth i (set_status Cancelled) (bookings w) in
              (inr tt, written bs w, askyesno "Confirm" :: persisted bs w)
            else (inr tt, w, [askyesno "Confirm"])
        end
    end.
Proof.
  intros idx answer w. unfold cancel_booking, written, persisted. run.
  destruct idx as [|i idx']; [reflexivity|].
  destruct (nth_error (bookings w) i) as [b|]; [|reflexivity]. run.
  destruct (negb (_can_modify w (Some b))); [reflexivity|].
  destruct (Py.str_eqb (b_status b) Cancelled); [reflexivity|].
  destruct answer, (on_changed w); reflexivity.
Qed.

Lemma delete_booking_with_eq : forall allowed idx answer w,
  delete_booking_with allowed idx answer w
  = match idx with
    | [] => (inr tt, w, [showwarning "Select"])
    | i :: _ =>
        match nth_error (bookings w) i with
        | None => (inl IndexError, w, [])
        | Some b =>
            if negb (allowed w b) then (inr tt, w, [showerror "Permission"])
            else if answer then
              let bs := without_id (b_id b) (bookings w) in
              (inr tt, written bs w, askyesno "Confirm" :: persisted bs w)
            else (inr tt, w, [askyesno "Confirm"])
        end
    end.
Proof.
  intros allowed idx answer w. unfold delete_booking_with, written, persisted. run.
  destruct idx as [|i idx']; [reflexivity|].
  destruct (nth_error (bookings w) i) as [b|]; [|reflexivity]. run.
  destruct (negb (allowed w b)); [reflexivity|].
  destruct answer, (on_changed w); reflexivity.
Qed.

(** [BookingForm.save] either shows one error and leaves the window
    alone, or hands a constructed booking to [on_booking_saved]. *)
Lemma BookingForm_save_cases : forall f w,
  (exists title,
     CCT211.BookingForm_save f w = (inr false, w, [showerror title])
     /\ title <> "Conflict"%string)
  \/ (exists b,
        CCT211.AmenityBooking_init
          (match CCT211.booking f with
           | Some b0 => b_id b0
           | None => next_id (store w)
           end)
          (Py.strip (CCT211.unit_entry f)) (Py.strip (CCT211.fac_var f))
          (Py.strip (CCT211.date_entry f)) (Py.strip (CCT211.start_entry f))
          (Py.strip (CCT211.end_entry f)) (Py.strip (CCT211.status_var f))
          (match CCT211.booking f with
           | Some b0 => b_created_by b0
           | None => username (user w)
           end) = inr b
        /\ let is_new := match CCT211.booking f with None => true | Some _ => false end in
           CCT211.BookingForm_save f w
           = let '(r, w', ev) := on_booking_saved b is_new w in
             (r, w', ev ++ match r with inr true => [BookingForm_destroyed] | _ => [] end)).
Proof.
  intros f w. unfold CCT211.BookingForm_save.
  destruct (CCT211.is_empty _ || _ || _ || _ || _).
  { left. exists "Error"%string. split; [reflexivity|discriminate]. }
  destruct ((_ <? 0) || _ || _).
  { left. exists "Invalid Time"%string. split; [reflexivity|discriminate]. }
  run.
  destruct (CCT211.AmenityBooking_init _ _ _ _ _ _ _ _) as [e|b] eqn:Hinit.
  { left. exists "Invalid Booking"%string. split; [reflexivity|discriminate]. }
  right. exists b. split; [reflexivity|].
  cbv zeta. rewrite on_booking_saved_eq.
  destruct (has_conflict w b); [reflexivity|].
  reflexivity.
Qed.

(** C3.  When the conflict checker reports a conflict for the submitted
    booking, [on_booking_saved] refuses it, for a creation as for an edit:
    it returns [False] after the "Conflict" error dialog, the window is the
    one it started from (nothing appended, nothing replaced) and the trace
    holds no call on the store.  The same holds of the form: a save that
    ends on the conflict dialog leaves the window as it was. *)
Theorem conflict_rejects_without_mutation :
  (forall w booking is_new,
     has_conflict w booking = true ->
     let r := on_booking_saved booking is_new w in
     result_of r = inr false
     /\ window_after r = w
     /\ trace_of r = [showerror "Conflict"]
     /\ existsb is_store_call (trace_of r) = false)
  /\ (forall f w,
        let r := CCT211.BookingForm_save f w in
        In (showerror "Conflict") (trace_of r) ->
        result_of r = inr false
        /\ window_after r = w
        /\ existsb is_store_call (trace_of r) = false).
Proof.
  split.
  - intros w booking is_new H r. subst r.
    rewrite on_booking_saved_eq, H. repeat split.
  - intros f w r Hin. subst r.
    destruct (BookingForm_save_cases f w) as [(title & Heq & Hne)|(b & _ & Heq)].
    + rewrite Heq in *. cbn in Hin. destruct Hin as [Hin|[]].
      injection Hin as Hin. contradiction.
    + cbv zeta in Heq. rewrite Heq in *. clear Heq.
      rewrite on_booking_saved_eq in *.
      destruct (has_conflict w b); [repeat split|].
      exfalso. cbv zeta in Hin. unfold persisted, trace_of in Hin. cbn in Hin.
      destruct (on_changed w), (is_admin (user w)); cbn in Hin;
        repeat (destruct Hin as [Hin|Hin]; [discriminate|]); exact Hin.
Qed.

Lemma conflict_rejects_without_mutation_witness :
  let w := Samples.window [Samples.meeting 1 "10:00" "11:00" Booked] in
  let c := Samples.meeting 2 "10:30" "11:30" Booked in
  has_conflict w c = true
  /\ window_after (on_booking_saved c true w) = w
  /\ window_after (on_booking_saved c false w) = w.
Proof.
  intros w c.
  assert (H : has_conflict w c = true) by (vm_compute; reflexivity).
  split; [exact H|]. split.
  - exact (proj1 (proj2 (proj1 conflict_rejects_without_mutation w c true H))).
  - exact (proj1 (proj2 (proj1 conflict_rejects_without_mutation w c false H))).
Defined.

(** * Ids *)

Lemma max_id_spec : forall rest first,
  In (max_id first rest) (first :: rest)
  /\ forall x, In x (first :: rest) -> x <= max_id first rest.
Proof.
  unfold max_id. induction rest as [|y rest IH]; intro first; cbn [fold_left].
  - split; [now left|]. intros x [->|[]]. lia.
  - destruct (IH (Z.max first y)) as [Hin Hle]. split.
    + destruct Hin as [Hin|Hin]; [|right; now right].
      rewrite <- Hin. destruct (Z.max_spec first y) as [[_ ->]|[_ ->]];
        [right; now left|now left].
    + intros x [->|[->|Hx]].
      * specialize (Hle (Z.max x y) (or_introl eq_refl)). lia.
      * specialize (Hle (Z.max first x) (or_introl eq_refl)). lia.
      * apply Hle. now right.
Qed.

Lemma next_id_above : forall s i,
  In i (ids (amenity_bookings s)) -> i < next_id s.
Proof.
  intros s i Hin. unfold next_id, ids in *.
  destruct (map b_id (amenity_bookings s)) as [|j js]; [destruct Hin|].
  destruct (max_id_spec js j) as [_ Hle]. specialize (Hle i Hin). lia.
Qed.

Lemma ids_app : forall a b, ids (a ++ b) = ids a ++ ids b.
Proof. intros. apply map_app. Qed.

Lemma ids_replace_by_id : forall c bs, ids (replace_by_id c bs) = ids bs.
Proof.
  induction bs as [|b rest IH]; [reflexivity|]. cbn [replace_by_id].
  destruct (Z.eqb_spec (b_id b) (b_id c)) as [E|_]; cbn [ids map].
  - now rewrite E.
  - f_equal. exact IH.
Qed.

Lemma ids_update_status : forall s bs i,
  ids (update_nth i (set_status s) bs) = ids bs.
Proof.
  induction bs as [|b rest IH]; intros [|i]; try reflexivity.
  cbn [update_nth ids map]. f_equal. apply IH.
Qed.

Lemma without_id_filter : forall i bs,
  without_id i bs = filter (fun bk => negb (b_id bk =? i)) bs.
Proof.
  induction bs as [|b rest IH]; [reflexivity|]. cbn [without_id filter].
  rewrite IH. reflexivity.
Qed.

Lemma in_without_id : forall i bs bk,
  In bk (without_id i bs) <-> In bk bs /\ b_id bk <> i.
Proof.
  intros i bs bk. rewrite without_id_filter, filter_In.
  rewrite negb_true_iff, Z.eqb_neq. reflexivity.
Qed.

Lemma without_id_absent : forall i bs, ~ In i (ids bs) -> without_id i bs = bs.
Proof.
  induction bs as [|b rest IH]; intro H; [reflexivity|].
  cbn [without_id]. cbn [ids map In] in H.
  destruct (Z.eqb_spec (b_id b) i) as [E|_]; [tauto|].
  cbn [negb]. f_equal. apply IH. tauto.
Qed.

Lemma NoDup_ids_without : forall i bs, NoDup (ids bs) -> NoDup (ids (without_id i bs)).
Proof.
  induction bs as [|b rest IH]; intro H; [exact H|].
  cbn [ids map] in H. inversion H as [|x l Hnotin Hnd]; subst.
  cbn [without_id]. destruct (negb (b_id b =? i)); [|now apply IH].
  cbn [ids map]. constructor; [|now apply IH].
  intro Hin. apply Hnotin. unfold ids in *.
  apply in_map_iff in Hin as (bk & Heq & Hbk).
  apply in_without_id in Hbk as [Hbk _].
  rewrite <- Heq. now apply in_map.
Qed.

Lemma NoDup_ids_snoc : forall bs c,
  NoDup (ids bs) -> ~ In (b_id c) (ids bs) -> NoDup (ids (bs ++ [c])).
Proof.
  induction bs as [|b rest IH]; intros c Hnd Hnotin.
  - cbn. constructor; [intros []|constructor].
  - cbn [ids map app] in *. inversion Hnd as [|x l Hb Hrest]; subst.
    constructor.
    + fold (ids (rest ++ [c])). rewrite ids_app. intro Hin.
      apply in_app_or in Hin as [Hin|[Hin|[]]]; [now apply Hb|].
      apply Hnotin. now left.
    + apply IH; [exact Hrest|]. intro Hin. apply Hnotin. now right.
Qed.

Lemma written_consistent : forall bs w,
  NoDup (ids bs) -> unique_ids (written bs w) /\ store_covers (written bs w).
Proof.
  intros bs w H. split; [exact H|]. unfold store_covers, written. cbn.
  apply incl_refl.
Qed.

Lemma fresh_next_id : forall w,
  store_covers w -> ~ In (next_id (store w)) (ids (bookings w)).
Proof.
  intros w Hcov Hin. apply Hcov in Hin. apply next_id_above in Hin. lia.
Qed.

(** C9.  Deleting keeps exactly the bookings whose id differs from the
    deleted one, each as it was and in the order they had: the new list is
    the old one filtered on [bk.id != id].  When no booking carries the id
    the list is unchanged.  [delete_booking], once permitted and
    confirmed, replaces the list by that filtered list, hands it to the
    store and raises nothing. *)
Theorem delete_filters_by_id :
  (forall i bs, without_id i bs = filter (fun bk => negb (b_id bk =? i)) bs)
  /\ (forall i bs bk, In bk (without_id i bs) <-> In bk bs /\ b_id bk <> i)
  /\ (forall i bs, (forall bk, In bk bs -> b_id bk <> i) -> without_id i bs = bs)
  /\ (forall allowed i rest b w,
        nth_error (bookings w) i = Some b ->
        allowed w b = true ->
        let bs := without_id (b_id b) (bookings w) in
        delete_booking_with allowed (i :: rest) true w
        = (inr tt, written bs w, askyesno "Confirm" :: persisted bs w)).
Proof.
  split; [exact without_id_filter|].
  split; [exact in_without_id|].
  split.
  - intros i bs H. apply without_id_absent. unfold ids. intro Hin.
    apply in_map_iff in Hin as (bk & Heq & Hbk). exact (H bk Hbk Heq).
  - intros allowed i rest b w Hnth Hal bs. subst bs.
    rewrite delete_booking_with_eq, Hnth, Hal. reflexivity.
Qed.

Lemma delete_filters_by_id_witness :
  let a := Samples.meeting 1 "09:00" "10:00" Booked in
  let b := Samples.meeting 2 "10:00" "11:00" Booked in
  without_id 7 [a; b] = [a; b]
  /\ CCT211_Project2.delete_booking [1%nat] true
       (mk_AmenityWindow (mk_DataStore [a; b]) Samples.root false [a; b])
     = (inr tt, mk_AmenityWindow (mk_DataStore [a]) Samples.root false [a],
        [askyesno "Confirm"; store_set_amenity_bookings [a]; store_save;
         refresh_listbox]).
Proof.
  intros a b. split.
  - apply (proj1 (proj2 (proj2 delete_filters_by_id)) 7 [a; b]).
    intros bk [<-|[<-|[]]]; discriminate.
  - apply (proj2 (proj2 (proj2 delete_filters_by_id))
             CCT211_Project2.may_delete 1%nat [] b
             (mk_AmenityWindow (mk_DataStore [a; b]) Samples.root false [a; b]));
      reflexivity.
Defined.

(** C8.  [next_id] is 1 on an empty table and one more than the largest
    stored id otherwise.  Hence, in a window whose ids are pairwise
    distinct and known to the store, every operation leaves them so:
    creating a booking whose id comes from [next_id] (it is appended when
    there is no conflict), editing (the booking with the id is replaced),
    cancelling (the status of one booking changes), deleting (the bookings
    with the id are dropped), and a save of the booking form. *)
Theorem ids_stay_unique :
  (forall s, amenity_bookings s = [] -> next_id s = 1)
  /\ (forall s, amenity_bookings s <> [] ->
        In (next_id s - 1) (ids (amenity_bookings s))
        /\ forall i, In i (ids (amenity_bookings s)) -> i <= next_id s - 1)
  /\ (forall w,
        unique_ids w -> store_covers w ->
        (forall c,
           b_id c = next_id (store w) ->
           let w' := window_after (on_booking_saved c true w) in
           (has_conflict w c = false -> bookings w' = bookings w ++ [c])
           /\ unique_ids w' /\ store_covers w')
        /\ (forall c,
              let w' := window_after (on_booking_saved c false w) in
              (has_conflict w c = false -> ids (bookings w') = ids (bookings w))
              /\ unique_ids w' /\ store_covers w')
        /\ (forall idx answer,
              let w' := window_after (cancel_booking idx answer w) in
              ids (bookings w') = ids (bookings w)
              /\ unique_ids w' /\ store_covers w')
        /\ (forall allowed idx answer,
              let w' := window_after (delete_booking_with allowed idx answer w) in
              unique_ids w' /\ store_covers w')
        /\ (forall f,
              let w' := window_after (CCT211.BookingForm_save f w) in
              unique_ids w' /\ store_covers w')).
Proof.
  split.
  { intros s H. unfold next_id. now rewrite H. }
  split.
  { intros s H. unfold next_id, ids.
    destruct (amenity_bookings s) as [|b rest]; [contradiction|].
    cbn [map]. destruct (max_id_spec (map b_id rest) (b_id b)) as [Hin Hle].
    replace (max_id (b_id b) (map b_id rest) + 1 - 1)
      with (max_id (b_id b) (map b_id rest)) by lia.
    split; [exact Hin|exact Hle]. }
  intros w Hu Hc.
  assert (Hcreate : forall c, b_id c = next_id (store w) ->
            NoDup (ids (bookings w ++ [c]))).
  { intros c Hid. apply NoDup_ids_snoc; [exact Hu|].
    rewrite Hid. now apply fresh_next_id. }
  assert (Hedit : forall c, NoDup (ids (replace_by_id c (bookings w)))).
  { intro c. now rewrite ids_replace_by_id. }
  split; [|split; [|split; [|split]]].
  - intros c Hid w'. subst w'. rewrite on_booking_saved_eq.
    destruct (has_conflict w c); cbn.
    + split; [discriminate|]. split; assumption.
    + split; [reflexivity|]. apply written_consistent, Hcreate, Hid.
  - intros c w'. subst w'. rewrite on_booking_saved_eq.
    destruct (has_conflict w c); cbn.
    + split; [discriminate|]. split; assumption.
    + split; [intros _; apply ids_replace_by_id|].
      apply written_consistent, Hedit.
  - intros idx answer w'. subst w'. rewrite cancel_booking_eq.
    destruct idx as [|i idx']; [cbn; auto|].
    destruct (nth_error (bookings w) i) as [b|]; [|cbn; auto].
    destruct (negb (_can_modify w (Some b))); [cbn; auto|].
    destruct (Py.str_eqb (b_status b) Cancelled); [cbn; auto|].
    destruct answer; [|cbn; auto].
    cbn. split; [apply ids_update_status|].
    apply written_consistent. now rewrite ids_update_status.
  - intros allowed idx answer w'. subst w'. rewrite delete_booking_with_eq.
    destruct idx as [|i idx']; [cbn; auto|].
    destruct (nth_error (bookings w) i) as [b|]; [|cbn; auto].
    destruct (negb (allowed w b)); [cbn; auto|].
    destruct answer; [|cbn; auto].
    cbn. apply written_consistent. now apply NoDup_ids_without.
  - intros f w'. subst w'.
    destruct (BookingForm_save_cases f w) as [(title & Heq & _)|(b & Hinit & Heq)].
    + rewrite Heq. cbn. auto.
    + cbv zeta in Heq. rewrite Heq. clear Heq. rewrite on_booking_saved_eq.
      destruct (has_conflict w b); [cbn; auto|].
      cbn. apply written_consistent.
      destruct (CCT211.booking f) as [b0|]; [apply Hedit|].
      apply Hcreate.
      unfold CCT211.AmenityBooking_init in Hinit.
      repeat match type of Hinit with
             | match ?x with _ => _ end = _ => destruct x; try discriminate
             end.
      now injection Hinit as <-.
Qed.

Lemma ids_stay_unique_witness :
  let a := Samples.meeting 1 "10:00" "11:00" Booked in
  let w := Samples.window [a] in
  unique_ids w /\ store_covers w
  /\ unique_ids
       (window_after
          (CCT211.BookingForm_save
             (Samples.new_form "102" "2025-09-10" "09:00" "10:00") w))
  /\ ids (bookings
            (window_after
               (CCT211.BookingForm_save
                  (Samples.new_form "102" "2025-09-10" "09:00" "10:00") w)))
     = [1; 2].
Proof.
  intros a w.
  assert (Hu : unique_ids w).
  { unfold unique_ids. cbn. constructor; [intros []|constructor]. }
  assert (Hc : store_covers w) by (unfold store_covers; cbn; apply incl_refl).
  split; [exact Hu|]. split; [exact Hc|]. split.
  - exact (proj1 (proj2 (proj2 (proj2 (proj2
             (proj2 (proj2 ids_stay_unique) w Hu Hc)))) _)).
  - vm_compute. reflexivity.
Defined.

(** * Status and the conflict checker *)

Lemma conflict_loop_restatus : forall f c s e bs,
  conflict_loop c s e (map (fun b => set_status (f b) b) bs) = conflict_loop c s e bs.
Proof.
  induction bs as [|b rest IH]; [reflexivity|].
  cbn [map conflict_loop set_status b_id b_facility_type b_date b_start_time b_end_time].
  rewrite IH. reflexivity.
Qed.

Lemma has_conflict_restatus : forall f w c,
  has_conflict (restatus f w) c = has_conflict w c.
Proof.
  intros f w c. unfold has_conflict, restatus. cbn [bookings].
  now rewrite conflict_loop_restatus.
Qed.

(** C2.  The conflict checker never reads [status]: rewriting the
    statuses of the stored bookings at will does not change its answer.
    So a Cancelled booking still holds its slot: a new booking (its id
    fresh from [next_id]) for the same facility and date whose interval
    overlaps it is refused with the "Conflict" error and nothing is
    written. *)
Theorem cancelled_booking_still_blocks :
  (forall f w c, has_conflict (restatus f w) c = has_conflict w c)
  /\ (forall w b c,
        store_covers w ->
        In b (bookings w) ->
        b_status b = Cancelled ->
        b_id c = next_id (store w) ->
        b_facility_type b = b_facility_type c ->
        b_date b = b_date c ->
        0 <= parse_time_to_minutes (b_start_time c) ->
        0 <= parse_time_to_minutes (b_end_time c) ->
        overlaps b c ->
        has_conflict w c = true
        /\ on_booking_saved c true w = (inr false, w, [showerror "Conflict"])).
Proof.
  split; [exact has_conflict_restatus|].
  intros w b c Hcov Hin _ Hid Hf Hd Hs He Hov.
  assert (H : has_conflict w c = true).
  { apply has_conflict_true_iff; [assumption..|].
    exists b. repeat split; try assumption; try apply Hov.
    intro E. apply (fresh_next_id w Hcov).
    rewrite <- Hid, <- E. unfold ids. now apply in_map. }
  split; [exact H|]. now rewrite on_booking_saved_eq, H.
Qed.

Lemma cancelled_booking_still_blocks_witness :
  let a := Samples.meeting 1 "10:00" "11:00" Cancelled in
  let c := Samples.meeting 2 "10:00" "11:00" Booked in
  let w := Samples.window [a] in
  b_status a = Cancelled
  /\ on_booking_saved c true w = (inr false, w, [showerror "Conflict"]).
Proof.
  intros a c w. split; [reflexivity|].
  apply (proj2 cancelled_booking_still_blocks w a c).
  - unfold store_covers. cbn. apply incl_refl.
  - left. reflexivity.
  - reflexivity.
  - reflexivity.
  - reflexivity.
  - reflexivity.
  - vm_compute. discriminate.
  - vm_compute. discriminate.
  - split; vm_compute; reflexivity.
Defined.

(** The scenario of the specification, run through the form: booking A
    is created, then cancelled, then the same slot is asked for again. *)
Example cancel_then_rebook :
  let form := Samples.new_form "101" "2025-09-10" "10:00" "11:00" in
  let w1 := window_after (CCT211.BookingForm_save form (Samples.window [])) in
  let w2 := window_after (cancel_booking [0%nat] true w1) in
  map b_status (bookings w2) = [Cancelled]
  /\ CCT211.BookingForm_save form w2 = (inr false, w2, [showerror "Conflict"]).
Proof. vm_compute. split; reflexivity. Qed.

(** Booking A gets id 1; a booking that touches it at 10:00 is accepted
    with id 2; one that overlaps it is refused and nothing changes. *)
Example create_end_to_end :
  let w1 :=
    window_after
      (CCT211.BookingForm_save
         (Samples.new_form "101" "2025-09-10" "10:00" "11:00") (Samples.window [])) in
  let w2 :=
    window_after
      (CCT211.BookingForm_save
         (Samples.new_form "102" "2025-09-10" "09:00" "10:00") w1) in
  ids (bookings w1) = [1]
  /\ ids (bookings w2) = [1; 2]
  /\ CCT211.BookingForm_save
       (Samples.new_form "102" "2025-09-10" "10:30" "11:30") w2
     = (inr false, w2, [showerror "Conflict"]).
Proof. vm_compute. repeat split; reflexivity. Qed.

(** Editing booking 2 so that it overlaps booking 1 is refused, and the
    window still holds booking 2 as it was. *)
Example edit_into_conflict :
  let a := Samples.meeting 1 "10:00" "11:00" Booked in
  let b := Samples.meeting 2 "09:00" "10:00" Booked in
  let w := Samples.window [a; b] in
  let form :=
    CCT211.mk_BookingForm (Some b) (Py.lit "101") (Py.lit "Meeting Room")
      (Py.lit "2025-09-10") (Py.lit "09:30") (Py.lit "10:30") Booked in
  edit_booking [1%nat] w = (inr (Some b), w, [BookingForm_opened (Some b)])
  /\ CCT211.BookingForm_save form w = (inr false, w, [showerror "Conflict"]).
Proof. vm_compute. split; reflexivity. Qed.

(** * Times that do not parse *)

(** C4, as amended.  [parse_time_to_minutes] returns the sentinel -1 for
    the strings that do not split at ":" into two parts both read by
    [int()]; on two such parts it returns hours * 60 + minutes, also when
    [_validate_time] rejects the string.  [has_conflict] answers "no
    conflict" whenever the start or the end of the candidate converts to
    a negative number. *)
Theorem unparsable_time_is_sentinel :
  (forall s,
     (forall h m, Py.split 58 s = [h; m] -> Py.int h = None \/ Py.int m = None) ->
     parse_time_to_minutes s = -1)
  /\ (forall s h m hv mv,
        Py.split 58 s = [h; m] -> Py.int h = Some hv -> Py.int m = Some mv ->
        parse_time_to_minutes s = hv * 60 + mv)
  /\ (forall w c,
        parse_time_to_minutes (b_start_time c) < 0
        \/ parse_time_to_minutes (b_end_time c) < 0 ->
        has_conflict w c = false)
  /\ parse_time_to_minutes (Py.lit "aa:bb") = -1
  /\ parse_time_to_minutes (Py.lit "0900") = -1
  /\ parse_time_to_minutes (Py.lit "9:00") = 540
  /\ parse_time_to_minutes (Py.lit "12:0") = 720
  /\ parse_time_to_minutes (Py.lit "24:00") = 1440.
Proof.
  split.
  { intros s H. unfold parse_time_to_minutes.
    destruct (Py.split 58 s) as [|h [|m [|x rest]]]; try reflexivity.
    destruct (H h m eq_refl) as [-> | Hm]; [reflexivity|].
    rewrite Hm. now destruct (Py.int h). }
  split.
  { intros s h m hv mv Hs Hh Hm. unfold parse_time_to_minutes.
    now rewrite Hs, Hh, Hm. }
  split; [exact has_conflict_negative|].
  repeat split; vm_compute; reflexivity.
Qed.

Lemma unparsable_time_is_sentinel_witness :
  let c := Samples.meeting 2 "aa:bb" "11:00" Booked in
  let w := Samples.window [Samples.meeting 1 "10:00" "11:00" Booked] in
  parse_time_to_minutes (b_start_time c) = -1 /\ has_conflict w c = false.
Proof.
  intros c w. split.
  - apply (proj1 unparsable_time_is_sentinel (b_start_time c)).
    intros h m Hs. vm_compute in Hs. injection Hs as <- <-.
    left. vm_compute. reflexivity.
  - apply (proj1 (proj2 (proj2 unparsable_time_is_sentinel)) w c).
    left. vm_compute. reflexivity.
Defined.

(** C4 as stated fails: "9:00" is rejected by [_validate_time], yet it
    converts to 540 minutes, and a candidate that carries it is checked
    for overlap like any other. *)
Lemma rejected_time_converts_to_minutes :
  ~ (forall s,
       (forall field r, CCT211._validate_time s field <> inr r) ->
       parse_time_to_minutes s < 0
       /\ forall w c,
            b_start_time c = s \/ b_end_time c = s -> has_conflict w c = false).
Proof.
  intro H.
  destruct (H (Py.lit "9:00")) as [Hneg Hno].
  { intros field r. vm_compute. discriminate. }
  vm_compute in Hneg. discriminate.
Qed.

Example rejected_time_still_conflicts :
  CCT211._validate_time (Py.lit "9:00") "start_time" = inl (TimeFormat "start_time")
  /\ has_conflict (Samples.window [Samples.meeting 1 "09:00" "10:00" Booked])
       (Samples.meeting 2 "9:00" "10:00" Booked) = true.
Proof. split; vm_compute; reflexivity. Qed.

(** * Decimal digits *)

Lemma all_digits_ok :
  forallb (fun s => forallb (digit_ok s) offsets) Py.Nd_starts = true.
Proof. vm_compute. reflexivity. Qed.

Lemma decimal_inv : forall c v,
  Py.decimal c = Some v ->
  exists s, In s Py.Nd_starts /\ (s <= c < s + 10)%N /\ v = Z.of_N (c - s).
Proof.
  intros c v H. unfold Py.decimal in H.
  destruct (find _ Py.Nd_starts) as [s|] eqn:F; [|discriminate].
  apply find_some in F as [Hin Hb]. injection H as <-.
  apply andb_true_iff in Hb as [H1 H2].
  apply N.leb_le in H1. apply N.ltb_lt in H2. now exists s.
Qed.

Lemma in_offsets : forall k, (k < 10)%N -> In k offsets.
Proof.
  intros k H. unfold offsets.
  assert (k = 0 \/ k = 1 \/ k = 2 \/ k = 3 \/ k = 4 \/ k = 5 \/ k = 6
          \/ k = 7 \/ k = 8 \/ k = 9)%N as E by lia.
  cbn. intuition auto.
Qed.

Lemma decimal_is_digit : forall c v, Py.decimal c = Some v -> is_digit c v.
Proof.
  intros c v H. destruct (decimal_inv c v H) as (s & Hin & Hr & Hv).
  pose proof all_digits_ok as A. rewrite forallb_forall in A.
  specialize (A s Hin). rewrite forallb_forall in A.
  assert (Hk : (c - s < 10)%N) by lia.
  specialize (A (c - s)%N (in_offsets _ Hk)).
  unfold digit_ok in A. replace (s + (c - s))%N with c in A by lia.
  repeat (apply andb_true_iff in A as [A ?]).
  repeat match goal with
         | H : negb _ = true |- _ => apply negb_true_iff in H
         end.
  constructor; try assumption. lia.
Qed.

Lemma ascii_decimal : forall c v,
  Py.decimal c = Some v -> (c < 128)%N -> In c ascii_digits /\ c = Z.to_N (48 + v).
Proof.
  intros c v H Hc. destruct (decimal_inv c v H) as (s & Hin & Hr & Hv).
  assert (s = 48%N) as ->.
  { unfold Py.Nd_starts in Hin. cbn [In] in Hin.
    repeat (destruct Hin as [<-|Hin]; [lia || reflexivity|]). destruct Hin. }
  split; [|lia].
  assert (c = 48 \/ c = 49 \/ c = 50 \/ c = 51 \/ c = 52 \/ c = 53 \/ c = 54
          \/ c = 55 \/ c = 56 \/ c = 57)%N as E by lia.
  unfold ascii_digits. cbn. intuition auto.
Qed.

Lemma isdecimal_true : forall c,
  Py.isdecimal c = true <-> exists v, Py.decimal c = Some v.
Proof.
  intro c. unfold Py.isdecimal. destruct (Py.decimal c) as [v|].
  - split; [now exists v|reflexivity].
  - split; [discriminate|]. now intros (v & ?).
Qed.

(** ** [int] and [split] on runs of digits *)

Ltac use_digit H :=
  let D := fresh "D" in
  pose proof (decimal_is_digit _ _ H) as D;
  destruct D as [? ? ? ? ? ?].

Ltac simp_digits :=
  repeat first
    [ match goal with H : Py.int_isspace _ = false |- _ => rewrite H end
    | match goal with H : (_ =? _)%N = false |- _ => rewrite H end
    | match goal with H : Py.decimal _ = Some _ |- _ => rewrite H end
    | progress cbn [Py.lstrip_with rev app Py.int_body Py.split] ].

Lemma int_two_digits : forall a b h,
  two_digits a b = Some h -> Py.int [a; b] = Some h /\ 0 <= h <= 99.
Proof.
  intros a b h H. unfold two_digits in H.
  destruct (Py.decimal a) as [x|] eqn:Ha; [|discriminate].
  destruct (Py.decimal b) as [y|] eqn:Hb; [|discriminate].
  assert (E : h = 10 * x + y) by congruence. subst h. clear H.
  use_digit Ha. use_digit Hb.
  split; [|lia].
  unfold Py.int, Py.strip_with. simp_digits.
  change (Py.int_max_str_digits <? _)%N with false. cbv iota.
  f_equal; lia.
Qed.

Lemma int_four_digits : forall a b c d y,
  four_digits a b c d = Some y -> Py.int [a; b; c; d] = Some y /\ 0 <= y <= 9999.
Proof.
  intros a b c d v H. unfold four_digits in H.
  destruct (Py.decimal a) as [x|] eqn:Ha; [|discriminate].
  destruct (Py.decimal b) as [y|] eqn:Hb; [|discriminate].
  destruct (Py.decimal c) as [z|] eqn:Hc; [|discriminate].
  destruct (Py.decimal d) as [t|] eqn:Hd; [|discriminate].
  assert (E : v = 1000 * x + 100 * y + 10 * z + t) by congruence. subst v. clear H.
  use_digit Ha. use_digit Hb. use_digit Hc. use_digit Hd.
  split; [|lia].
  unfold Py.int, Py.strip_with. simp_digits.
  change (Py.int_max_str_digits <? _)%N with false. cbv iota.
  f_equal; lia.
Qed.

(** * Times *)

Lemma two_digits_inv : forall a b h,
  two_digits a b = Some h ->
  exists x y, Py.decimal a = Some x /\ Py.decimal b = Some y /\ h = 10 * x + y.
Proof.
  intros a b h H. unfold two_digits in H.
  destruct (Py.decimal a) as [x|]; [|discriminate].
  destruct (Py.decimal b) as [y|]; [|discriminate].
  exists x, y. repeat split. congruence.
Qed.

Lemma fullmatch_time_iff : forall s,
  Py.fullmatch CCT211.time_pattern s = true
  <-> exists a b c d h m,
        s = [a; b; 58%N; c; d]
        /\ two_digits a b = Some h /\ two_digits c d = Some m.
Proof.
  intro s. unfold CCT211.time_pattern. cbn [repeat app]. split.
  - destruct s as [|a [|b [|k [|c [|d [|e s]]]]]]; cbn [Py.fullmatch];
      rewrite ?andb_false_r; try discriminate.
    intro H. repeat (apply andb_true_iff in H as [? H]).
    repeat match goal with
           | H : Py.isdecimal _ = true |- _ =>
               apply isdecimal_true in H; destruct H as [? H]
           end.
    match goal with H : (k =? 58)%N = true |- _ => apply N.eqb_eq in H; subst k end.
    exists a, b, c, d. unfold two_digits.
    repeat match goal with H : Py.decimal _ = Some _ |- _ => rewrite H; clear H end.
    do 2 eexists. repeat split.
  - intros (a & b & c & d & h & m & -> & Hh & Hm).
    apply two_digits_inv in Hh as (x & y & Ha & Hb & _).
    apply two_digits_inv in Hm as (z & t & Hc & Hd & _).
    cbn [Py.fullmatch]. unfold Py.isdecimal. rewrite Ha, Hb, Hc, Hd.
    reflexivity.
Qed.

Lemma split_time : forall a b c d h m,
  two_digits a b = Some h -> two_digits c d = Some m ->
  Py.split 58 [a; b; 58%N; c; d] = [[a; b]; [c; d]].
Proof.
  intros a b c d h m Hh Hm.
  apply two_digits_inv in Hh as (x & y & Ha & Hb & _).
  apply two_digits_inv in Hm as (z & t & Hc & Hd & _).
  use_digit Ha. use_digit Hb. use_digit Hc. use_digit Hd.
  cbn [Py.split]. rewrite N.eqb_refl.
  repeat match goal with H : (_ =? 58)%N = false |- _ => rewrite H; clear H end.
  reflexivity.
Qed.

Lemma parse_time_digits : forall a b c d h m,
  two_digits a b = Some h -> two_digits c d = Some m ->
  parse_time_to_minutes [a; b; 58%N; c; d] = h * 60 + m.
Proof.
  intros a b c d h m Hh Hm. unfold parse_time_to_minutes.
  rewrite (split_time a b c d h m Hh Hm).
  destruct (int_two_digits a b h Hh) as [-> _].
  destruct (int_two_digits c d m Hm) as [-> _]. reflexivity.
Qed.

Lemma validate_time_digits : forall a b c d h m field,
  two_digits a b = Some h -> two_digits c d = Some m ->
  CCT211._validate_time [a; b; 58%N; c; d] field
  = if 23 <? h then inl (HourRange field)
    else if 59 <? m then inl (MinuteRange field)
    else inr [a; b; 58%N; c; d].
Proof.
  intros a b c d h m field Hh Hm. unfold CCT211._validate_time.
  replace (Py.fullmatch CCT211.time_pattern [a; b; 58%N; c; d]) with true
    by (symmetry; apply fullmatch_time_iff; now exists a, b, c, d, h, m).
  cbn [negb]. rewrite (split_time a b c d h m Hh Hm).
  unfold int_or_raise, Py.new_time.
  destruct (int_two_digits a b h Hh) as [-> Hhr].
  destruct (int_two_digits c d m Hm) as [-> Hmr].
  destruct (Z.ltb_spec 23 h), (Z.ltb_spec 59 m),
    (Z.leb_spec 0 h), (Z.leb_spec h 23), (Z.leb_spec 0 m), (Z.leb_spec m 59);
    cbn [andb negb]; try reflexivity; lia.
Qed.

Lemma validate_time_format : forall s field,
  Py.fullmatch CCT211.time_pattern s = false ->
  CCT211._validate_time s field = inl (TimeFormat field).
Proof. intros s field H. unfold CCT211._validate_time. now rewrite H. Qed.

Lemma validate_time_accepts : forall s field r,
  CCT211._validate_time s field = inr r <-> r = s /\ exists h m, valid_time s h m.
Proof.
  intros s field r. split.
  - intro H. destruct (Py.fullmatch CCT211.time_pattern s) eqn:F.
    + apply fullmatch_time_iff in F as (a & b & c & d & h & m & -> & Hh & Hm).
      rewrite (validate_time_digits a b c d h m field Hh Hm) in H.
      destruct (int_two_digits a b h Hh) as [_ Hhr].
      destruct (int_two_digits c d m Hm) as [_ Hmr].
      destruct (Z.ltb_spec 23 h); [discriminate|].
      destruct (Z.ltb_spec 59 m); [discriminate|].
      split; [congruence|].
      exists h, m, a, b, c, d. repeat split; try assumption; lia.
    + rewrite (validate_time_format s field F) in H. discriminate.
  - intros (-> & h & m & a & b & c & d & -> & Hh & Hm & Hhr & Hmr).
    rewrite (validate_time_digits a b c d h m field Hh Hm).
    destruct (Z.ltb_spec 23 h); [lia|].
    destruct (Z.ltb_spec 59 m); [lia|]. reflexivity.
Qed.

Lemma valid_time_minutes : forall s h m,
  valid_time s h m -> parse_time_to_minutes s = h * 60 + m.
Proof.
  intros s h m (a & b & c & d & -> & Hh & Hm & _). now apply parse_time_digits.
Qed.

Lemma valid_time_hour_minute : forall s h m,
  valid_time s h m ->
  CCT211.hour_minute s = inr (h, m) /\ CCT211.dtime h m = inr (Py.mk_time h m).
Proof.
  intros s h m (a & b & c & d & -> & Hh & Hm & Hhr & Hmr). split.
  - unfold CCT211.hour_minute. rewrite (split_time a b c d h m Hh Hm).
    unfold int_or_raise.
    destruct (int_two_digits a b h Hh) as [-> _].
    destruct (int_two_digits c d m Hm) as [-> _]. reflexivity.
  - unfold CCT211.dtime, Py.new_time.
    destruct (Z.leb_spec 0 h), (Z.leb_spec h 23), (Z.leb_spec 0 m), (Z.leb_spec m 59);
      cbn [andb]; try reflexivity; lia.
Qed.

(** C6.  [_validate_time] raises the format error unless the string is
    two digits, a colon and two digits; on such a string it raises the
    range error of the hour when the hour is above 23, else that of the
    minute when the minute is above 59, and otherwise returns the string
    it was given.  So "9:00", "12:0", "24:00" and "aa:bb" are refused and
    "00:00" and "23:59" are returned unchanged. *)
Theorem validate_time_grammar_and_range :
  (forall s field,
     (~ exists a b c d h m,
          s = [a; b; 58%N; c; d]
          /\ two_digits a b = Some h /\ two_digits c d = Some m) ->
     CCT211._validate_time s field = inl (TimeFormat field))
  /\ (forall a b c d h m field,
        two_digits a b = Some h -> two_digits c d = Some m ->
        CCT211._validate_time [a; b; 58%N; c; d] field
        = if 23 <? h then inl (HourRange field)
          else if 59 <? m then inl (MinuteRange field)
          else inr [a; b; 58%N; c; d])
  /\ (forall s field r,
        CCT211._validate_time s field = inr r
        <-> r = s
            /\ exists a b c d h m,
                 s = [a; b; 58%N; c; d]
                 /\ two_digits a b = Some h /\ two_digits c d = Some m
                 /\ 0 <= h <= 23 /\ 0 <= m <= 59)
  /\ CCT211._validate_time (Py.lit "9:00") "time" = inl (TimeFormat "time")
  /\ CCT211._validate_time (Py.lit "12:0") "time" = inl (TimeFormat "time")
  /\ CCT211._validate_time (Py.lit "24:00") "time" = inl (HourRange "time")
  /\ CCT211._validate_time (Py.lit "aa:bb") "time" = inl (TimeFormat "time")
  /\ CCT211._validate_time (Py.lit "00:00") "time" = inr (Py.lit "00:00")
  /\ CCT211._validate_time (Py.lit "23:59") "time" = inr (Py.lit "23:59").
Proof.
  split.
  { intros s field H. apply validate_time_format.
    destruct (Py.fullmatch CCT211.time_pattern s) eqn:F; [|reflexivity].
    exfalso. apply H. now apply fullmatch_time_iff. }
  split; [exact validate_time_digits|].
  split.
  { intros s field r. rewrite validate_time_accepts. unfold valid_time.
    split; intros (-> & H); (split; [reflexivity|]).
    - destruct H as (h & m & a & b & c & d & H). now exists a, b, c, d, h, m.
    - destruct H as (a & b & c & d & h & m & H). now exists h, m, a, b, c, d. }
  repeat split; vm_compute; reflexivity.
Qed.

Lemma validate_time_grammar_and_range_witness :
  CCT211._validate_time (Py.lit "12:60") "end_time" = inl (MinuteRange "end_time")
  /\ CCT211._validate_time (Py.lit "9:00") "start_time" = inl (TimeFormat "start_time").
Proof.
  split.
  - apply (proj1 (proj2 validate_time_grammar_and_range)
             49%N 50%N 54%N 48%N 12 60 "end_time"%string); reflexivity.
  - apply (proj1 validate_time_grammar_and_range (Py.lit "9:00") "start_time"%string).
    intros (a & b & c & d & h & m & H & _). discriminate H.
Defined.

(** * Dates *)

Lemma four_digits_inv : forall a b c d v,
  four_digits a b c d = Some v ->
  exists x y z t,
    Py.decimal a = Some x /\ Py.decimal b = Some y
    /\ Py.decimal c = Some z /\ Py.decimal d = Some t
    /\ v = 1000 * x + 100 * y + 10 * z + t.
Proof.
  intros a b c d v H. unfold four_digits in H.
  destruct (Py.decimal a) as [x|]; [|discriminate].
  destruct (Py.decimal b) as [y|]; [|discriminate].
  destruct (Py.decimal c) as [z|]; [|discriminate].
  destruct (Py.decimal d) as [t|]; [|discriminate].
  exists x, y, z, t. repeat split. congruence.
Qed.

Lemma fullmatch_date_iff : forall s,
  Py.fullmatch CCT211.date_pattern s = true <-> exists y m d, date_text s y m d.
Proof.
  intro s. unfold CCT211.date_pattern, date_text. cbn [repeat app]. split.
  - destruct s as [|a [|b [|c [|e [|k1 [|f [|g [|k2 [|h [|i [|j s]]]]]]]]]]];
      cbn [Py.fullmatch]; rewrite ?andb_false_r; try discriminate.
    intro H. repeat (apply andb_true_iff in H as [? H]).
    repeat match goal with
           | H : Py.isdecimal _ = true |- _ =>
               apply isdecimal_true in H; destruct H as [? H]
           | H : (_ =? 45)%N = true |- _ => apply N.eqb_eq in H; subst
           end.
    unfold four_digits, two_digits.
    do 3 eexists. exists a, b, c, e, f, g, h, i.
    repeat match goal with H : Py.decimal _ = Some _ |- _ => rewrite H; clear H end.
    repeat split.
  - intros (y & m & d & a & b & c & e & f & g & h & i & -> & Hy & Hm & Hd).
    apply four_digits_inv in Hy as (? & ? & ? & ? & Ha & Hb & Hc & He & _).
    apply two_digits_inv in Hm as (? & ? & Hf & Hg & _).
    apply two_digits_inv in Hd as (? & ? & Hh & Hi & _).
    cbn [Py.fullmatch]. unfold Py.isdecimal.
    rewrite Ha, Hb, Hc, He, Hf, Hg, Hh, Hi. reflexivity.
Qed.

Lemma split_date : forall a b c e f g h i y m d,
  four_digits a b c e = Some y ->
  two_digits f g = Some m ->
  two_digits h i = Some d ->
  Py.split 45 [a; b; c; e; 45%N; f; g; 45%N; h; i] = [[a; b; c; e]; [f; g]; [h; i]].
Proof.
  intros a b c e f g h i y m d Hy Hm Hd.
  apply four_digits_inv in Hy as (? & ? & ? & ? & Ha & Hb & Hc & He & _).
  apply two_digits_inv in Hm as (? & ? & Hf & Hg & _).
  apply two_digits_inv in Hd as (? & ? & Hh & Hi & _).
  use_digit Ha. use_digit Hb. use_digit Hc. use_digit He.
  use_digit Hf. use_digit Hg. use_digit Hh. use_digit Hi.
  cbn [Py.split]. rewrite N.eqb_refl.
  repeat match goal with H : (_ =? 45)%N = false |- _ => rewrite H; clear H end.
  reflexivity.
Qed.

Lemma validate_date_text : forall s y m d,
  date_text s y m d ->
  CCT211._validate_and_normalize_date s
  = match Py.new_date y m d with
    | None => inl InvalidDateValue
    | Some candidate =>
        if Py.date_ltb candidate CCT211._MIN_BOOKING_DATE then inl DateTooEarly
        else inr (Py.isoformat candidate)
    end.
Proof.
  intros s y m d Ht.
  assert (F : Py.fullmatch CCT211.date_pattern s = true)
    by (apply fullmatch_date_iff; now exists y, m, d).
  destruct Ht as (a & b & c & e & f & g & h & i & -> & Hy & Hm & Hd).
  unfold CCT211._validate_and_normalize_date. rewrite F. cbn [negb].
  rewrite (split_date _ _ _ _ _ _ _ _ y m d Hy Hm Hd).
  unfold int_or_raise.
  destruct (int_four_digits _ _ _ _ y Hy) as [-> _].
  destruct (int_two_digits _ _ m Hm) as [-> _].
  destruct (int_two_digits _ _ d Hd) as [-> _].
  reflexivity.
Qed.

Lemma validate_date_format : forall s,
  Py.fullmatch CCT211.date_pattern s = false ->
  CCT211._validate_and_normalize_date s = inl DateFormat.
Proof. intros s H. unfold CCT211._validate_and_normalize_date. now rewrite H. Qed.

(** ** The ISO text of a date *)

Lemma in_upto : forall n x, 0 <= x < n -> In x (upto n).
Proof.
  intros n x H. unfold upto. replace x with (Z.of_nat (Z.to_nat x)) by lia.
  apply in_map, in_seq. lia.
Qed.

Lemma all_reads_back_4 : forallb reads_back_4 (upto 10000) = true.
Proof. vm_compute. reflexivity. Qed.

Lemma all_reads_back_2 : forallb reads_back_2 (upto 100) = true.
Proof. vm_compute. reflexivity. Qed.

Lemma all_prints_back_4 :
  forallb (fun a => forallb (fun b => forallb (fun c => forallb (fun d =>
    prints_back_4 a b c d) ascii_digits) ascii_digits) ascii_digits) ascii_digits
  = true.
Proof. vm_compute. reflexivity. Qed.

Lemma all_prints_back_2 :
  forallb (fun a => forallb (fun b => prints_back_2 a b) ascii_digits) ascii_digits
  = true.
Proof. vm_compute. reflexivity. Qed.

Lemma zero_padded_4 : forall y,
  0 <= y <= 9999 ->
  exists a b c d,
    Py.zero_padded 4 y = [a; b; c; d]
    /\ forallb is_ascii [a; b; c; d] = true
    /\ four_digits a b c d = Some y.
Proof.
  intros y H. pose proof all_reads_back_4 as A. rewrite forallb_forall in A.
  specialize (A y (in_upto 10000 y ltac:(lia))). unfold reads_back_4 in A.
  destruct (Py.zero_padded 4 y) as [|a [|b [|c [|d [|e s]]]]]; try discriminate.
  apply andb_true_iff in A as [A1 A2].
  destruct (four_digits a b c d) as [v|] eqn:V; [|discriminate A2].
  apply Z.eqb_eq in A2. subst v. exists a, b, c, d. auto.
Qed.

Lemma zero_padded_2 : forall n,
  0 <= n <= 99 ->
  exists a b,
    Py.zero_padded 2 n = [a; b]
    /\ forallb is_ascii [a; b] = true
    /\ two_digits a b = Some n.
Proof.
  intros n H. pose proof all_reads_back_2 as A. rewrite forallb_forall in A.
  specialize (A n (in_upto 100 n ltac:(lia))). unfold reads_back_2 in A.
  destruct (Py.zero_padded 2 n) as [|a [|b [|c s]]]; try discriminate.
  apply andb_true_iff in A as [A1 A2].
  destruct (two_digits a b) as [v|] eqn:V; [|discriminate A2].
  apply Z.eqb_eq in A2. subst v. exists a, b. auto.
Qed.

Lemma two_digits_ascii : forall a b n,
  two_digits a b = Some n -> is_ascii a = true -> is_ascii b = true ->
  Py.zero_padded 2 n = [a; b].
Proof.
  intros a b n H Ha Hb.
  destruct (two_digits_inv a b n H) as (x & y & Dx & Dy & _).
  apply N.ltb_lt in Ha, Hb.
  destruct (ascii_decimal a x Dx Ha) as [Ia _].
  destruct (ascii_decimal b y Dy Hb) as [Ib _].
  pose proof all_prints_back_2 as A. rewrite forallb_forall in A.
  specialize (A a Ia). rewrite forallb_forall in A. specialize (A b Ib).
  unfold prints_back_2 in A. rewrite H in A. now apply str_eqb_eq.
Qed.

Lemma four_digits_ascii : forall a b c d y,
  four_digits a b c d = Some y ->
  forallb is_ascii [a; b; c; d] = true ->
  Py.zero_padded 4 y = [a; b; c; d].
Proof.
  intros a b c d y H Hasc.
  destruct (four_digits_inv a b c d y H) as (x & x' & z & t & Da & Db & Dc & Dd & _).
  cbn [forallb] in Hasc.
  repeat (apply andb_true_iff in Hasc as [? Hasc]).
  repeat match goal with H : is_ascii _ = true |- _ => apply N.ltb_lt in H end.
  destruct (ascii_decimal a _ Da ltac:(assumption)) as [Ia _].
  destruct (ascii_decimal b _ Db ltac:(assumption)) as [Ib _].
  destruct (ascii_decimal c _ Dc ltac:(assumption)) as [Ic _].
  destruct (ascii_decimal d _ Dd ltac:(assumption)) as [Id _].
  pose proof all_prints_back_4 as A. rewrite forallb_forall in A.
  specialize (A a Ia). rewrite forallb_forall in A.
  specialize (A b Ib). rewrite forallb_forall in A.
  specialize (A c Ic). rewrite forallb_forall in A.
  specialize (A d Id).
  unfold prints_back_4 in A. rewrite H in A. now apply str_eqb_eq.
Qed.

Lemma new_date_inv : forall y m d candidate,
  Py.new_date y m d = Some candidate ->
  candidate = Py.mk_date y m d
  /\ 1 <= y <= 9999 /\ 1 <= m <= 12 /\ 1 <= d <= Py.days_in_month y m.
Proof.
  intros y m d candidate H. unfold Py.new_date in H.
  destruct ((1 <=? y) && _ && _ && _ && _ && _) eqn:E; [|discriminate].
  repeat (apply andb_true_iff in E as [E ?]).
  repeat match goal with H : (_ <=? _) = true |- _ => apply Z.leb_le in H end.
  split; [congruence|]. lia.
Qed.

Lemma days_in_month_le : forall y m, Py.days_in_month y m <= 31.
Proof.
  intros y m. unfold Py.days_in_month.
  destruct ((m =? 2) && Py.is_leap y); [lia|].
  destruct (Z.to_nat m) as [|[|[|[|[|[|[|[|[|[|[|[|[|[|n]]]]]]]]]]]]]];
    cbn; lia.
Qed.

(** The ISO text of a date is ASCII, matches the pattern, and denotes
    the date. *)
Lemma isoformat_text : forall y m d candidate,
  Py.new_date y m d = Some candidate ->
  date_text (Py.isoformat candidate) y m d
  /\ forallb is_ascii (Py.isoformat candidate) = true.
Proof.
  intros y m d candidate H.
  destruct (new_date_inv y m d candidate H) as (-> & Hy & Hm & Hd).
  pose proof (days_in_month_le y m) as Hle.
  destruct (zero_padded_4 y ltac:(lia)) as (a & b & c & e & E4 & A4 & V4).
  destruct (zero_padded_2 m ltac:(lia)) as (f & g & Em & Am & Vm).
  destruct (zero_padded_2 d ltac:(lia)) as (h & i & Ed & Ad & Vd).
  unfold Py.isoformat. cbn [Py.year Py.month Py.day].
  rewrite E4, Em, Ed. cbn [app]. split.
  - now exists a, b, c, e, f, g, h, i.
  - cbn [forallb] in *.
    repeat match goal with
           | H : _ && _ = true |- _ => apply andb_true_iff in H as [? ?]
           end.
    repeat match goal with H : is_ascii _ = true |- _ => rewrite H; clear H end.
    reflexivity.
Qed.

(** An ASCII text of the accepted shape is the ISO text of its date. *)
Lemma isoformat_of_ascii_text : forall s y m d candidate,
  date_text s y m d ->
  forallb is_ascii s = true ->
  Py.new_date y m d = Some candidate ->
  Py.isoformat candidate = s.
Proof.
  intros s y m d candidate Ht Hasc H.
  destruct (new_date_inv y m d candidate H) as (-> & _).
  destruct Ht as (a & b & c & e & f & g & h & i & -> & Hy & Hm & Hd).
  cbn [forallb] in Hasc.
  repeat (apply andb_true_iff in Hasc as [? Hasc]).
  unfold Py.isoformat. cbn [Py.year Py.month Py.day].
  rewrite (four_digits_ascii a b c e y Hy), (two_digits_ascii f g m Hm),
    (two_digits_ascii h i d Hd); try assumption; [reflexivity|].
  cbn [forallb].
  repeat match goal with H : is_ascii _ = true |- _ => rewrite H; clear H end.
  reflexivity.
Qed.

(** What [_validate_and_normalize_date] accepts, and what it returns. *)
Lemma validate_date_accepts : forall s r,
  CCT211._validate_and_normalize_date s = inr r
  <-> exists y m d candidate,
        date_text s y m d
        /\ Py.new_date y m d = Some candidate
        /\ Py.date_ltb candidate CCT211._MIN_BOOKING_DATE = false
        /\ r = Py.isoformat candidate.
Proof.
  intros s r. split.
  - intro H. destruct (Py.fullmatch CCT211.date_pattern s) eqn:F.
    + apply fullmatch_date_iff in F as (y & m & d & Ht).
      rewrite (validate_date_text s y m d Ht) in H.
      destruct (Py.new_date y m d) as [candidate|] eqn:N; [|discriminate].
      destruct (Py.date_ltb candidate CCT211._MIN_BOOKING_DATE) eqn:L; [discriminate|].
      exists y, m, d, candidate. repeat split; try assumption. congruence.
    + rewrite (validate_date_format s F) in H. discriminate.
  - intros (y & m & d & candidate & Ht & N & L & ->).
    now rewrite (validate_date_text s y m d Ht), N, L.
Qed.

Lemma validate_date_idempotent : forall s r,
  CCT211._validate_and_normalize_date s = inr r ->
  CCT211._validate_and_normalize_date r = inr r.
Proof.
  intros s r H.
  apply validate_date_accepts in H as (y & m & d & candidate & _ & N & L & ->).
  apply validate_date_accepts. exists y, m, d, candidate.
  repeat split; try assumption. now apply isoformat_text.
Qed.

(** C5, as amended.  [_validate_and_normalize_date] raises the format
    error unless the string is four digits, a hyphen, two digits, a hyphen
    and two digits; the invalid-date error when year, month and day are no
    calendar date; the too-early error when the date is before
    2025-09-02; and otherwise returns the ISO text of the date.  That text
    is the given string whenever the string is written with ASCII digits,
    and validating the returned text returns it again.  "2025-9-2",
    "2025-13-01" and "2025-09-01" are refused, "2025-09-02" is returned
    as it is. *)
Theorem validate_date_grammar_calendar_minimum :
  (forall s,
     (~ exists y m d, date_text s y m d) ->
     CCT211._validate_and_normalize_date s = inl DateFormat)
  /\ (forall s y m d,
        date_text s y m d ->
        Py.new_date y m d = None ->
        CCT211._validate_and_normalize_date s = inl InvalidDateValue)
  /\ (forall s y m d candidate,
        date_text s y m d ->
        Py.new_date y m d = Some candidate ->
        Py.date_ltb candidate (Py.mk_date 2025 9 2) = true ->
        CCT211._validate_and_normalize_date s = inl DateTooEarly)
  /\ (forall s y m d candidate,
        date_text s y m d ->
        Py.new_date y m d = Some candidate ->
        Py.date_ltb candidate (Py.mk_date 2025 9 2) = false ->
        CCT211._validate_and_normalize_date s = inr (Py.isoformat candidate))
  /\ (forall s r,
        CCT211._validate_and_normalize_date s = inr r ->
        forallb is_ascii s = true ->
        r = s)
  /\ (forall s r,
        CCT211._validate_and_normalize_date s = inr r ->
        CCT211._validate_and_normalize_date r = inr r)
  /\ CCT211._validate_and_normalize_date (Py.lit "2025-9-2") = inl DateFormat
  /\ CCT211._validate_and_normalize_date (Py.lit "2025-13-01") = inl InvalidDateValue
  /\ CCT211._validate_and_normalize_date (Py.lit "2025-09-01") = inl DateTooEarly
  /\ CCT211._validate_and_normalize_date (Py.lit "2025-09-02") = inr (Py.lit "2025-09-02").
Proof.
  split.
  { intros s H. apply validate_date_format.
    destruct (Py.fullmatch CCT211.date_pattern s) eqn:F; [|reflexivity].
    exfalso. apply H. now apply fullmatch_date_iff. }
  split.
  { intros s y m d Ht N. now rewrite (validate_date_text s y m d Ht), N. }
  split.
  { intros s y m d candidate Ht N L.
    rewrite (validate_date_text s y m d Ht), N.
    unfold CCT211._MIN_BOOKING_DATE. now rewrite L. }
  split.
  { intros s y m d candidate Ht N L.
    rewrite (validate_date_text s y m d Ht), N.
    unfold CCT211._MIN_BOOKING_DATE. now rewrite L. }
  split.
  { intros s r H Hasc.
    apply validate_date_accepts in H as (y & m & d & candidate & Ht & N & _ & ->).
    now apply (isoformat_of_ascii_text s y m d). }
  split; [exact validate_date_idempotent|].
  repeat split; vm_compute; reflexivity.
Qed.

Lemma validate_date_grammar_calendar_minimum_witness :
  CCT211._validate_and_normalize_date (Py.lit "2026-02-29") = inl InvalidDateValue
  /\ CCT211._validate_and_normalize_date Samples.arabic_indic_date
     = inr (Py.lit "2025-09-02")
  /\ CCT211._validate_and_normalize_date (Py.lit "2025-09-02")
     = inr (Py.lit "2025-09-02").
Proof.
  assert (T : date_text Samples.arabic_indic_date 2025 9 2).
  { exists 1634%N, 1632%N, 1634%N, 1637%N, 1632%N, 1641%N, 1632%N, 1634%N.
    repeat split. }
  split; [|split].
  - apply (proj1 (proj2 validate_date_grammar_calendar_minimum)
             (Py.lit "2026-02-29") 2026 2 29); [|reflexivity].
    exists 50%N, 48%N, 50%N, 54%N, 48%N, 50%N, 50%N, 57%N. repeat split.
  - apply (proj1 (proj2 (proj2 (proj2 validate_date_grammar_calendar_minimum)))
             Samples.arabic_indic_date 2025 9 2 (Py.mk_date 2025 9 2) T);
      reflexivity.
  - apply (proj1 (proj2 (proj2 (proj2 (proj2 (proj2
             validate_date_grammar_calendar_minimum)))))
             Samples.arabic_indic_date (Py.lit "2025-09-02")).
    vm_compute. reflexivity.
Defined.

(** C5 as stated fails on its last part: a date typed with Arabic-Indic
    digits is matched by [\d], read by [int()] and accepted, and what
    comes back is the ISO text in ASCII digits, not the string given. *)
Lemma accepted_date_is_normalized :
  ~ (forall s r, CCT211._validate_and_normalize_date s = inr r -> r = s).
Proof.
  intro H.
  specialize (H Samples.arabic_indic_date (Py.lit "2025-09-02")).
  discriminate H. vm_compute. reflexivity.
Qed.

(** * The constructor *)

Lemma time_geb_minutes : forall h m h' m',
  0 <= m <= 59 -> 0 <= m' <= 59 ->
  Py.time_geb (Py.mk_time h m) (Py.mk_time h' m') = (h' * 60 + m' <=? h * 60 + m).
Proof.
  intros h m h' m' Hm Hm'. unfold Py.time_geb. cbn [Py.hour Py.minute].
  destruct (Z.ltb_spec h' h), (Z.eqb_spec h h'), (Z.leb_spec m' m),
    (Z.leb_spec (h' * 60 + m') (h * 60 + m)); cbn [orb andb];
    try reflexivity; lia.
Qed.

(** The constructor, step by step: the first validator that raises
    decides; past the three of them the clock values are compared. *)
Lemma AmenityBooking_init_eq :
  forall booking_id unit_ facility_type date_str start_time end_time status created_by,
  CCT211.AmenityBooking_init booking_id unit_ facility_type date_str
    start_time end_time status created_by
  = match CCT211._validate_and_normalize_date date_str with
    | inl e => inl e
    | inr date =>
        match CCT211._validate_time start_time "start_time" with
        | inl e => inl e
        | inr _ =>
            match CCT211._validate_time end_time "end_time" with
            | inl e => inl e
            | inr _ =>
                if parse_time_to_minutes end_time <=? parse_time_to_minutes start_time
                then inl StartNotEarlier
                else inr (mk_AmenityBooking booking_id unit_ facility_type date
                            start_time end_time status created_by)
            end
        end
    end.
Proof.
  intros. unfold CCT211.AmenityBooking_init.
  destruct (CCT211._validate_and_normalize_date date_str) as [e|date]; [reflexivity|].
  destruct (CCT211._validate_time start_time "start_time") as [e|s'] eqn:Hs;
    [reflexivity|].
  destruct (CCT211._validate_time end_time "end_time") as [e|e'] eqn:He;
    [reflexivity|].
  apply validate_time_accepts in Hs as (-> & h & m & Vs).
  apply validate_time_accepts in He as (-> & h' & m' & Ve).
  destruct (valid_time_hour_minute _ _ _ Vs) as [-> Ds].
  destruct (valid_time_hour_minute _ _ _ Ve) as [-> De].
  rewrite Ds, De.
  rewrite (valid_time_minutes _ _ _ Vs), (valid_time_minutes _ _ _ Ve).
  destruct Vs as (? & ? & ? & ? & _ & _ & _ & _ & Hm).
  destruct Ve as (? & ? & ? & ? & _ & _ & _ & _ & Hm').
  now rewrite (time_geb_minutes h m h' m' Hm Hm').
Qed.

Ltac destruct_matches H :=
  repeat match type of H with
         | context [match ?x with _ => _ end] =>
             lazymatch x with
             | context [match _ with _ => _ end] => fail
             | _ => destruct x
             end
         end.

Lemma validate_date_not_ordering : forall s,
  CCT211._validate_and_normalize_date s <> inl StartNotEarlier.
Proof.
  intros s H. unfold CCT211._validate_and_normalize_date, int_or_raise in H.
  destruct_matches H; discriminate H.
Qed.

Lemma validate_time_not_ordering : forall s field,
  CCT211._validate_time s field <> inl StartNotEarlier.
Proof.
  intros s field H. unfold CCT211._validate_time, int_or_raise in H.
  destruct_matches H; discriminate H.
Qed.

(** C7, as amended, for [CCT211.py].  The constructor runs the date
    validator, then the time validator on the start and on the end, and
    the first error is the error of the constructor; with the three
    accepted it raises the ordering error exactly when the start is not
    before the end; and it returns an object only when all of that passed,
    so that the date and the times of every constructed booking are
    accepted by the validators again and its start is before its end. *)
Theorem constructor_validates :
  forall booking_id unit_ facility_type date_str start_time end_time status created_by,
    let init :=
      CCT211.AmenityBooking_init booking_id unit_ facility_type date_str
        start_time end_time status created_by in
    (forall e, CCT211._validate_and_normalize_date date_str = inl e -> init = inl e)
    /\ (forall d e,
          CCT211._validate_and_normalize_date date_str = inr d ->
          CCT211._validate_time start_time "start_time" = inl e ->
          init = inl e)
    /\ (forall d s e,
          CCT211._validate_and_normalize_date date_str = inr d ->
          CCT211._validate_time start_time "start_time" = inr s ->
          CCT211._validate_time end_time "end_time" = inl e ->
          init = inl e)
    /\ (init = inl StartNotEarlier
        <-> (exists d, CCT211._validate_and_normalize_date date_str = inr d)
            /\ CCT211._validate_time start_time "start_time" = inr start_time
            /\ CCT211._validate_time end_time "end_time" = inr end_time
            /\ parse_time_to_minutes end_time <= parse_time_to_minutes start_time)
    /\ (forall b,
          init = inr b
          <-> exists d,
                CCT211._validate_and_normalize_date date_str = inr d
                /\ CCT211._validate_time start_time "start_time" = inr start_time
                /\ CCT211._validate_time end_time "end_time" = inr end_time
                /\ parse_time_to_minutes start_time < parse_time_to_minutes end_time
                /\ b = mk_AmenityBooking booking_id unit_ facility_type d
                         start_time end_time status created_by)
    /\ (forall b,
          init = inr b ->
          CCT211._validate_and_normalize_date (b_date b) = inr (b_date b)
          /\ CCT211._validate_time (b_start_time b) "start_time" = inr (b_start_time b)
          /\ CCT211._validate_time (b_end_time b) "end_time" = inr (b_end_time b)
          /\ 0 <= parse_time_to_minutes (b_start_time b)
             < parse_time_to_minutes (b_end_time b)).
Proof.
  intros. subst init. rewrite AmenityBooking_init_eq.
  pose proof (validate_date_not_ordering date_str) as ND.
  pose proof (validate_time_not_ordering start_time "start_time") as NS.
  pose proof (validate_time_not_ordering end_time "end_time") as NE.
  pose proof (validate_date_idempotent date_str) as ID.
  destruct (CCT211._validate_and_normalize_date date_str) as [e1|d].
  { repeat split; try discriminate; try congruence.
    - now intros ((d & H) & _).
    - now intros (d & H & _). }
  destruct (CCT211._validate_time start_time "start_time") as [e2|s] eqn:Hs.
  { repeat split; try discriminate; try congruence.
    - now intros (_ & H & _).
    - now intros (d' & _ & H & _). }
  destruct (CCT211._validate_time end_time "end_time") as [e3|e] eqn:He.
  { repeat split; try discriminate; try congruence.
    - now intros (_ & _ & H & _).
    - now intros (d' & _ & _ & H & _). }
  pose proof Hs as Hs'. pose proof He as He'.
  apply validate_time_accepts in Hs' as (-> & h & m & Vs).
  apply validate_time_accepts in He' as (-> & h' & m' & Ve).
  assert (Hpos : 0 <= parse_time_to_minutes start_time).
  { rewrite (valid_time_minutes _ _ _ Vs).
    destruct Vs as (? & ? & ? & ? & _ & _ & _ & ? & ?). lia. }
  destruct (Z.leb_spec (parse_time_to_minutes end_time)
              (parse_time_to_minutes start_time)) as [Hle|Hlt].
  - repeat split; try discriminate; try congruence; try assumption.
    + now exists d.
    + intros (d' & _ & _ & _ & Hlt & _). lia.
  - repeat split; try discriminate; try congruence; try assumption.
    + intros (_ & _ & _ & Hle). lia.
    + intro H. exists d. injection H as <-. repeat split; assumption.
    + intros (d' & Hd & _ & _ & _ & ->). congruence.
    + injection H as <-. cbn [b_date]. now apply ID.
    + injection H as <-. exact Hs.
    + injection H as <-. exact He.
    + injection H as <-. exact Hpos.
    + injection H as <-. exact Hlt.
Qed.

Lemma constructor_validates_witness :
  CCT211.AmenityBooking_init 1 (Py.lit "101") (Py.lit "Meeting Room")
    (Py.lit "2025-09-10") (Py.lit "11:00") (Py.lit "10:00") Booked (Py.lit "amy")
  = inl StartNotEarlier
  /\ CCT211.AmenityBooking_init 1 (Py.lit "101") (Py.lit "Meeting Room")
       (Py.lit "2025-09-10") (Py.lit "10:00") (Py.lit "11:00") Booked (Py.lit "amy")
     = inr (Samples.meeting 1 "10:00" "11:00" Booked).
Proof.
  split.
  - apply (proj1 (proj2 (proj2 (proj2
             (constructor_validates 1 (Py.lit "101") (Py.lit "Meeting Room")
                (Py.lit "2025-09-10") (Py.lit "11:00") (Py.lit "10:00")
                Booked (Py.lit "amy")))))).
    split; [exists (Py.lit "2025-09-10")|repeat split];
      vm_compute; solve [reflexivity | discriminate].
  - apply (proj1 (proj2 (proj2 (proj2 (proj2
             (constructor_validates 1 (Py.lit "101") (Py.lit "Meeting Room")
                (Py.lit "2025-09-10") (Py.lit "10:00") (Py.lit "11:00")
                Booked (Py.lit "amy"))))))).
    exists (Py.lit "2025-09-10").
    repeat split; vm_compute; reflexivity.
Defined.

(** C7 as stated fails for [CCT211_Project2.py], whose constructor only
    stores its arguments: it builds a booking from a date that is no date
    and from times that are no times. *)
Lemma json_constructor_does_not_validate :
  ~ (forall booking_id unit_ facility_type date_str start_time end_time status created_by,
       let b := CCT211_Project2.AmenityBooking_init booking_id unit_ facility_type
                  date_str start_time end_time status created_by in
       (exists r, CCT211._validate_and_normalize_date (b_date b) = inr r)
       /\ (exists r, CCT211._validate_time (b_start_time b) "start_time" = inr r)
       /\ (exists r, CCT211._validate_time (b_end_time b) "end_time" = inr r)
       /\ parse_time_to_minutes (b_start_time b) < parse_time_to_minutes (b_end_time b)).
Proof.
  intro H.
  destruct (H 1 (Py.lit "101") (Py.lit "Meeting Room") (Py.lit "2025-13-45")
              (Py.lit "25:00") (Py.lit "9:00") Booked (Py.lit "amy"))
    as ((r & Hd) & _).
  vm_compute in Hd. discriminate Hd.
Qed.

Example json_constructor_on_invalid_fields :
  let b := CCT211_Project2.AmenityBooking_init 1 (Py.lit "101") (Py.lit "Meeting Room")
             (Py.lit "2025-13-45") (Py.lit "25:00") (Py.lit "9:00") Booked
             (Py.lit "amy") in
  CCT211._validate_and_normalize_date (b_date b) = inl InvalidDateValue
  /\ CCT211._validate_time (b_start_time b) "start_time" = inl (HourRange "start_time")
  /\ CCT211._validate_time (b_end_time b) "end_time" = inl (TimeFormat "end_time")
  /\ parse_time_to_minutes (b_end_time b) <= parse_time_to_minutes (b_start_time b).
Proof. vm_compute. repeat split; discriminate. Qed.

(** * Further properties of the booking window *)

Lemma overlaps_sym : forall a b, overlaps a b -> overlaps b a.
Proof. intros a b [H1 H2]. split; assumption. Qed.

Lemma collide_sym : forall a b, collide a b -> collide b a.
Proof.
  intros a b (Hid & Hf & Hd & Ho). repeat split; try congruence.
  - apply Ho.
  - apply Ho.
Qed.

Lemma collide_set_status_l : forall s a b, collide (set_status s a) b <-> collide a b.
Proof. intros. unfold collide, overlaps. destruct a; reflexivity. Qed.

Lemma collide_set_status_r : forall s a b, collide a (set_status s b) <-> collide a b.
Proof. intros. unfold collide, overlaps. destruct b; reflexivity. Qed.

Lemma no_conflict_no_collision : forall w c,
  0 <= parse_time_to_minutes (b_start_time c) ->
  0 <= parse_time_to_minutes (b_end_time c) ->
  has_conflict w c = false ->
  forall b, In b (bookings w) -> ~ collide b c.
Proof.
  intros w c Hs He Hno b Hin (Hid & Hf & Hd & Ho).
  assert (H : has_conflict w c = true).
  { apply has_conflict_true_iff; [assumption..|]. exists b. repeat split; auto; apply Ho. }
  congruence.
Qed.

Lemma in_replace_by_id : forall c bs x,
  In x (replace_by_id c bs) -> x = c \/ In x bs.
Proof.
  induction bs as [|b rest IH]; intros x H; [destruct H|].
  cbn [replace_by_id] in H. destruct (b_id b =? b_id c).
  - destruct H as [<-|H]; [now left|right; now right].
  - destruct H as [<-|H]; [right; now left|].
    destruct (IH x H) as [->|H']; [now left|right; now right].
Qed.

Lemma in_update_nth : forall f bs i x,
  In x (update_nth i f bs) -> In x bs \/ exists y, In y bs /\ x = f y.
Proof.
  induction bs as [|b rest IH]; intros [|i] x H; try destruct H.
  - subst. right. exists b. split; [now left|reflexivity].
  - left. now right.
  - subst. left. now left.
  - destruct (IH i x H) as [H'|(y & Hy & ->)]; [left; now right|].
    right. exists y. split; [now right|reflexivity].
Qed.

Lemma conflict_free_added : forall w c bs,
  conflict_free (bookings w) ->
  0 <= parse_time_to_minutes (b_start_time c) ->
  0 <= parse_time_to_minutes (b_end_time c) ->
  has_conflict w c = false ->
  (forall x, In x bs -> x = c \/ In x (bookings w)) ->
  conflict_free bs.
Proof.
  intros w c bs Hfree Hs He Hno Hsub a b Ha Hb Hcol.
  pose proof (no_conflict_no_collision w c Hs He Hno) as Hc.
  destruct (Hsub a Ha) as [->|Ha'], (Hsub b Hb) as [->|Hb'].
  - destruct Hcol as [Hid _]. now apply Hid.
  - apply (Hc b Hb'). now apply collide_sym.
  - now apply (Hc a Ha').
  - now apply (Hfree a b).
Qed.

(** What the constructor of [CCT211.py] guarantees of the object it
    returns. *)
Lemma AmenityBooking_init_inr :
  forall i u f d s e st cb b,
    CCT211.AmenityBooking_init i u f d s e st cb = inr b ->
    exists d',
      CCT211._validate_and_normalize_date d = inr d'
      /\ CCT211._validate_time s "start_time" = inr s
      /\ CCT211._validate_time e "end_time" = inr e
      /\ 0 <= parse_time_to_minutes s < parse_time_to_minutes e
      /\ b = mk_AmenityBooking i u f d' s e st cb.
Proof.
  intros i u f d s e st cb b H. rewrite AmenityBooking_init_eq in H.
  destruct (CCT211._validate_and_normalize_date d) as [?|d']; [discriminate|].
  destruct (CCT211._validate_time s "start_time") as [?|s'] eqn:Hs; [discriminate|].
  destruct (CCT211._validate_time e "end_time") as [?|e'] eqn:He; [discriminate|].
  destruct (Z.leb_spec (parse_time_to_minutes e) (parse_time_to_minutes s));
    [discriminate|].
  injection H as <-. exists d'.
  pose proof Hs as Hs'. apply validate_time_accepts in Hs' as (-> & h & m & V).
  pose proof He as He'. apply validate_time_accepts in He' as (-> & _).
  repeat split; try assumption.
  rewrite (valid_time_minutes _ _ _ V).
  destruct V as (? & ? & ? & ? & _ & _ & _ & ? & ?). lia.
Qed.

Lemma BookingForm_save_eq : forall f w,
  CCT211.BookingForm_save f w
  = if CCT211.is_empty (Py.strip (CCT211.unit_entry f))
       || CCT211.is_empty (Py.strip (CCT211.fac_var f))
       || CCT211.is_empty (Py.strip (CCT211.date_entry f))
       || CCT211.is_empty (Py.strip (CCT211.start_entry f))
       || CCT211.is_empty (Py.strip (CCT211.end_entry f))
    then (inr false, w, [showerror "Error"])
    else if (parse_time_to_minutes (Py.strip (CCT211.start_entry f)) <? 0)
            || (parse_time_to_minutes (Py.strip (CCT211.end_entry f)) <? 0)
            || (parse_time_to_minutes (Py.strip (CCT211.end_entry f))
                <=? parse_time_to_minutes (Py.strip (CCT211.start_entry f)))
    then (inr false, w, [showerror "Invalid Time"])
    else
      match form_constructs f w with
      | inl _ => (inr false, w, [showerror "Invalid Booking"])
      | inr b =>
          if has_conflict w b then (inr false, w, [showerror "Conflict"])
          else
            let bs := if form_is_new f then bookings w ++ [b]
                      else replace_by_id b (bookings w) in
            (inr true, written bs w,
             persisted bs w
               ++ (if is_admin (user w) then [showinfo "Resident notified"] else [])
               ++ [BookingForm_destroyed])
      end.
Proof.
  intros f w. unfold CCT211.BookingForm_save, form_constructs, form_booking_id,
    form_creator, form_is_new.
  destruct (CCT211.is_empty _ || _ || _ || _ || _); [reflexivity|].
  destruct ((_ <? 0) || _ || _); [reflexivity|].
  run.
  destruct (CCT211.AmenityBooking_init _ _ _ _ _ _ _ _) as [e|b]; [reflexivity|].
  rewrite on_booking_saved_eq.
  destruct (has_conflict w b); [reflexivity|].
  cbv zeta. cbn [app]. now rewrite <- app_assoc.
Qed.

Lemma edit_booking_eq : forall idx w,
  edit_booking idx w
  = match idx with
    | [] => (inr None, w, [showwarning "Select"])
    | i :: _ =>
        match nth_error (bookings w) i with
        | None => (inl IndexError, w, [])
        | Some b =>
            if negb (_can_modify w (Some b)) then (inr None, w, [showerror "Permission"])
            else (inr (Some b), w, [BookingForm_opened (Some b)])
        end
    end.
Proof.
  intros idx w. unfold edit_booking. run.
  destruct idx as [|i idx']; [reflexivity|].
  destruct (nth_error (bookings w) i) as [b|]; [|reflexivity]. run.
  destruct (negb (_can_modify w (Some b))); reflexivity.
Qed.

(** X1.  The window keeps its bookings free of collisions: when no two
    bookings with different ids, the same facility and the same date
    overlap, none do after any operation: saving a booking whose times
    convert to non-negative minutes (new or edited), a save of the
    booking form, a cancellation, a deletion. *)
Theorem bookings_stay_conflict_free : forall w,
  conflict_free (bookings w) ->
  (forall c is_new,
     0 <= parse_time_to_minutes (b_start_time c) ->
     0 <= parse_time_to_minutes (b_end_time c) ->
     conflict_free (bookings (window_after (on_booking_saved c is_new w))))
  /\ (forall f, conflict_free (bookings (window_after (CCT211.BookingForm_save f w))))
  /\ (forall idx answer,
        conflict_free (bookings (window_after (cancel_booking idx answer w))))
  /\ (forall allowed idx answer,
        conflict_free
          (bookings (window_after (delete_booking_with allowed idx answer w)))).
Proof.
  intros w Hfree.
  assert (Hsaved : forall c is_new,
            0 <= parse_time_to_minutes (b_start_time c) ->
            0 <= parse_time_to_minutes (b_end_time c) ->
            conflict_free (bookings (window_after (on_booking_saved c is_new w)))).
  { intros c is_new Hs He. rewrite on_booking_saved_eq.
    destruct (has_conflict w c) eqn:Hno; [exact Hfree|].
    cbn. apply (conflict_free_added w c); try assumption.
    intros x Hx. destruct is_new.
    - apply in_app_or in Hx as [Hx|[<-|[]]]; [now right|now left].
    - now apply in_replace_by_id. }
  split; [exact Hsaved|]. split; [|split].
  - intro f. destruct (BookingForm_save_cases f w) as [(t & Heq & _)|(b & Hinit & Heq)].
    + rewrite Heq. exact Hfree.
    + cbv zeta in Heq. rewrite Heq.
      apply AmenityBooking_init_inr in Hinit as (d' & _ & _ & _ & Hlt & Hb).
      assert (Hs : 0 <= parse_time_to_minutes (b_start_time b)) by (subst b; cbn; lia).
      assert (He : 0 <= parse_time_to_minutes (b_end_time b)) by (subst b; cbn; lia).
      specialize (Hsaved b (match CCT211.booking f with None => true | Some _ => false end)
                    Hs He).
      destruct (on_booking_saved b _ w) as [[r w'] ev]. exact Hsaved.
  - intros idx answer. rewrite cancel_booking_eq.
    destruct idx as [|i idx']; [exact Hfree|].
    destruct (nth_error (bookings w) i) as [b|]; [|exact Hfree].
    destruct (negb (_can_modify w (Some b))); [exact Hfree|].
    destruct (Py.str_eqb (b_status b) Cancelled); [exact Hfree|].
    destruct answer; [|exact Hfree].
    cbn. intros x y Hx Hy Hcol.
    apply in_update_nth in Hx as [Hx|(x' & Hx & ->)];
      apply in_update_nth in Hy as [Hy|(y' & Hy & ->)].
    + now apply (Hfree x y).
    + apply (Hfree x y' Hx Hy). now apply (collide_set_status_r Cancelled).
    + apply (Hfree x' y Hx Hy). now apply (collide_set_status_l Cancelled).
    + apply (Hfree x' y' Hx Hy).
      apply (collide_set_status_r Cancelled), (collide_set_status_l Cancelled).
      exact Hcol.
  - intros allowed idx answer. rewrite delete_booking_with_eq.
    destruct idx as [|i idx']; [exact Hfree|].
    destruct (nth_error (bookings w) i) as [b|]; [|exact Hfree].
    destruct (negb (allowed w b)); [exact Hfree|].
    destruct answer; [|exact Hfree].
    cbn. intros x y Hx Hy. apply in_without_id in Hx as [Hx _].
    apply in_without_id in Hy as [Hy _]. now apply Hfree.
Qed.

Lemma bookings_stay_conflict_free_witness :
  let w := Samples.window [Samples.meeting 1 "10:00" "11:00" Booked] in
  conflict_free (bookings w)
  /\ conflict_free
       (bookings
          (window_after
             (CCT211.BookingForm_save
                (Samples.new_form "102" "2025-09-10" "09:00" "10:00") w))).
Proof.
  intro w.
  assert (H : conflict_free (bookings w)).
  { intros a b [<-|[]] [<-|[]] (Hid & _). now apply Hid. }
  split; [exact H|].
  exact (proj1 (proj2 (bookings_stay_conflict_free w H)) _).
Defined.

(** ** Who may change a booking *)

(** X2.  A resident cannot touch a booking somebody else created:
    [cancel_booking] and [edit_booking] stop at the permission error,
    whatever the answer to the dialog would be, and leave the window as
    it is.  The creator and every admin get the edit form on the
    selected booking. *)
Theorem only_creator_or_admin_modifies : forall w i rest b,
  nth_error (bookings w) i = Some b ->
  (is_admin (user w) = false ->
   b_created_by b <> username (user w) ->
   (forall answer,
      cancel_booking (i :: rest) answer w = (inr tt, w, [showerror "Permission"]))
   /\ edit_booking (i :: rest) w = (inr None, w, [showerror "Permission"]))
  /\ (is_admin (user w) = true \/ b_created_by b = username (user w) ->
      edit_booking (i :: rest) w = (inr (Some b), w, [BookingForm_opened (Some b)])).
Proof.
  intros w i rest b Hnth. split.
  - intros Hadm Hcb.
    assert (Hcan : _can_modify w (Some b) = false).
    { unfold _can_modify. rewrite Hadm.
      destruct (Py.str_eqb (b_created_by b) (username (user w))) eqn:E; [|reflexivity].
      apply str_eqb_eq in E. contradiction. }
    split.
    + intro answer. now rewrite cancel_booking_eq, Hnth, Hcan.
    + now rewrite edit_booking_eq, Hnth, Hcan.
  - intro H.
    assert (Hcan : _can_modify w (Some b) = true).
    { unfold _can_modify. destruct (is_admin (user w)); [reflexivity|].
      destruct H as [H|H]; [discriminate|]. rewrite H. apply str_eqb_refl. }
    now rewrite edit_booking_eq, Hnth, Hcan.
Qed.

Lemma only_creator_or_admin_modifies_witness :
  let b := Samples.meeting 1 "10:00" "11:00" Booked in
  let w := mk_AmenityWindow (mk_DataStore [b])
             (mk_User (Py.lit "bob") (Py.lit "resident") (Py.lit "101")) true [b] in
  cancel_booking [0%nat] true w = (inr tt, w, [showerror "Permission"])
  /\ edit_booking [0%nat] (Samples.window [b])
     = (inr (Some b), Samples.window [b], [BookingForm_opened (Some b)]).
Proof.
  intros b w. split.
  - apply (proj1 (proj1 (only_creator_or_admin_modifies w 0%nat [] b eq_refl)
                    eq_refl ltac:(discriminate))).
  - apply (proj2 (only_creator_or_admin_modifies (Samples.window [b]) 0%nat [] b eq_refl)).
    right. reflexivity.
Defined.

(** ** What a cancellation changes *)

Lemma nth_error_update_nth_same : forall f bs i b,
  nth_error bs i = Some b -> nth_error (update_nth i f bs) i = Some (f b).
Proof.
  induction bs as [|x rest IH]; intros [|i] b H; try discriminate.
  - injection H as <-. reflexivity.
  - cbn in *. now apply IH.
Qed.

Lemma nth_error_update_nth_other : forall f bs i j,
  j <> i -> nth_error (update_nth i f bs) j = nth_error bs j.
Proof.
  induction bs as [|x rest IH]; intros [|i] [|j] H; try reflexivity.
  - contradiction.
  - cbn. apply IH. congruence.
Qed.

Lemma length_update_nth : forall f bs i,
  List.length (update_nth i f bs) = List.length bs.
Proof.
  induction bs as [|x rest IH]; intros [|i]; try reflexivity.
  cbn. f_equal. apply IH.
Qed.

(** X3.  A confirmed cancellation by someone entitled to it changes one
    thing: the status of the selected booking becomes "Cancelled".  Its
    other attributes, every other booking and the length and order of the
    list stay as they were, the result is persisted, and cancelling the
    same booking again only shows the information dialog.  A declined
    confirmation changes nothing.  (The ids of the list are distinct:
    the bookings table of [CCT211.py] has the id as primary key and takes
    no other list.) *)
Theorem cancel_marks_the_selected_booking : forall w i rest b,
  unique_ids w ->
  nth_error (bookings w) i = Some b ->
  _can_modify w (Some b) = true ->
  b_status b <> Cancelled ->
  let r := cancel_booking (i :: rest) true w in
  let w' := window_after r in
  nth_error (bookings w') i = Some (set_status Cancelled b)
  /\ (forall j, j <> i -> nth_error (bookings w') j = nth_error (bookings w) j)
  /\ List.length (bookings w') = List.length (bookings w)
  /\ amenity_bookings (store w') = bookings w'
  /\ (forall answer,
        cancel_booking (i :: rest) answer w' = (inr tt, w', [showinfo "Info"]))
  /\ cancel_booking (i :: rest) false w = (inr tt, w, [askyesno "Confirm"]).
Proof.
  intros w i rest b _ Hnth Hcan Hst r w'. subst r w'.
  assert (Hne : Py.str_eqb (b_status b) Cancelled = false).
  { destruct (Py.str_eqb (b_status b) Cancelled) eqn:E; [|reflexivity].
    apply str_eqb_eq in E. contradiction. }
  rewrite !cancel_booking_eq, Hnth, Hcan, Hne. cbn.
  split; [now apply nth_error_update_nth_same|].
  split; [intros j Hj; now apply nth_error_update_nth_other|].
  split; [apply length_update_nth|].
  split; [reflexivity|].
  split; [|reflexivity].
  intro answer. rewrite cancel_booking_eq. cbn [bookings written].
  rewrite (nth_error_update_nth_same _ _ _ _ Hnth).
  replace (_can_modify _ (Some (set_status Cancelled b))) with true
    by (symmetry; exact Hcan).
  cbn. reflexivity.
Qed.

Lemma cancel_marks_the_selected_booking_witness :
  let a := Samples.meeting 1 "09:00" "10:00" Booked in
  let b := Samples.meeting 2 "10:00" "11:00" Booked in
  map b_status (bookings (window_after (cancel_booking [1%nat] true (Samples.window [a; b]))))
  = [Booked; Cancelled].
Proof.
  intros a b.
  assert (Hu : unique_ids (Samples.window [a; b])).
  { unfold unique_ids. cbn. repeat (constructor; [cbn; intuition discriminate|]).
    constructor. }
  destruct (cancel_marks_the_selected_booking (Samples.window [a; b]) 1%nat [] b
              Hu eq_refl eq_refl ltac:(discriminate)) as (H1 & H2 & H3 & _).
  specialize (H2 0%nat ltac:(discriminate)).
  destruct (bookings (window_after (cancel_booking [1%nat] true (Samples.window [a; b]))))
    as [|x [|y [|z l]]]; try discriminate.
  injection H1 as ->. injection H2 as ->. reflexivity.
Defined.

(** ** Every change goes through the store *)

Lemma store_calls_persisted : forall bs w tail,
  store_calls tail = [] ->
  store_calls (persisted bs w ++ tail) = [store_set_amenity_bookings bs; store_save].
Proof.
  intros bs w tail H. unfold persisted, store_calls in *.
  destruct (on_changed w); cbn; rewrite H; reflexivity.
Qed.






(** ** The booking form *)





(** ** Who may delete *)

(** X6.  The two files give residents different rights to delete.  In
    [CCT211_Project2.py] a resident can delete nothing.  In [CCT211.py] a
    resident is refused for a booking of another unit and can delete any
    booking of the own unit, also one created by somebody else, which
    the same resident may neither edit nor cancel. *)
Theorem resident_delete_rights : forall w i rest b,
  nth_error (bookings w) i = Some b ->
  is_admin (user w) = false ->
  (forall answer,
     CCT211_Project2.delete_booking (i :: rest) answer w
     = (inr tt, w, [showerror "Permission"]))
  /\ (b_unit b <> user_unit (user w) ->
      forall answer,
        CCT211.delete_booking (i :: rest) answer w
        = (inr tt, w, [showerror "Permission"]))
  /\ (b_unit b = user_unit (user w) ->
      bookings (window_after (CCT211.delete_booking (i :: rest) true w))
      = without_id (b_id b) (bookings w)
      /\ (b_created_by b <> username (user w) ->
          cancel_booking (i :: rest) true w = (inr tt, w, [showerror "Permission"]))).
Proof.
  intros w i rest b Hnth Hadm. split; [|split].
  - intro answer. unfold CCT211_Project2.delete_booking.
    rewrite delete_booking_with_eq, Hnth.
    unfold CCT211_Project2.may_delete. now rewrite Hadm.
  - intros Hunit answer. unfold CCT211.delete_booking.
    rewrite delete_booking_with_eq, Hnth.
    unfold CCT211.may_delete. rewrite Hadm. cbn [negb].
    destruct (Py.str_eqb (b_unit b) (user_unit (user w))) eqn:E; [|reflexivity].
    apply str_eqb_eq in E. contradiction.
  - intro Hunit. split.
    + unfold CCT211.delete_booking. rewrite delete_booking_with_eq, Hnth.
      unfold CCT211.may_delete. rewrite Hadm, Hunit, str_eqb_refl. reflexivity.
    + intro Hcb. rewrite cancel_booking_eq, Hnth. unfold _can_modify.
      rewrite Hadm.
      destruct (Py.str_eqb (b_created_by b) (username (user w))) eqn:E; [|reflexivity].
      apply str_eqb_eq in E. contradiction.
Qed.

Lemma resident_delete_rights_witness :
  let b := Samples.meeting 1 "10:00" "11:00" Booked in
  let bob := mk_User (Py.lit "bob") (Py.lit "resident") (Py.lit "101") in
  let w := mk_AmenityWindow (mk_DataStore [b]) bob true [b] in
  bookings (window_after (CCT211.delete_booking [0%nat] true w)) = []
  /\ cancel_booking [0%nat] true w = (inr tt, w, [showerror "Permission"])
  /\ CCT211_Project2.delete_booking [0%nat] true w = (inr tt, w, [showerror "Permission"]).
Proof.
  intros b bob w.
  destruct (resident_delete_rights w 0%nat [] b eq_refl eq_refl) as (H1 & _ & H3).
  destruct (H3 eq_refl) as [H4 H5].
  split; [exact H4|]. split; [|exact (H1 true)].
  apply H5. discriminate.
Defined.

(** ** What an edit replaces *)

Lemma replace_by_id_absent : forall c bs,
  ~ In (b_id c) (ids bs) -> replace_by_id c bs = bs.
Proof.
  induction bs as [|b rest IH]; intro H; [reflexivity|].
  cbn [replace_by_id]. cbn [ids map In] in H.
  destruct (Z.eqb_spec (b_id b) (b_id c)) as [E|_]; [tauto|].
  f_equal. apply IH. tauto.
Qed.

Lemma replace_by_id_at : forall c bs i b,
  nth_error bs i = Some b ->
  b_id b = b_id c ->
  NoDup (ids bs) ->
  replace_by_id c bs = firstn i bs ++ c :: skipn (S i) bs.
Proof.
  induction bs as [|x rest IH]; intros [|i] b Hnth Hid Hnd; try discriminate.
  - injection Hnth as ->. cbn [replace_by_id]. rewrite Hid, Z.eqb_refl. reflexivity.
  - cbn in Hnth. cbn [ids map] in Hnd. inversion Hnd as [|? ? Hx Hrest]; subst.
    cbn [replace_by_id].
    destruct (Z.eqb_spec (b_id x) (b_id c)) as [E|_].
    + exfalso. apply Hx. rewrite E, <- Hid.
      apply nth_error_In in Hnth. now apply in_map.
    + cbn [firstn skipn app]. f_equal. now apply (IH i b).
Qed.

(** X7.  An edit puts the new booking at the position of the booking
    with its id and leaves every other position as it is.  When the
    booking under edit is no longer in the list (it was deleted while its
    form was open), nothing is replaced, yet [on_booking_saved] reports
    success and persists the unchanged list: the edit is lost without a
    message.  (The ids of the list are distinct, as the primary key of
    the bookings table of [CCT211.py] requires of a list it is to take.) *)
Theorem edit_replaces_in_place :
  (forall c w i b,
     nth_error (bookings w) i = Some b ->
     b_id b = b_id c ->
     unique_ids w ->
     has_conflict w c = false ->
     bookings (window_after (on_booking_saved c false w))
     = firstn i (bookings w) ++ c :: skipn (S i) (bookings w))
  /\ (forall c w,
        unique_ids w ->
        ~ In (b_id c) (ids (bookings w)) ->
        has_conflict w c = false ->
        result_of (on_booking_saved c false w) = inr true
        /\ bookings (window_after (on_booking_saved c false w)) = bookings w
        /\ store_calls (trace_of (on_booking_saved c false w))
           = [store_set_amenity_bookings (bookings w); store_save]).
Proof.
  split.
  - intros c w i b Hnth Hid Hu Hno. rewrite on_booking_saved_eq, Hno. cbn.
    now apply (replace_by_id_at c (bookings w) i b).
  - intros c w _ Habs Hno. rewrite on_booking_saved_eq, Hno. cbv zeta.
    rewrite (replace_by_id_absent c (bookings w) Habs). cbn.
    repeat split. apply store_calls_persisted. now destruct (is_admin (user w)).
Qed.

Lemma edit_replaces_in_place_witness :
  let a := Samples.meeting 1 "09:00" "10:00" Booked in
  let b := Samples.meeting 2 "10:00" "11:00" Booked in
  let c := Samples.meeting 2 "11:00" "12:00" Booked in
  let gone := Samples.meeting 7 "13:00" "14:00" Booked in
  bookings (window_after (on_booking_saved c false (Samples.window [a; b]))) = [a; c]
  /\ bookings (window_after (on_booking_saved gone false (Samples.window [a; b]))) = [a; b].
Proof.
  intros a b c gone. split.
  - apply (proj1 edit_replaces_in_place c (Samples.window [a; b]) 1%nat b);
      try reflexivity.
    unfold unique_ids. cbn. repeat constructor; cbn; intuition discriminate.
  - apply (proj2 edit_replaces_in_place gone (Samples.window [a; b])); [| |reflexivity].
    + unfold unique_ids. cbn. repeat constructor; cbn; intuition discriminate.
    + cbn. intuition discriminate.
Defined.

(** ** Bookings and the store *)

Lemma Project2_round_trip : forall b, Project2_from_dict (to_dict b) = Some b.
Proof. intros []. reflexivity. Qed.

Lemma from_dict_args_to_dict : forall b,
  from_dict_args (to_dict b)
  = Some (b_id b, b_unit b, b_facility_type b, b_date b, b_start_time b,
          b_end_time b, b_status b, b_created_by b).
Proof. intros []. reflexivity. Qed.

Lemma constructed_is_reloadable : forall i u f d s e st cb b,
  CCT211.AmenityBooking_init i u f d s e st cb = inr b -> reloadable b.
Proof.
  intros i u f d s e st cb b H.
  apply AmenityBooking_init_inr in H as (d' & Hd & Hs & He & Hlt & ->).
  unfold reloadable, CCT211_from_dict. rewrite from_dict_args_to_dict.
  cbn [b_id b_unit b_facility_type b_date b_start_time b_end_time b_status b_created_by].
  rewrite AmenityBooking_init_eq, (validate_date_idempotent d d' Hd), Hs, He.
  destruct (Z.leb_spec (parse_time_to_minutes e) (parse_time_to_minutes s));
    [lia|reflexivity].
Qed.

Lemma reloadable_set_status : forall s b, reloadable b -> reloadable (set_status s b).
Proof.
  intros s b H. unfold reloadable, CCT211_from_dict in *.
  rewrite from_dict_args_to_dict in *. destruct b. cbn in *.
  rewrite AmenityBooking_init_eq in *.
  destruct (CCT211._validate_and_normalize_date _); [discriminate|].
  destruct (CCT211._validate_time _ "start_time"); [discriminate|].
  destruct (CCT211._validate_time _ "end_time"); [discriminate|].
  destruct (_ <=? _); [discriminate|].
  injection H as ->. reflexivity.
Qed.

(** X8.  A booking survives the trip through its dictionary.  In
    [CCT211_Project2.py] [from_dict(b.to_dict())] is [b] for every
    booking.  In [CCT211.py], where [from_dict] validates, it is [b] for
    every booking the constructor built, and stays so when the status of
    the booking changes.  A dictionary without a date is read with an
    empty date by the first and refused with the format error by the
    second. *)
Theorem booking_dict_round_trip :
  (forall b, Project2_from_dict (to_dict b) = Some b)
  /\ (forall i u f d s e st cb b,
        CCT211.AmenityBooking_init i u f d s e st cb = inr b ->
        CCT211_from_dict (to_dict b) = Some (inr b)
        /\ forall st', CCT211_from_dict (to_dict (set_status st' b))
                       = Some (inr (set_status st' b)))
  /\ (forall data i u f d s e st cb,
        from_dict_args data = Some (i, u, f, d, s, e, st, cb) ->
        (forall v, ~ In ("date"%string, v) data) ->
        d = []
        /\ CCT211_from_dict data = Some (inl DateFormat)
        /\ Project2_from_dict data
           = Some (mk_AmenityBooking i u f [] s e st cb)).
Proof.
  split; [exact Project2_round_trip|]. split.
  - intros i u f d s e st cb b H.
    pose proof (constructed_is_reloadable _ _ _ _ _ _ _ _ _ H) as R.
    split; [exact R|]. intro st'. now apply reloadable_set_status.
  - intros data i u f d s e st cb Hargs Hno.
    assert (Hget : dict_get data "date" (VStr []) = VStr []).
    { clear Hargs. induction data as [|[k v] rest IH]; [reflexivity|].
      cbn [dict_get]. destruct (String.eqb_spec k "date") as [->|_].
      - exfalso. apply (Hno v). now left.
      - apply IH. intros v' Hin. apply (Hno v'). now right. }
    assert (Hd : d = []).
    { unfold from_dict_args in Hargs. rewrite Hget in Hargs.
      repeat match type of Hargs with
             | match ?x with _ => _ end = _ => destruct x; try discriminate
             end.
      now injection Hargs as _ _ _ <- _ _ _ _. }
    subst d. split; [reflexivity|].
    unfold CCT211_from_dict, Project2_from_dict. rewrite Hargs.
    split; reflexivity.
Qed.

Lemma booking_dict_round_trip_witness :
  let b := Samples.meeting 1 "10:00" "11:00" Booked in
  CCT211_from_dict (to_dict b) = Some (inr b)
  /\ CCT211_from_dict [] = Some (inl DateFormat).
Proof.
  intro b. split.
  - apply (proj1 (proj2 booking_dict_round_trip) 1 (Py.lit "101")
             (Py.lit "Meeting Room") (Py.lit "2025-09-10") (Py.lit "10:00")
             (Py.lit "11:00") Booked (Py.lit "amy") b).
    vm_compute. reflexivity.
  - apply (proj2 (proj2 booking_dict_round_trip) [] 0 [] [] [] [] [] Booked []).
    + reflexivity.
    + intros v [].
Defined.

(** X9.  What the window of [CCT211.py] holds can always be loaded
    again: when every booking of the list is rebuilt unchanged by the
    validating constructor, so is every booking of the list after a save
    of the form, a cancellation or a deletion. *)
Theorem window_stays_reloadable : forall w,
  Forall reloadable (bookings w) ->
  (forall f, Forall reloadable (bookings (window_after (CCT211.BookingForm_save f w))))
  /\ (forall idx answer,
        Forall reloadable (bookings (window_after (cancel_booking idx answer w))))
  /\ (forall idx answer,
        Forall reloadable (bookings (window_after (CCT211.delete_booking idx answer w)))).
Proof.
  intros w H. rewrite Forall_forall in H. split; [|split].
  - intro f. rewrite BookingForm_save_eq.
    destruct (_ || _ || _ || _ || _); [now apply Forall_forall|].
    destruct (_ || _ || _); [now apply Forall_forall|].
    destruct (form_constructs f w) as [e|b] eqn:Hc; [now apply Forall_forall|].
    destruct (has_conflict w b); [now apply Forall_forall|].
    cbn. apply Forall_forall. intros x Hx.
    apply constructed_is_reloadable in Hc.
    destruct (form_is_new f).
    + apply in_app_or in Hx as [Hx|[<-|[]]]; [now apply H|exact Hc].
    + apply in_replace_by_id in Hx as [->|Hx]; [exact Hc|now apply H].
  - intros idx answer. rewrite cancel_booking_eq.
    destruct idx as [|i idx']; [now apply Forall_forall|].
    destruct (nth_error (bookings w) i) as [b|]; [|now apply Forall_forall].
    destruct (negb (_can_modify w (Some b))); [now apply Forall_forall|].
    destruct (Py.str_eqb (b_status b) Cancelled); [now apply Forall_forall|].
    destruct answer; [|now apply Forall_forall].
    cbn. apply Forall_forall. intros x Hx.
    apply in_update_nth in Hx as [Hx|(y & Hy & ->)]; [now apply H|].
    apply reloadable_set_status. now apply H.
  - intros idx answer. unfold CCT211.delete_booking. rewrite delete_booking_with_eq.
    destruct idx as [|i idx']; [now apply Forall_forall|].
    destruct (nth_error (bookings w) i) as [b|]; [|now apply Forall_forall].
    destruct (negb (CCT211.may_delete w b)); [now apply Forall_forall|].
    destruct answer; [|now apply Forall_forall].
    cbn. apply Forall_forall. intros x Hx.
    apply in_without_id in Hx as [Hx _]. now apply H.
Qed.

Lemma window_stays_reloadable_witness :
  let w := Samples.window [Samples.meeting 1 "10:00" "11:00" Booked] in
  Forall reloadable
    (bookings (window_after (cancel_booking [0%nat] true w))).
Proof.
  intro w.
  assert (H : Forall reloadable (bookings w)).
  { constructor; [vm_compute; reflexivity|constructor]. }
  exact (proj1 (proj2 (window_stays_reloadable w H)) [0%nat] true).
Defined.

(** ** Ids handed out *)




(** * Login and the package window *)

Lemma truthy_true : forall s, truthy s = true <-> s <> [].
Proof. intros [|c s]; cbn; split; try discriminate; try reflexivity. now intros []. Qed.

Lemma do_login_inr : forall ue ne rv u,
  do_login ue ne rv = inr u
  <-> Py.strip ue <> []
      /\ (Py.strip ne <> [] \/ rv <> Py.lit "resident")
      /\ u = mk_User (Py.strip ue) rv (Py.strip ne).
Proof.
  intros ue ne rv u. unfold do_login.
  destruct (truthy (Py.strip ue)) eqn:Tu; cbn [negb].
  - apply truthy_true in Tu.
    destruct (truthy (Py.strip ne)) eqn:Tn; cbn [negb andb].
    + apply truthy_true in Tn. split.
      * intro H. injection H as <-. auto.
      * intros (_ & _ & ->). reflexivity.
    + assert (Hn : Py.strip ne = []) by (destruct (Py.strip ne); [reflexivity|discriminate]).
      destruct (Py.str_eqb rv (Py.lit "resident")) eqn:Er.
      * apply str_eqb_eq in Er. split; [discriminate|].
        intros (_ & [H|H] & _); contradiction.
      * split.
        -- intro H. injection H as <-. split; [assumption|]. split; [|reflexivity].
           right. intro E. rewrite E, str_eqb_refl in Er. discriminate.
        -- intros (_ & _ & ->). reflexivity.
  - assert (Hn : Py.strip ue = []) by (destruct (Py.strip ue); [reflexivity|discriminate]).
    split; [discriminate|]. intros (H & _). contradiction.
Qed.

Lemma do_login_resident : forall ue ne rv u,
  do_login ue ne rv = inr u ->
  username u <> []
  /\ (role u = Py.lit "resident" -> user_unit u <> [] /\ is_admin u = false).
Proof.
  intros ue ne rv u H. apply do_login_inr in H as (Hu & Hn & ->).
  cbn [username role user_unit].
  split; [exact Hu|]. intro Hr. split.
  - destruct Hn as [Hn|Hn]; [exact Hn|contradiction].
  - unfold is_admin. cbn [role]. rewrite Hr. reflexivity.
Qed.

(** X11.  [do_login] lets a user in exactly when the stripped username
    is not blank and, for the role "resident", the stripped unit is not
    blank either; the user carries the stripped username and unit.  So
    nobody is logged in without a name, and no resident without a unit. *)
Theorem login_requires_name_and_unit : forall username_entry unit_entry role_var,
  (forall u,
     do_login username_entry unit_entry role_var = inr u
     <-> Py.strip username_entry <> []
         /\ (Py.strip unit_entry <> [] \/ role_var <> Py.lit "resident")
         /\ u = mk_User (Py.strip username_entry) role_var (Py.strip unit_entry))
  /\ (forall u,
        do_login username_entry unit_entry role_var = inr u ->
        username u <> []
        /\ (role u = Py.lit "resident" -> user_unit u <> [] /\ is_admin u = false)).
Proof.
  intros ue ne rv. split; intro u; [apply do_login_inr|apply do_login_resident].
Qed.

Lemma login_requires_name_and_unit_witness :
  do_login (Py.lit " amy ") (Py.lit "101") (Py.lit "resident") = inr Samples.amy.
Proof.
  apply (proj1 (login_requires_name_and_unit (Py.lit " amy ") (Py.lit "101")
                  (Py.lit "resident")) Samples.amy).
  split; [vm_compute; discriminate|].
  split; [left; vm_compute; discriminate|reflexivity].
Defined.

(** ** What the package window shows *)

Lemma in_combine_seq : forall A (l : list A) s i x,
  In (i, x) (combine (seq s (List.length l)) l)
  <-> (s <= i)%nat /\ nth_error l (i - s) = Some x.
Proof.
  induction l as [|a l IH]; intros s i x.
  - cbn. split; [intros []|]. intros [_ H]. destruct (i - s)%nat; discriminate.
  - cbn [List.length seq combine In]. rewrite IH. split.
    + intros [H|[H1 H2]].
      * injection H as <- <-. split; [lia|]. now rewrite Nat.sub_diag.
      * split; [lia|]. replace (i - s)%nat with (S (i - S s)) by lia. exact H2.
    + intros [H1 H2]. destruct (Nat.eq_dec i s) as [->|Hne].
      * left. rewrite Nat.sub_diag in H2. injection H2 as <-. reflexivity.
      * right. split; [lia|].
        replace (i - s)%nat with (S (i - S s)) in H2 by lia. exact H2.
Qed.

Lemma in_enumerate : forall A (l : list A) i x,
  In (i, x) (enumerate l) <-> nth_error l i = Some x.
Proof.
  intros A l i x. unfold enumerate. rewrite in_combine_seq, Nat.sub_0_r.
  split; [now intros [_ H]|]. intro H. split; [lia|exact H].
Qed.

Lemma map_snd_combine_seq : forall A (l : list A) s,
  map snd (combine (seq s (List.length l)) l) = l.
Proof.
  induction l as [|a l IH]; intro s; [reflexivity|].
  cbn. now rewrite IH.
Qed.

Lemma map_snd_filter : forall A (g : A -> bool) (l : list (nat * A)),
  map snd (filter (fun ip => g (snd ip)) l) = filter g (map snd l).
Proof.
  induction l as [|[i a] l IH]; [reflexivity|].
  cbn. destruct (g a); cbn; now rewrite IH.
Qed.

Lemma filter_filter : forall A (g h : A -> bool) (l : list A),
  filter h (filter g l) = filter (fun x => g x && h x) l.
Proof.
  induction l as [|a l IH]; [reflexivity|].
  cbn. destruct (g a); cbn; [destruct (h a); now rewrite IH|exact IH].
Qed.

Lemma filter_true : forall A (l : list A), filter (fun _ => true) l = l.
Proof. induction l as [|a l IH]; [reflexivity|]. cbn. now rewrite IH. Qed.

Lemma filtered_packages_contents : forall w,
  map snd (Packages.filtered_packages w) = filter (Packages.visible w) (Packages.packages w).
Proof.
  intro w. unfold Packages.filtered_packages, Packages.visible, Packages.own_unit_only.
  set (g1 := fun p => Py.str_eqb (Packages.p_unit p) (user_unit (Packages.pw_user w))).
  set (g2 := fun p => startswith (Packages.p_unit p) (Py.strip (Packages.search_var w))).
  destruct (negb (is_admin (Packages.pw_user w)) && truthy (user_unit (Packages.pw_user w)));
    destruct (truthy (Py.strip (Packages.search_var w))); cbv zeta.
  - rewrite (map_snd_filter _ g2), (map_snd_filter _ g1).
    unfold enumerate. rewrite map_snd_combine_seq. apply filter_filter.
  - rewrite (map_snd_filter _ g1).
    unfold enumerate. rewrite map_snd_combine_seq.
    apply filter_ext. intro p. unfold g1. now rewrite andb_true_r.
  - rewrite (map_snd_filter _ g2).
    unfold enumerate. rewrite map_snd_combine_seq. reflexivity.
  - unfold enumerate. rewrite map_snd_combine_seq. symmetry. apply filter_true.
Qed.

Lemma filtered_packages_in : forall w pos p,
  In (pos, p) (Packages.filtered_packages w) ->
  nth_error (Packages.packages w) pos = Some p /\ Packages.visible w p = true.
Proof.
  intros w pos p H.
  assert (Hv : In p (map snd (Packages.filtered_packages w))).
  { apply in_map_iff. now exists (pos, p). }
  rewrite filtered_packages_contents in Hv. apply filter_In in Hv as [_ Hv].
  split; [|exact Hv]. apply in_enumerate.
  unfold Packages.filtered_packages in H.
  destruct (negb _ && _); destruct (truthy _);
    repeat (apply filter_In in H as [H _]); exact H.
Qed.

Lemma lookups_of_pairs : forall (ps : list Packages.PackageRecord) L,
  (forall ip, In ip L -> nth_error ps (fst ip) = Some (snd ip)) ->
  flat_map (fun pos => match nth_error ps pos with Some p => [p] | None => [] end)
    (map fst L)
  = map snd L.
Proof.
  induction L as [|[pos p] L IH]; intro H; [reflexivity|].
  pose proof (H (pos, p) (or_introl eq_refl)) as E. cbn [fst snd] in E.
  cbn [map flat_map fst snd]. rewrite E.
  cbn [app]. f_equal. apply IH. intros ip Hin. apply H. now right.
Qed.

Lemma shown_after_refresh : forall w,
  Packages.shown (Packages.refresh_tree w)
  = filter (Packages.visible w) (Packages.packages w).
Proof.
  intro w. unfold Packages.shown, Packages.refresh_tree.
  cbn [Packages.packages Packages.current_view].
  rewrite lookups_of_pairs; [apply filtered_packages_contents|].
  intros [pos p] Hin. now apply filtered_packages_in.
Qed.

Lemma visible_own_unit : forall w p,
  Packages.own_unit_only w = true ->
  Packages.visible w p = true ->
  Packages.p_unit p = user_unit (Packages.pw_user w).
Proof.
  intros w p Ho Hv. unfold Packages.visible in Hv. rewrite Ho in Hv.
  apply andb_true_iff in Hv as [Hv _]. now apply str_eqb_eq.
Qed.

(** X12.  After [refresh_tree] the package window shows exactly the
    packages that pass its two filters, in the order of the list: in the
    window of a resident who has a unit only packages of that unit, and
    with a prefix typed in the filter only packages whose unit starts
    with it.  So a resident logged in through [do_login] never sees a
    package of another unit, and an admin with a blank filter sees all. *)
Theorem package_view_is_filtered : forall w,
  Packages.shown (Packages.refresh_tree w)
  = filter (Packages.visible w) (Packages.packages w)
  /\ (Packages.own_unit_only w = true ->
      Forall (fun p => Packages.p_unit p = user_unit (Packages.pw_user w))
        (Packages.shown (Packages.refresh_tree w)))
  /\ (Py.strip (Packages.search_var w) <> [] ->
      Forall (fun p => startswith (Packages.p_unit p) (Py.strip (Packages.search_var w)) = true)
        (Packages.shown (Packages.refresh_tree w)))
  /\ (is_admin (Packages.pw_user w) = true ->
      Py.strip (Packages.search_var w) = [] ->
      Packages.shown (Packages.refresh_tree w) = Packages.packages w)
  /\ (forall ue ne rv u store cb,
        do_login ue ne rv = inr u ->
        role u = Py.lit "resident" ->
        Forall (fun p => Packages.p_unit p = user_unit u)
          (Packages.shown (Packages.open_window store u cb))).
Proof.
  intro w. split; [apply shown_after_refresh|]. split; [|split; [|split]].
  - intro Ho. rewrite shown_after_refresh. apply Forall_forall.
    intros p Hp. apply filter_In in Hp as [_ Hv]. now apply visible_own_unit.
  - intro Hpre. rewrite shown_after_refresh. apply Forall_forall.
    intros p Hp. apply filter_In in Hp as [_ Hv].
    unfold Packages.visible in Hv. apply andb_true_iff in Hv as [_ Hv].
    apply truthy_true in Hpre. now rewrite Hpre in Hv.
  - intros Hadm Hpre. rewrite shown_after_refresh.
    unfold Packages.visible, Packages.own_unit_only. rewrite Hadm, Hpre. cbn.
    apply filter_true.
  - intros ue ne rv u store cb Hlogin Hrole.
    destruct (do_login_resident ue ne rv u Hlogin) as [_ H].
    destruct (H Hrole) as [Hunit Hadm].
    unfold Packages.open_window. rewrite shown_after_refresh. apply Forall_forall.
    intros p Hp. apply filter_In in Hp as [_ Hv].
    apply (visible_own_unit _ p) in Hv; [exact Hv|].
    unfold Packages.own_unit_only. cbn [Packages.pw_user]. rewrite Hadm.
    apply truthy_true in Hunit. now rewrite Hunit.
Qed.

Lemma package_view_is_filtered_witness :
  let mine := Packages.mk_PackageRecord 1 (Py.lit "101") (Py.lit "UPS") (Py.lit "2025-09-10") false in
  let other := Packages.mk_PackageRecord 2 (Py.lit "202") (Py.lit "DHL") (Py.lit "2025-09-11") false in
  Packages.own_unit_only (Packages.open_window [other; mine] Samples.amy true) = true
  /\ Forall (fun p => Packages.p_unit p = Py.lit "101")
       (Packages.shown
          (Packages.refresh_tree (Packages.open_window [other; mine] Samples.amy true))).
Proof.
  intros mine other. split; [reflexivity|].
  exact (proj1 (proj2 (package_view_is_filtered
                         (Packages.open_window [other; mine] Samples.amy true)))
           eq_refl).
Defined.

(** ** What a resident can do to packages *)

Lemma view_ok_refresh : forall w, Packages.view_ok (Packages.refresh_tree w).
Proof.
  intros w pos Hin. unfold Packages.refresh_tree in Hin.
  cbn [Packages.current_view] in Hin.
  apply in_map_iff in Hin as ([pos' p] & Heq & Hin). cbn in Heq. subst pos'.
  apply filtered_packages_in in Hin as [Hnth Hv].
  exists p. split; [exact Hnth|]. intro Ho. now apply (visible_own_unit w).
Qed.

Lemma view_ok_saved : forall w, Packages.view_ok (fst (Packages.save_and_refresh w)).
Proof. intro w. unfold Packages.save_and_refresh. cbn [fst]. apply view_ok_refresh. Qed.

Lemma get_selected_in_view : forall sel w pos p,
  Packages.get_selected sel w = Some (pos, p) ->
  In pos (Packages.current_view w) /\ nth_error (Packages.packages w) pos = Some p.
Proof.
  intros sel w pos p H. unfold Packages.get_selected in H.
  destruct sel as [|idx sel']; [discriminate|].
  destruct (idx <? _)%nat; [|discriminate].
  destruct (nth_error (Packages.current_view w) idx) as [pos'|] eqn:E; [|discriminate].
  destruct (nth_error (Packages.packages w) pos') as [p'|] eqn:E'; [|discriminate].
  injection H as <- <-. split; [|exact E']. now apply nth_error_In in E.
Qed.

Lemma nth_error_list_update_same : forall A (f : A -> A) l i x,
  nth_error l i = Some x -> nth_error (list_update i f l) i = Some (f x).
Proof.
  induction l as [|a l IH]; intros [|i] x H; try discriminate.
  - injection H as <-. reflexivity.
  - cbn in *. now apply IH.
Qed.

Lemma nth_error_list_update_other : forall A (f : A -> A) l i j,
  j <> i -> nth_error (list_update i f l) j = nth_error l j.
Proof.
  induction l as [|a l IH]; intros [|i] [|j] H; try reflexivity.
  - contradiction.
  - cbn. apply IH. congruence.
Qed.

Lemma mark_picked_eq : forall sel w pos p,
  Packages.get_selected sel w = Some (pos, p) ->
  (Packages.own_unit_only w = true -> Packages.p_unit p = user_unit (Packages.pw_user w)) ->
  Packages.mark_picked sel w
  = Packages.save_and_refresh
      (Packages.with_packages
         (list_update pos (Packages.set_picked_up true) (Packages.packages w)) w).
Proof.
  intros sel w pos p Hsel Hunit. unfold Packages.mark_picked. rewrite Hsel.
  unfold Packages.own_unit_only in Hunit.
  destruct (negb (is_admin (Packages.pw_user w)) && truthy (user_unit (Packages.pw_user w)));
    [|reflexivity].
  rewrite (Hunit eq_refl), str_eqb_refl. reflexivity.
Qed.

Lemma NoDup_map_filter : forall A B (f : A -> B) (g : A -> bool) l,
  NoDup (map f l) -> NoDup (map f (filter g l)).
Proof.
  induction l as [|a l IH]; intro H; [exact H|].
  cbn [map] in H. inversion H as [|? ? Hnotin Hrest]; subst.
  cbn [filter]. destruct (g a); [|now apply IH].
  cbn [map]. constructor; [|now apply IH].
  intro Hin. apply Hnotin. apply in_map_iff in Hin as (x & Hx & Hin).
  apply filter_In in Hin as [Hin _]. apply in_map_iff. now exists x.
Qed.

Lemma package_ids_list_update : forall v pos l,
  map Packages.p_id (list_update pos (Packages.set_picked_up v) l)
  = map Packages.p_id l.
Proof.
  intros v pos l. revert pos.
  induction l as [|a l IH]; intros [|pos]; try reflexivity.
  cbn. f_equal. apply IH.
Qed.

Lemma package_ids_replace_by_id : forall record l,
  map Packages.p_id (Packages.replace_by_id record l) = map Packages.p_id l.
Proof.
  induction l as [|a l IH]; [reflexivity|].
  cbn [Packages.replace_by_id].
  destruct (Z.eqb_spec (Packages.p_id a) (Packages.p_id record)) as [E|_].
  - cbn. now rewrite E.
  - cbn. f_equal. exact IH.
Qed.

Lemma NoDup_snoc : forall (l : list Z) x, NoDup l -> ~ In x l -> NoDup (l ++ [x]).
Proof.
  induction l as [|a l IH]; intros x Hnd Hx.
  - cbn. constructor; [intros []|constructor].
  - inversion Hnd as [|? ? Ha Hl]; subst. cbn. constructor.
    + intro Hin. apply in_app_or in Hin as [Hin|[Hin|[]]]; [now apply Ha|].
      apply Hx. now left.
    + apply IH; [exact Hl|]. intro Hin. apply Hx. now right.
Qed.

Lemma sound_saved : forall w,
  Packages.unique_ids w -> Packages.sound (fst (Packages.save_and_refresh w)).
Proof. intros w H. split; [exact H|apply view_ok_saved]. Qed.

(** X13.  The view of the package window never holds a package the
    user may not see: it is so when the window opens and stays so, with
    the ids distinct, under every operation and while the user types in
    the filter (a new record coming with an id not yet in the list).
    Therefore, in the window of a resident with a unit, [mark_picked]
    never reaches its permission error, and no package of another unit is
    changed by it, whatever row is selected. *)
Theorem residents_reach_only_their_packages :
  (forall rows u cb,
     NoDup (map Packages.p_id rows) -> Packages.sound (Packages.open_window rows u cb))
  /\ (forall w,
        Packages.sound w ->
        (forall s, Packages.sound (Packages.with_search s w))
        /\ Packages.sound (Packages.refresh_tree w)
        /\ (forall sel, Packages.sound (fst (Packages.mark_picked sel w)))
        /\ (forall sel answer, Packages.sound (fst (Packages.delete_package sel answer w)))
        /\ (forall record is_new,
              (is_new = true ->
               ~ In (Packages.p_id record) (map Packages.p_id (Packages.packages w))) ->
              Packages.sound (fst (Packages.on_saved record is_new w)))
        /\ (forall sel, Packages.sound (fst (Packages.edit_package sel w)))
        /\ Packages.sound (fst (Packages.add_package w)))
  /\ (forall w sel,
        Packages.sound w ->
        Packages.own_unit_only w = true ->
        snd (Packages.mark_picked sel w) <> [Packages.showerror "Permission"]
        /\ forall pos p,
             nth_error (Packages.packages w) pos = Some p ->
             Packages.p_unit p <> user_unit (Packages.pw_user w) ->
             nth_error (Packages.packages (fst (Packages.mark_picked sel w))) pos = Some p).
Proof.
  split; [intros rows u cb H; split; [exact H|apply view_ok_refresh]|]. split.
  - intros w Hs. pose proof Hs as [Hu Hok].
    split; [intros s; exact Hs|].
    split; [split; [exact Hu|apply view_ok_refresh]|].
    split; [|split; [|split; [|split]]].
    + intro sel. unfold Packages.mark_picked.
      destruct (Packages.get_selected sel w) as [[pos p]|]; [|exact Hs].
      destruct (_ && _ && _); [exact Hs|]. apply sound_saved.
      unfold Packages.unique_ids, Packages.with_packages. cbn [Packages.packages].
      now rewrite package_ids_list_update.
    + intros sel answer. unfold Packages.delete_package.
      destruct (negb (is_admin (Packages.pw_user w))); [exact Hs|].
      destruct (Packages.get_selected sel w) as [[pos p]|]; [|exact Hs].
      destruct answer; [|exact Hs].
      assert (H : Packages.sound
                    (fst (Packages.save_and_refresh
                            (Packages.with_packages
                               (Packages.without_id (Packages.p_id p) (Packages.packages w))
                               w)))).
      { apply sound_saved. unfold Packages.unique_ids, Packages.with_packages.
        cbn [Packages.packages]. now apply NoDup_map_filter. }
      destruct (Packages.save_and_refresh _) as [w' ev]. exact H.
    + intros record is_new Hnew. unfold Packages.on_saved. cbv zeta.
      match goal with
      | |- context [Packages.save_and_refresh ?x] =>
          assert (H : Packages.sound (fst (Packages.save_and_refresh x)));
          [|destruct (Packages.save_and_refresh x) as [w' ev]; exact H]
      end.
      apply sound_saved. unfold Packages.unique_ids, Packages.with_packages.
      cbn [Packages.packages]. destruct is_new.
      * rewrite map_app. cbn [map]. apply NoDup_snoc; [exact Hu|now apply Hnew].
      * now rewrite package_ids_replace_by_id.
    + intro sel. unfold Packages.edit_package.
      destruct (negb (is_admin (Packages.pw_user w))); [exact Hs|].
      destruct (Packages.get_selected sel w) as [[pos p]|]; exact Hs.
    + unfold Packages.add_package.
      destruct (negb (is_admin (Packages.pw_user w))); exact Hs.
  - intros w sel [_ Hok] Ho.
    destruct (Packages.get_selected sel w) as [[pos p]|] eqn:Hsel.
    + destruct (get_selected_in_view sel w pos p Hsel) as [Hin Hnth].
      destruct (Hok pos Hin) as (p' & Hnth' & Hunit).
      assert (p' = p) by congruence. subst p'.
      rewrite (mark_picked_eq sel w pos p Hsel Hunit).
      unfold Packages.save_and_refresh. cbn [fst snd]. split.
      * cbn. discriminate.
      * intros pos' q Hq Hother.
        unfold Packages.refresh_tree, Packages.with_packages. cbn [Packages.packages].
        rewrite nth_error_list_update_other; [exact Hq|].
        intro E. subst pos'. rewrite Hq in Hnth. injection Hnth as ->.
        apply Hother. now apply Hunit.
    + unfold Packages.mark_picked. rewrite Hsel. cbn [fst snd]. split.
      * discriminate.
      * intros pos p Hp _. exact Hp.
Qed.

Lemma residents_reach_only_their_packages_witness :
  let mine := Packages.mk_PackageRecord 1 (Py.lit "101") (Py.lit "UPS") (Py.lit "2025-09-10") false in
  let other := Packages.mk_PackageRecord 2 (Py.lit "202") (Py.lit "DHL") (Py.lit "2025-09-11") false in
  let w := Packages.open_window [other; mine] Samples.amy true in
  Packages.packages (fst (Packages.mark_picked [0%nat] w))
  = [other; Packages.set_picked_up true mine]
  /\ nth_error (Packages.packages (fst (Packages.mark_picked [0%nat] w))) 0 = Some other.
Proof.
  intros mine other w. split; [vm_compute; reflexivity|].
  assert (Hnd : NoDup (map Packages.p_id [other; mine])).
  { cbn. repeat (constructor; [cbn; intuition discriminate|]). constructor. }
  assert (Hs : Packages.sound w)
    by exact (proj1 residents_reach_only_their_packages [other; mine] Samples.amy true Hnd).
  apply (proj2 (proj2 (proj2 residents_reach_only_their_packages) w [0%nat] Hs eq_refl)
           0%nat other); [reflexivity|].
  vm_compute. discriminate.
Defined.

(** ** Marking a package as picked up *)

Lemma active_pkgs_update : forall l pos p,
  nth_error l pos = Some p ->
  (Packages.active_pkgs (list_update pos (Packages.set_picked_up true) l)
   + (if Packages.p_picked_up p then 0 else 1)
   = Packages.active_pkgs l)%nat.
Proof.
  unfold Packages.active_pkgs.
  induction l as [|a l IH]; intros [|pos] p H; try discriminate.
  - injection H as ->. cbn. destruct (Packages.p_picked_up p); cbn; lia.
  - cbn in H. cbn [list_update filter].
    destruct (negb (Packages.p_picked_up a)); cbn [List.length];
      specialize (IH pos p H); lia.
Qed.

(** X14.  Marking the selected package sets its picked-up flag and
    nothing else: the other attributes of the package and every other
    package stay, the list is written to the store, and the number of
    waiting packages that the dashboard counts from the store goes down by
    one when the package was waiting and stays when it was picked up
    already.  (The ids of the list are distinct, as the primary key of
    the packages table of [CCT211.py] requires of a list it is to take.) *)
Theorem marking_picks_one_package : forall w sel pos p,
  Packages.unique_ids w ->
  Packages.get_selected sel w = Some (pos, p) ->
  (Packages.own_unit_only w = true -> Packages.p_unit p = user_unit (Packages.pw_user w)) ->
  let w' := fst (Packages.mark_picked sel w) in
  nth_error (Packages.packages w') pos = Some (Packages.set_picked_up true p)
  /\ (forall j, j <> pos ->
        nth_error (Packages.packages w') j = nth_error (Packages.packages w) j)
  /\ Packages.pw_store w' = Packages.packages w'
  /\ (Packages.active_pkgs (Packages.pw_store w')
      + (if Packages.p_picked_up p then 0 else 1)
      = Packages.active_pkgs (Packages.packages w))%nat.
Proof.
  intros w sel pos p _ Hsel Hunit w'. subst w'.
  destruct (get_selected_in_view sel w pos p Hsel) as [_ Hnth].
  rewrite (mark_picked_eq sel w pos p Hsel Hunit).
  unfold Packages.save_and_refresh, Packages.refresh_tree, Packages.with_packages.
  cbn [fst Packages.packages Packages.pw_store].
  split; [now apply nth_error_list_update_same|].
  split; [intros j Hj; now apply nth_error_list_update_other|].
  split; [reflexivity|]. now apply active_pkgs_update.
Qed.

Lemma marking_picks_one_package_witness :
  let mine := Packages.mk_PackageRecord 1 (Py.lit "101") (Py.lit "UPS") (Py.lit "2025-09-10") false in
  let other := Packages.mk_PackageRecord 2 (Py.lit "202") (Py.lit "DHL") (Py.lit "2025-09-11") false in
  let w := Packages.open_window [other; mine] Samples.root true in
  (Packages.active_pkgs (Packages.pw_store (fst (Packages.mark_picked [1%nat] w))) + 1
   = Packages.active_pkgs (Packages.packages w))%nat.
Proof.
  intros mine other w.
  assert (Hnd : Packages.unique_ids w).
  { unfold Packages.unique_ids. cbn.
    repeat (constructor; [cbn; intuition discriminate|]). constructor. }
  exact (proj2 (proj2 (proj2
           (marking_picks_one_package w [1%nat] 1%nat mine Hnd eq_refl
              (fun H : Packages.own_unit_only w = true =>
                 False_ind _ (Bool.diff_false_true H)))))).
Defined.

(** ** Package records are for admins *)

(** X15.  A resident cannot add, edit or delete a package record: each
    of the three stops at the permission error and leaves the window as
    it is, whatever is selected.  For an admin a confirmed deletion drops
    the records with the id of the selected one, keeps the others in
    order and writes the list to the store.  (The ids of the list are
    distinct, as the primary key of the packages table of [CCT211.py]
    requires of a list it is to take.) *)
Theorem package_records_are_admin_only : forall w,
  (is_admin (Packages.pw_user w) = false ->
   Packages.add_package w = (w, [Packages.showerror "Permission"])
   /\ (forall sel, Packages.edit_package sel w = (w, [Packages.showerror "Permission"]))
   /\ (forall sel answer,
         Packages.delete_package sel answer w = (w, [Packages.showerror "Permission"])))
  /\ (is_admin (Packages.pw_user w) = true ->
      Packages.unique_ids w ->
      forall sel pos p,
        Packages.get_selected sel w = Some (pos, p) ->
        let w' := fst (Packages.delete_package sel true w) in
        Packages.packages w'
        = filter (fun pk => negb (Packages.p_id pk =? Packages.p_id p)) (Packages.packages w)
        /\ Packages.pw_store w' = Packages.packages w'
        /\ Packages.delete_package sel false w = (w, [Packages.askyesno "Confirm"])).
Proof.
  intro w. split.
  - intro Hadm. unfold Packages.add_package, Packages.edit_package, Packages.delete_package.
    rewrite Hadm. repeat split.
  - intros Hadm _ sel pos p Hsel w'. subst w'.
    unfold Packages.delete_package. rewrite Hadm, Hsel. cbn [negb].
    unfold Packages.save_and_refresh. cbn. repeat split.
Qed.

Lemma package_records_are_admin_only_witness :
  let mine := Packages.mk_PackageRecord 1 (Py.lit "101") (Py.lit "UPS") (Py.lit "2025-09-10") false in
  let w := Packages.open_window [mine] Samples.amy true in
  Packages.delete_package [0%nat] true w = (w, [Packages.showerror "Permission"]).
Proof.
  intros mine w.
  exact (proj2 (proj2 (proj1 (package_records_are_admin_only w) eq_refl)) [0%nat] true).
Defined.

(** * The service-request window *)

Lemma nth_list_update : forall A (f : A -> A) l i j d,
  nth j (list_update i f l) d
  = if ((j =? i) && (i <? List.length l))%nat then f (nth j l d) else nth j l d.
Proof.
  induction l as [|x l IH]; intros i j d.
  - destruct i, j; cbn; rewrite ?andb_false_r; reflexivity.
  - destruct i as [|i], j as [|j]; try reflexivity.
    cbn [list_update nth List.length]. rewrite IH. reflexivity.
Qed.

Lemma length_list_update : forall A (f : A -> A) l i,
  List.length (list_update i f l) = List.length l.
Proof.
  induction l as [|x l IH]; intros [|i]; try reflexivity.
  cbn. f_equal. apply IH.
Qed.

Lemma map_filter_comm : forall A B (f : A -> B) (g : B -> bool) l,
  map f (filter (fun x => g (f x)) l) = filter g (map f l).
Proof.
  induction l as [|x l IH]; [reflexivity|].
  cbn [filter map]. destruct (g (f x)); cbn [map]; now rewrite IH.
Qed.

Lemma NoDup_map_inj : forall A B (f : A -> B) l x y,
  NoDup (map f l) -> In x l -> In y l -> f x = f y -> x = y.
Proof.
  induction l as [|a l IH]; intros x y Hnd Hx Hy E; [destruct Hx|].
  cbn [map] in Hnd. inversion Hnd as [|? ? Ha Hl]; subst.
  destruct Hx as [->|Hx], Hy as [->|Hy].
  - reflexivity.
  - exfalso. apply Ha. rewrite E. now apply in_map.
  - exfalso. apply Ha. rewrite <- E. now apply in_map.
  - now apply IH.
Qed.



Lemma request_ids_replace : forall w a rs,
  map (fun x => Requests.r_id (Requests.obj w x))
    (Requests.replace_by_id w (Requests.r_id (Requests.obj w a)) a rs)
  = map (fun x => Requests.r_id (Requests.obj w x)) rs.
Proof.
  induction rs as [|x rs IH]; [reflexivity|].
  cbn [Requests.replace_by_id].
  destruct (Z.eqb_spec (Requests.r_id (Requests.obj w x)) (Requests.r_id (Requests.obj w a)))
    as [E|_]; cbn [map].
  - now rewrite E.
  - now rewrite IH.
Qed.

Lemma in_request_replace : forall w i a rs x,
  In x (Requests.replace_by_id w i a rs) -> x = a \/ In x rs.
Proof.
  induction rs as [|y rs IH]; intros x H; [destruct H|].
  cbn [Requests.replace_by_id] in H.
  destruct (Requests.r_id (Requests.obj w y) =? i).
  - destruct H as [<-|H]; [now left|right; now right].
  - destruct H as [<-|H]; [right; now left|].
    destruct (IH x H) as [->|Hin]; [now left|right; now right].
Qed.

Lemma request_sound_saved : forall w,
  (forall a, In a (Requests.requests w) -> (a < List.length (Requests.objects w))%nat) ->
  Requests.unique_ids w ->
  Requests.sound (fst (Requests.save_and_refresh w)).
Proof.
  intros w Hrefs Hu. unfold Requests.save_and_refresh. cbn [fst].
  unfold Requests.sound, Requests.refs_ok, Requests.unique_ids, Requests.store_covers,
    Requests.view_ok, Requests.refresh_listbox, Requests.rows, Requests.is_own,
    Requests.obj.
  cbn [Requests.requests Requests.current_view Requests.objects Requests.rw_user
       Requests.rw_store].
  split; [split; [exact Hrefs|]|split; [exact Hu|split; [apply incl_refl|]]].
  - intros a Ha. apply Hrefs.
    destruct (is_admin (Requests.rw_user w)); [exact Ha|].
    now apply filter_In in Ha.
  - intros a Ha. destruct (is_admin (Requests.rw_user w)).
    + split; [exact Ha|discriminate].
    + apply filter_In in Ha as [Hin Hown]. split; [exact Hin|]. intros _. exact Hown.
Qed.

Lemma request_next_id_above : forall stored i,
  In i (map Requests.r_id stored) -> i < Requests.next_id stored.
Proof.
  intros stored i Hin. unfold Requests.next_id.
  destruct (map Requests.r_id stored) as [|j js]; [destruct Hin|].
  destruct (max_id_spec js j) as [_ Hle]. specialize (Hle i Hin). lia.
Qed.

Lemma obj_after_status : forall w a s x,
  Requests.obj
    (Requests.with_objects
       (list_update a (Requests.set_status s) (Requests.objects w)) w) x
  = if ((x =? a) && (a <? List.length (Requests.objects w)))%nat
    then Requests.set_status s (Requests.obj w x)
    else Requests.obj w x.
Proof.
  intros. unfold Requests.obj, Requests.with_objects. cbn [Requests.objects].
  apply nth_list_update.
Qed.

Lemma obj_after_status_id : forall w a s x,
  Requests.r_id
    (Requests.obj
       (Requests.with_objects
          (list_update a (Requests.set_status s) (Requests.objects w)) w) x)
  = Requests.r_id (Requests.obj w x).
Proof. intros. rewrite obj_after_status. now destruct (_ && _). Qed.

Lemma obj_after_status_creator : forall w a s x,
  Requests.r_created_by
    (Requests.obj
       (Requests.with_objects
          (list_update a (Requests.set_status s) (Requests.objects w)) w) x)
  = Requests.r_created_by (Requests.obj w x).
Proof. intros. rewrite obj_after_status. now destruct (_ && _). Qed.

Lemma obj_after_init_old : forall w r x,
  (x < List.length (Requests.objects w))%nat ->
  Requests.obj (Requests.with_objects (Requests.objects w ++ [r]) w) x
  = Requests.obj w x.
Proof.
  intros w r x H. unfold Requests.obj, Requests.with_objects. cbn [Requests.objects].
  now apply app_nth1.
Qed.

Lemma obj_after_init_new : forall w r,
  Requests.obj (Requests.with_objects (Requests.objects w ++ [r]) w)
    (List.length (Requests.objects w)) = r.
Proof.
  intros w r. unfold Requests.obj, Requests.with_objects. cbn [Requests.objects].
  rewrite app_nth2 by lia. now rewrite Nat.sub_diag.
Qed.

Lemma StatusForm_save_eq : forall a s w,
  let w1 := Requests.with_objects
              (list_update a (Requests.set_status s) (Requests.objects w)) w in
  let w2 := Requests.with_requests
              (Requests.replace_by_id w1 (Requests.r_id (Requests.obj w1 a)) a
                 (Requests.requests w1)) w1 in
  Requests.after (Requests.StatusForm_save a s w) = fst (Requests.save_and_refresh w2).
Proof. reflexivity. Qed.

Lemma ServiceRequestForm_save_eq : forall f w,
  (Requests.filled f = false ->
   Requests.ServiceRequestForm_save f w = (inr tt, w, [Requests.showerror "Error"]))
  /\ (Requests.filled f = true ->
      let w1 := Requests.with_objects
                  (Requests.objects w ++ [Requests.form_request f w]) w in
      let req := List.length (Requests.objects w) in
      let w2 := Requests.with_requests
                  (match Requests.request f with
                   | None => Requests.requests w1 ++ [req]
                   | Some _ =>
                       Requests.replace_by_id w1 (Requests.r_id (Requests.obj w1 req)) req
                         (Requests.requests w1)
                   end) w1 in
      Requests.after (Requests.ServiceRequestForm_save f w)
      = fst (Requests.save_and_refresh w2)).
Proof.
  intros f w. unfold Requests.ServiceRequestForm_save, Requests.filled.
  destruct (truthy (Py.strip (Requests.unit_entry f))),
    (truthy (Py.strip (Requests.type_var f))),
    (truthy (Py.strip (Requests.desc_text f))); cbn [negb orb andb];
    split; intro H; try discriminate H; try reflexivity.
  destruct (Requests.request f); reflexivity.
Qed.


Lemma sound_after_StatusForm_save : forall w a s,
  Requests.sound w ->
  (a < List.length (Requests.objects w))%nat ->
  Requests.sound (Requests.after (Requests.StatusForm_save a s w)).
Proof.
  intros w a s ((Hreq & _) & Hu & _ & _) Ha. rewrite StatusForm_save_eq. cbv zeta.
  apply request_sound_saved.
  - intros x Hx. cbn in Hx.
    cbn [Requests.objects Requests.with_requests Requests.with_objects].
    rewrite length_list_update.
    apply in_request_replace in Hx as [->|Hx]; [exact Ha|now apply Hreq].
  - unfold Requests.unique_ids, Requests.rows. rewrite map_map.
    cbn [Requests.requests Requests.with_requests Requests.with_objects].
    match goal with
    | |- NoDup (map (fun x => Requests.r_id (Requests.obj ?W x)) _) =>
        change (fun x => Requests.r_id (Requests.obj W x))
          with (fun x => Requests.r_id
                  (Requests.obj
                     (Requests.with_objects
                        (list_update a (Requests.set_status s) (Requests.objects w)) w)
                     x))
    end.
    rewrite request_ids_replace.
    rewrite (map_ext _ (fun x => Requests.r_id (Requests.obj w x)))
      by (intro x; apply obj_after_status_id).
    unfold Requests.unique_ids, Requests.rows in Hu. now rewrite map_map in Hu.
Qed.

Lemma sound_after_ServiceRequestForm_save : forall w f,
  Requests.sound w ->
  (forall a, Requests.request f = Some a ->
             (a < List.length (Requests.objects w))%nat) ->
  Requests.sound (Requests.after (Requests.ServiceRequestForm_save f w)).
Proof.
  intros w f Hs Hf. pose proof Hs as ((Hreq & _) & Hu & Hcov & _).
  destruct (Requests.filled f) eqn:Hfields.
  2:{ rewrite (proj1 (ServiceRequestForm_save_eq f w) Hfields). exact Hs. }
  rewrite (proj2 (ServiceRequestForm_save_eq f w) Hfields). cbv zeta.
  set (w1 := Requests.with_objects
               (Requests.objects w ++ [Requests.form_request f w]) w).
  assert (Hold : forall x, In x (Requests.requests w) ->
            Requests.r_id (Requests.obj w1 x) = Requests.r_id (Requests.obj w x)).
  { intros x Hx. unfold w1. rewrite obj_after_init_old; [reflexivity|now apply Hreq]. }
  assert (Hids : map (fun x => Requests.r_id (Requests.obj w1 x)) (Requests.requests w)
                 = map Requests.r_id (Requests.rows w)).
  { unfold Requests.rows. rewrite map_map. apply map_ext_in. exact Hold. }
  apply request_sound_saved.
  - intros x Hx. cbn in Hx.
    unfold w1. cbn [Requests.objects Requests.with_requests Requests.with_objects].
    rewrite length_app. cbn [List.length].
    destruct (Requests.request f) as [a|].
    + apply in_request_replace in Hx as [->|Hx]; [lia|].
      specialize (Hreq x Hx). lia.
    + apply in_app_or in Hx as [Hx|[<-|[]]]; [|lia].
      specialize (Hreq x Hx). lia.
  - unfold Requests.unique_ids, Requests.rows. rewrite map_map.
    cbn [Requests.requests Requests.with_requests].
    change (fun x => Requests.r_id
              (Requests.obj (Requests.with_requests _ w1) x))
      with (fun x => Requests.r_id (Requests.obj w1 x)).
    destruct (Requests.request f) as [a|] eqn:Hreqf.
    + rewrite request_ids_replace. change (Requests.requests w1)
        with (Requests.requests w). rewrite Hids. exact Hu.
    + change (Requests.requests w1) with (Requests.requests w).
      rewrite map_app, Hids. cbn [map]. unfold w1 at 1.
      rewrite obj_after_init_new. unfold Requests.form_request. rewrite Hreqf.
      cbn [Requests.r_id]. apply NoDup_snoc; [exact Hu|].
      intro Hin. apply Hcov in Hin. apply request_next_id_above in Hin. lia.
Qed.



(** ** What a resident can do to requests *)

Lemma view_after_refresh : forall w,
  Requests.view (Requests.refresh_listbox w)
  = if is_admin (Requests.rw_user w) then Requests.rows w
    else filter (fun r => Py.str_eqb (Requests.r_created_by r)
                            (username (Requests.rw_user w)))
           (Requests.rows w).
Proof.
  intro w. unfold Requests.view, Requests.refresh_listbox, Requests.rows.
  cbn [Requests.current_view].
  change (Requests.obj (Requests.mk_ServiceRequestWindow _ _ _ (Requests.objects w) _ _))
    with (Requests.obj w).
  destruct (is_admin (Requests.rw_user w)); [reflexivity|].
  apply (map_filter_comm _ _ (Requests.obj w)
           (fun r => Py.str_eqb (Requests.r_created_by r)
                       (username (Requests.rw_user w)))).
Qed.

Lemma rows_saved : forall w,
  Requests.rows (fst (Requests.save_and_refresh w)) = Requests.rows w.
Proof. reflexivity. Qed.

Lemma store_saved : forall w,
  Requests.rw_store (fst (Requests.save_and_refresh w)) = Requests.rows w.
Proof. reflexivity. Qed.

Lemma delete_request_eq : forall w i rest a,
  nth_error (Requests.current_view w) i = Some a ->
  is_admin (Requests.rw_user w) = true \/ Requests.is_own w a = true ->
  Requests.after (Requests.delete_request (i :: rest) true w)
  = fst (Requests.save_and_refresh
           (Requests.with_requests
              (Requests.without_id w (Requests.r_id (Requests.obj w a))) w)).
Proof.
  intros w i rest a Hnth H. unfold Requests.delete_request.
  cbn [Requests.get_selected]. rewrite Hnth.
  destruct H as [-> | ->]; [|rewrite andb_false_r]; reflexivity.
Qed.

(** X17.  After a refresh the listbox shows an admin the whole list and
    a resident exactly the requests the resident created, in the order of
    the list.  So on whatever row a resident selects, [edit_request]
    opens the form without a permission error, [change_status] is
    refused, a deletion is refused in [CCT211_Project2.py], and in
    [CCT211.py] a confirmed deletion takes out the selected request and
    nothing else: every request of another user stays, and the list
    is written to the store. *)
Theorem residents_reach_only_their_requests :
  (forall w,
     Requests.view (Requests.refresh_listbox w)
     = if is_admin (Requests.rw_user w) then Requests.rows w
       else filter (fun r => Py.str_eqb (Requests.r_created_by r)
                               (username (Requests.rw_user w)))
              (Requests.rows w))
  /\ (forall w i rest a,
        Requests.sound w ->
        is_admin (Requests.rw_user w) = false ->
        nth_error (Requests.current_view w) i = Some a ->
        Requests.r_created_by (Requests.obj w a) = username (Requests.rw_user w)
        /\ Requests.edit_request (i :: rest) w
           = (inr tt, w, [Requests.ServiceRequestForm_opened (Some a)])
        /\ Requests.change_status (i :: rest) w
           = (inr tt, w, [Requests.showerror "Permission"])
        /\ (forall answer,
              Requests.Project2_delete_request (i :: rest) answer w
              = (inr tt, w, [Requests.showerror "Permission"]))
        /\ (let w' := Requests.after (Requests.delete_request (i :: rest) true w) in
            Requests.rows w'
            = filter (fun r => negb (Requests.r_id r =? Requests.r_id (Requests.obj w a)))
                (Requests.rows w)
            /\ Requests.rw_store w' = Requests.rows w'
            /\ ~ In (Requests.obj w a) (Requests.rows w')
            /\ forall r, In r (Requests.rows w) -> r <> Requests.obj w a ->
                         In r (Requests.rows w'))).
Proof.
  split; [exact view_after_refresh|].
  intros w i rest a ((Hreq & Hview) & Hu & Hcov & Hv) Hadm Hnth.
  assert (Hin : In a (Requests.current_view w)) by (now apply nth_error_In in Hnth).
  destruct (Hv a Hin) as [Hinr Hown]. specialize (Hown Hadm).
  split; [apply str_eqb_eq; exact Hown|].
  split; [unfold Requests.edit_request; cbn [Requests.get_selected];
          now rewrite Hnth, Hadm, Hown|].
  split; [unfold Requests.change_status; cbn [Requests.get_selected];
          now rewrite Hnth, Hadm|].
  split.
  { intro answer. unfold Requests.Project2_delete_request.
    cbn [Requests.Project2_get_selected].
    assert (Hlt : (i <? List.length (Requests.current_view w))%nat = true).
    { apply Nat.ltb_lt. apply nth_error_Some. rewrite Hnth. discriminate. }
    now rewrite Hlt, Hnth, Hadm. }
  cbv zeta. rewrite (delete_request_eq w i rest a Hnth (or_intror Hown)).
  rewrite rows_saved, store_saved.
  assert (Hrows : Requests.rows
                    (Requests.with_requests
                       (Requests.without_id w (Requests.r_id (Requests.obj w a))) w)
                  = filter (fun r => negb (Requests.r_id r
                                           =? Requests.r_id (Requests.obj w a)))
                      (Requests.rows w)).
  { apply (map_filter_comm _ _ (Requests.obj w)
             (fun r => negb (Requests.r_id r =? Requests.r_id (Requests.obj w a)))). }
  split; [exact Hrows|]. split; [reflexivity|].
  rewrite Hrows. split.
  - intro H. apply filter_In in H as [_ H]. rewrite Z.eqb_refl in H. discriminate.
  - intros r Hr Hne. apply filter_In. split; [exact Hr|].
    destruct (Z.eqb_spec (Requests.r_id r) (Requests.r_id (Requests.obj w a))) as [E|_];
      [|reflexivity].
    exfalso. apply Hne.
    apply (NoDup_map_inj _ _ Requests.r_id (Requests.rows w)); try assumption.
    unfold Requests.rows. now apply in_map.
Qed.

Lemma residents_reach_only_their_requests_witness :
  let mine := Requests.mk_ServiceRequest 1 (Py.lit "101") (Py.lit "Question")
                (Py.lit "Is the gym open?") Requests.Submitted (Py.lit "amy") in
  let other := Requests.mk_ServiceRequest 2 (Py.lit "202") (Py.lit "Suggestion")
                 (Py.lit "More bike racks") Requests.Submitted (Py.lit "bob") in
  let w := Requests.open_window [other; mine] Samples.amy true in
  Requests.view w = [mine]
  /\ Requests.rows (Requests.after (Requests.delete_request [0%nat] true w)) = [other].
Proof.
  intros mine other w. split; [vm_compute; reflexivity|].
  assert (Hs : Requests.sound w).
  { apply request_sound_saved.
    - intros a Ha. cbn in Ha. cbn. lia.
    - unfold Requests.unique_ids. cbn.
      repeat (constructor; [cbn; intuition discriminate|]). constructor. }
  exact (proj1 (proj2 (proj2 (proj2 (proj2
           (proj2 residents_reach_only_their_requests w 0%nat [] 1%nat Hs eq_refl eq_refl)))))).
Defined.

(** ** Objects, forms and the list *)

Lemma option_map_ext_at : forall A B (f g : A -> B) o,
  (forall y, o = Some y -> f y = g y) -> option_map f o = option_map g o.
Proof. intros A B f g [y|] H; [cbn; f_equal; now apply H|reflexivity]. Qed.

Lemma nth_error_rows : forall w j,
  nth_error (Requests.rows w) j
  = option_map (Requests.obj w) (nth_error (Requests.requests w) j).
Proof. intros. unfold Requests.rows. apply nth_error_map. Qed.

Lemma distinct_ids_at : forall w i j x y,
  Requests.unique_ids w ->
  nth_error (Requests.requests w) i = Some x ->
  nth_error (Requests.requests w) j = Some y ->
  Requests.r_id (Requests.obj w x) = Requests.r_id (Requests.obj w y) ->
  i = j.
Proof.
  intros w i j x y Hu Hi Hj E. unfold Requests.unique_ids in Hu.
  apply (proj1 (NoDup_nth_error _) Hu).
  - rewrite length_map. unfold Requests.rows. rewrite length_map.
    apply nth_error_Some. rewrite Hi. discriminate.
  - rewrite !nth_error_map, !nth_error_rows, Hi, Hj. cbn. now rewrite E.
Qed.

Lemma request_replace_at : forall w id a' rs i x,
  nth_error rs i = Some x ->
  Requests.r_id (Requests.obj w x) = id ->
  NoDup (map (fun y => Requests.r_id (Requests.obj w y)) rs) ->
  Requests.replace_by_id w id a' rs = list_update i (fun _ => a') rs.
Proof.
  induction rs as [|y rs IH]; intros [|i] x Hnth Hid Hnd; try discriminate.
  - injection Hnth as ->. cbn [Requests.replace_by_id list_update].
    now rewrite Hid, Z.eqb_refl.
  - cbn in Hnth. cbn [map] in Hnd. inversion Hnd as [|? ? Hy Hrest]; subst.
    cbn [Requests.replace_by_id list_update].
    destruct (Z.eqb_spec (Requests.r_id (Requests.obj w y))
                (Requests.r_id (Requests.obj w x))) as [E|_].
    + exfalso. apply Hy. rewrite E.
      apply nth_error_In in Hnth.
      now apply (in_map (fun y => Requests.r_id (Requests.obj w y))).
    + f_equal. now apply (IH i x).
Qed.

Lemma request_replace_absent : forall w id a' rs,
  (forall x, In x rs -> Requests.r_id (Requests.obj w x) <> id) ->
  Requests.replace_by_id w id a' rs = rs.
Proof.
  induction rs as [|y rs IH]; intro H; [reflexivity|].
  cbn [Requests.replace_by_id].
  destruct (Z.eqb_spec (Requests.r_id (Requests.obj w y)) id) as [E|_].
  - exfalso. apply (H y); [now left|exact E].
  - f_equal. apply IH. intros x Hx. apply H. now right.
Qed.

Lemma unique_ids_by_ref : forall w,
  Requests.unique_ids w ->
  NoDup (map (fun y => Requests.r_id (Requests.obj w y)) (Requests.requests w)).
Proof.
  intros w H. unfold Requests.unique_ids, Requests.rows in H.
  now rewrite map_map in H.
Qed.

Lemma StatusForm_save_at : forall w a s i x,
  Requests.sound w ->
  (a < List.length (Requests.objects w))%nat ->
  nth_error (Requests.requests w) i = Some x ->
  Requests.r_id (Requests.obj w x) = Requests.r_id (Requests.obj w a) ->
  let w' := Requests.after (Requests.StatusForm_save a s w) in
  Requests.requests w' = list_update i (fun _ => a) (Requests.requests w)
  /\ Requests.objects w' = list_update a (Requests.set_status s) (Requests.objects w)
  /\ Requests.rw_store w' = Requests.rows w'
  /\ nth_error (Requests.rows w') i = Some (Requests.set_status s (Requests.obj w a))
  /\ forall j, j <> i ->
       nth_error (Requests.rows w') j = nth_error (Requests.rows w) j.
Proof.
  intros w a s i x ((Hreq & _) & Hu & _ & _) Ha Hnth Hid w'. subst w'.
  rewrite StatusForm_save_eq. cbv zeta.
  set (w1 := Requests.with_objects
               (list_update a (Requests.set_status s) (Requests.objects w)) w).
  assert (Hrep : Requests.replace_by_id w1 (Requests.r_id (Requests.obj w1 a)) a
                   (Requests.requests w)
                 = list_update i (fun _ => a) (Requests.requests w)).
  { apply (request_replace_at w1 _ a _ i x Hnth).
    - unfold w1. now rewrite !obj_after_status_id.
    - rewrite (map_ext _ (fun y => Requests.r_id (Requests.obj w y)))
        by (intro y; apply obj_after_status_id).
      now apply unique_ids_by_ref. }
  change (Requests.requests w1) with (Requests.requests w). rewrite Hrep.
  set (w2 := Requests.with_requests (list_update i (fun _ => a) (Requests.requests w)) w1).
  assert (Hobj : forall y, Requests.obj (fst (Requests.save_and_refresh w2)) y
                           = Requests.obj w1 y) by reflexivity.
  split; [reflexivity|]. split; [reflexivity|]. split; [reflexivity|].
  rewrite rows_saved. split.
  - rewrite nth_error_rows.
    change (Requests.requests w2) with (list_update i (fun _ : nat => a) (Requests.requests w)).
    rewrite (nth_error_list_update_same _ _ _ _ _ Hnth). cbn [option_map].
    change (Requests.obj w2 a) with (Requests.obj w1 a). unfold w1.
    rewrite obj_after_status, Nat.eqb_refl.
    now rewrite (proj2 (Nat.ltb_lt _ _) Ha).
  - intros j Hj. rewrite !nth_error_rows.
    change (Requests.requests w2) with (list_update i (fun _ : nat => a) (Requests.requests w)).
    rewrite nth_error_list_update_other by exact Hj.
    apply option_map_ext_at. intros y Hy.
    change (Requests.obj w2 y) with (Requests.obj w1 y). unfold w1.
    rewrite obj_after_status.
    destruct (Nat.eqb_spec y a) as [->|_]; [|reflexivity].
    exfalso. apply Hj. symmetry. apply (distinct_ids_at w i j x a Hu Hnth Hy Hid).
Qed.

Lemma ServiceRequestForm_save_at : forall w f a i x,
  Requests.sound w ->
  Requests.request f = Some a ->
  Requests.filled f = true ->
  nth_error (Requests.requests w) i = Some x ->
  Requests.r_id (Requests.obj w x) = Requests.r_id (Requests.obj w a) ->
  let w' := Requests.after (Requests.ServiceRequestForm_save f w) in
  Requests.requests w'
  = list_update i (fun _ => List.length (Requests.objects w)) (Requests.requests w)
  /\ Requests.objects w' = Requests.objects w ++ [Requests.form_request f w]
  /\ Requests.rw_store w' = Requests.rows w'
  /\ nth_error (Requests.rows w') i = Some (Requests.form_request f w)
  /\ forall j, j <> i ->
       nth_error (Requests.rows w') j = nth_error (Requests.rows w) j.
Proof.
  intros w f a i x ((Hreq & _) & Hu & _ & _) Hreqf Hfilled Hnth Hid w'. subst w'.
  rewrite (proj2 (ServiceRequestForm_save_eq f w) Hfilled). cbv zeta. rewrite Hreqf.
  set (w1 := Requests.with_objects
               (Requests.objects w ++ [Requests.form_request f w]) w).
  set (n := List.length (Requests.objects w)).
  assert (Hold : forall y, In y (Requests.requests w) ->
            Requests.obj w1 y = Requests.obj w y).
  { intros y Hy. unfold w1. apply obj_after_init_old. now apply Hreq. }
  assert (Hnew : Requests.obj w1 n = Requests.form_request f w)
    by apply obj_after_init_new.
  assert (Hrep : Requests.replace_by_id w1 (Requests.r_id (Requests.obj w1 n)) n
                   (Requests.requests w)
                 = list_update i (fun _ => n) (Requests.requests w)).
  { apply (request_replace_at w1 _ n _ i x Hnth).
    - rewrite Hnew, (Hold x) by (now apply nth_error_In in Hnth).
      unfold Requests.form_request. rewrite Hreqf. exact Hid.
    - rewrite (map_ext_in _ (fun y => Requests.r_id (Requests.obj w y)))
        by (intros y Hy; now rewrite Hold).
      now apply unique_ids_by_ref. }
  change (Requests.requests w1) with (Requests.requests w). rewrite Hrep.
  set (w2 := Requests.with_requests (list_update i (fun _ => n) (Requests.requests w)) w1).
  split; [reflexivity|]. split; [reflexivity|]. split; [reflexivity|].
  rewrite rows_saved. split.
  - rewrite nth_error_rows.
    change (Requests.requests w2) with (list_update i (fun _ : nat => n) (Requests.requests w)).
    rewrite (nth_error_list_update_same _ _ _ _ _ Hnth). cbn [option_map].
    change (Requests.obj w2 n) with (Requests.obj w1 n). now rewrite Hnew.
  - intros j Hj. rewrite !nth_error_rows.
    change (Requests.requests w2) with (list_update i (fun _ : nat => n) (Requests.requests w)).
    rewrite nth_error_list_update_other by exact Hj.
    apply option_map_ext_at. intros y Hy.
    change (Requests.obj w2 y) with (Requests.obj w1 y).
    apply Hold. now apply nth_error_In in Hy.
Qed.

(** ** A status change and an edit of one request *)

(** X18.  With the status form and the edit form open on one request,
    the order of the two saves decides what is kept.  Status first, edit
    second: the request ends with the fields of the edit and the new
    status, because the edit form reads the status off the object when it
    saves.  Edit first, status second: the status form puts its own
    object back in the list, so the request ends with the fields it had
    before the edit and the new status, and the edit is lost.  Either
    way no other request changes and the store holds the list. *)
Theorem status_change_and_edit_of_one_request : forall w i a f s,
  Requests.sound w ->
  nth_error (Requests.requests w) i = Some a ->
  Requests.request f = Some a ->
  Requests.filled f = true ->
  let status_then_edit :=
    Requests.after
      (Requests.ServiceRequestForm_save f
         (Requests.after (Requests.StatusForm_save a s w))) in
  let edit_then_status :=
    Requests.after
      (Requests.StatusForm_save a s
         (Requests.after (Requests.ServiceRequestForm_save f w))) in
  nth_error (Requests.rows status_then_edit) i
  = Some (Requests.set_status s (Requests.form_request f w))
  /\ nth_error (Requests.rows edit_then_status) i
     = Some (Requests.set_status s (Requests.obj w a))
  /\ (forall j, j <> i ->
        nth_error (Requests.rows status_then_edit) j = nth_error (Requests.rows w) j
        /\ nth_error (Requests.rows edit_then_status) j = nth_error (Requests.rows w) j)
  /\ Requests.rw_store status_then_edit = Requests.rows status_then_edit
  /\ Requests.rw_store edit_then_status = Requests.rows edit_then_status.
Proof.
  intros w i a f s Hs Hnth Hreqf Hfilled.
  assert (Ha : (a < List.length (Requests.objects w))%nat).
  { destruct Hs as ((Hreq & _) & _). apply Hreq. now apply nth_error_In in Hnth. }
  (* status, then edit *)
  destruct (StatusForm_save_at w a s i a Hs Ha Hnth eq_refl)
    as (Hr1 & Ho1 & _ & Hi1 & Hj1).
  pose proof (sound_after_StatusForm_save w a s Hs Ha) as Hs1.
  set (w1 := Requests.after (Requests.StatusForm_save a s w)) in *.
  assert (Hnth1 : nth_error (Requests.requests w1) i = Some a).
  { rewrite Hr1. apply (nth_error_list_update_same _ (fun _ => a) _ _ _ Hnth). }
  assert (Hobj1 : Requests.obj w1 a = Requests.set_status s (Requests.obj w a)).
  { rewrite nth_error_rows, Hnth1 in Hi1. cbn in Hi1. now injection Hi1. }
  destruct (ServiceRequestForm_save_at w1 f a i a Hs1 Hreqf Hfilled Hnth1 eq_refl)
    as (_ & _ & Hst1 & Hi2 & Hj2).
  (* edit, then status *)
  destruct (ServiceRequestForm_save_at w f a i a Hs Hreqf Hfilled Hnth eq_refl)
    as (Hr3 & Ho3 & _ & Hi3 & Hj3).
  assert (Hs3 : Requests.sound (Requests.after (Requests.ServiceRequestForm_save f w))).
  { apply sound_after_ServiceRequestForm_save; [exact Hs|].
    intros a' E. rewrite Hreqf in E. now injection E as <-. }
  set (w3 := Requests.after (Requests.ServiceRequestForm_save f w)) in *.
  set (n := List.length (Requests.objects w)) in *.
  assert (Hnth3 : nth_error (Requests.requests w3) i = Some n).
  { rewrite Hr3. apply (nth_error_list_update_same _ (fun _ => n) _ _ _ Hnth). }
  assert (Hobj3 : Requests.obj w3 a = Requests.obj w a).
  { unfold Requests.obj. rewrite Ho3. now apply app_nth1. }
  assert (Hnew3 : Requests.obj w3 n = Requests.form_request f w).
  { rewrite nth_error_rows, Hnth3 in Hi3. cbn in Hi3. now injection Hi3. }
  assert (Ha3 : (a < List.length (Requests.objects w3))%nat).
  { rewrite Ho3, length_app. lia. }
  assert (Hid3 : Requests.r_id (Requests.obj w3 n) = Requests.r_id (Requests.obj w3 a)).
  { rewrite Hnew3, Hobj3. unfold Requests.form_request. now rewrite Hreqf. }
  destruct (StatusForm_save_at w3 a s i n Hs3 Ha3 Hnth3 Hid3)
    as (_ & _ & Hst3 & Hi4 & Hj4).
  cbv zeta. split; [|split; [|split; [|split]]].
  - rewrite Hi2. f_equal. unfold Requests.form_request. rewrite Hreqf, Hobj1.
    reflexivity.
  - rewrite Hi4. now rewrite Hobj3.
  - intros j Hj. split.
    + rewrite (Hj2 j Hj). now apply Hj1.
    + rewrite (Hj4 j Hj). now apply Hj3.
  - exact Hst1.
  - exact Hst3.
Qed.

Lemma status_change_and_edit_of_one_request_witness :
  let mine := Requests.mk_ServiceRequest 1 (Py.lit "101") (Py.lit "Question")
                (Py.lit "Is the gym open?") Requests.Submitted (Py.lit "amy") in
  let w := Requests.open_window [mine] Samples.root true in
  let f := Requests.mk_ServiceRequestForm (Some 0%nat) (Py.lit "101")
             (Py.lit "Question") (Py.lit "Is the pool open?") in
  let resolved := Py.lit "Resolved" in
  Requests.rows
    (Requests.after
       (Requests.ServiceRequestForm_save f
          (Requests.after (Requests.StatusForm_save 0%nat resolved w))))
  = [Requests.mk_ServiceRequest 1 (Py.lit "101") (Py.lit "Question")
       (Py.lit "Is the pool open?") resolved (Py.lit "amy")]
  /\ nth_error
       (Requests.rows
          (Requests.after
             (Requests.StatusForm_save 0%nat resolved
                (Requests.after (Requests.ServiceRequestForm_save f w))))) 0
     = Some (Requests.set_status resolved mine).
Proof.
  intros mine w f resolved. split; [vm_compute; reflexivity|].
  assert (Hs : Requests.sound w).
  { apply request_sound_saved.
    - intros a Ha. cbn in Ha. cbn. lia.
    - unfold Requests.unique_ids. cbn.
      repeat (constructor; [cbn; intuition discriminate|]). constructor. }
  exact (proj1 (proj2
           (status_change_and_edit_of_one_request w 0%nat 0%nat f resolved Hs
              eq_refl eq_refl eq_refl))).
Defined.

(** ** What the request form saves *)






(** ** What a status change changes *)

(** X20.  [StatusForm.save] changes one thing: the status of the
    request the form was opened on.  The request keeps its place and its
    other attributes, every other request stays as it was, the list
    keeps its length and is written to the store.  When the request
    was deleted while the form was open, the list stays as it was:
    nothing comes back. *)
Theorem status_change_in_place : forall w a s,
  Requests.sound w ->
  (a < List.length (Requests.objects w))%nat ->
  let w' := Requests.after (Requests.StatusForm_save a s w) in
  (forall i,
     nth_error (Requests.requests w) i = Some a ->
     nth_error (Requests.rows w') i = Some (Requests.set_status s (Requests.obj w a))
     /\ (forall j, j <> i ->
           nth_error (Requests.rows w') j = nth_error (Requests.rows w) j)
     /\ List.length (Requests.rows w') = List.length (Requests.rows w)
     /\ Requests.rw_store w' = Requests.rows w')
  /\ ((forall x, In x (Requests.requests w) ->
                 Requests.r_id (Requests.obj w x) <> Requests.r_id (Requests.obj w a)) ->
      Requests.rows w' = Requests.rows w).
Proof.
  intros w a s Hs Ha w'. subst w'. split.
  - intros i Hnth.
    destruct (StatusForm_save_at w a s i a Hs Ha Hnth eq_refl)
      as (Hr & _ & Hst & Hi & Hj).
    split; [exact Hi|]. split; [exact Hj|]. split; [|exact Hst].
    unfold Requests.rows. rewrite !length_map, Hr. apply length_list_update.
  - intro Habs. rewrite StatusForm_save_eq. cbv zeta. rewrite rows_saved.
    set (w1 := Requests.with_objects
                 (list_update a (Requests.set_status s) (Requests.objects w)) w).
    rewrite request_replace_absent.
    + unfold Requests.rows. cbn [Requests.requests Requests.with_requests].
      change (Requests.requests w1) with (Requests.requests w).
      change (Requests.obj (Requests.with_requests (Requests.requests w) w1))
        with (Requests.obj w1).
      apply map_ext_in. intros x Hx. unfold w1. rewrite obj_after_status.
      destruct (Nat.eqb_spec x a) as [->|_]; [|reflexivity].
      exfalso. now apply (Habs a Hx).
    + intros x Hx. change (Requests.requests w1) with (Requests.requests w) in Hx.
      unfold w1. rewrite !obj_after_status_id. now apply Habs.
Qed.

Lemma status_change_in_place_witness :
  let mine := Requests.mk_ServiceRequest 1 (Py.lit "101") (Py.lit "Question")
                (Py.lit "Is the gym open?") Requests.Submitted (Py.lit "amy") in
  let other := Requests.mk_ServiceRequest 2 (Py.lit "202") (Py.lit "Suggestion")
                 (Py.lit "More bike racks") Requests.Submitted (Py.lit "bob") in
  let w := Requests.open_window [other; mine] Samples.root true in
  nth_error
    (Requests.rows (Requests.after (Requests.StatusForm_save 1%nat (Py.lit "Resolved") w)))
    1
  = Some (Requests.set_status (Py.lit "Resolved") mine).
Proof.
  intros mine other w.
  assert (Hs : Requests.sound w).
  { apply request_sound_saved.
    - intros a Ha. cbn in Ha. cbn. lia.
    - unfold Requests.unique_ids. cbn.
      repeat (constructor; [cbn; intuition discriminate|]). constructor. }
  assert (Ha : (1 < List.length (Requests.objects w))%nat) by (cbn; lia).
  exact (proj1 (proj1 (status_change_in_place w 1%nat (Py.lit "Resolved") Hs Ha)
                  1%nat eq_refl)).
Defined.
